(** * ichat_to_eml: the attachment container decoder and the two archive adapters

    A shallow embedding of [rtfd_decode.py], [attachment_type.py],
    [bplist_decode.py] and of [parse_typedstream_chat] in [ichat_to_eml.py],
    with the parts of [main] and [eml_from_conv] that are plain computations
    on the conversation.

    Python values are a tagged tree ([pyobj]); a raised exception is the
    [Raise] branch of [result], tagged with the exception class, because the
    [except] clauses of the source select on the class only. *)

From Stdlib Require Import ZArith List Bool Lia Permutation Sorted.
From Stdlib Require Import Strings.String Strings.Ascii Strings.Byte.
Import ListNotations.
Local Open Scope string_scope.
Local Open Scope list_scope.
Local Open Scope Z_scope.
Set Warnings "-register-all".

(** ** Exceptions and fallible computations *)

Inductive exn : Type :=
| TypeError
| KeyError
| IndexError
| AttributeError
| ValueError
| StructError          (* struct.error *)
| UnicodeDecodeError.

Inductive result (A : Type) : Type :=
| Ok (a : A)
| Raise (e : exn).
Arguments Ok {A} a.
Arguments Raise {A} e.

Definition bind {A B} (r : result A) (k : A -> result B) : result B :=
  match r with
  | Ok a => k a
  | Raise e => Raise e
  end.

Notation "x <- r ;; k" := (bind r (fun x => k))
  (at level 61, r at next level, right associativity).
Notation "' p <- r ;; k" := (bind r (fun p => k))
  (at level 61, p pattern, r at next level, right associativity).

(** ** Byte strings, text strings and slices *)

Definition bytes := list byte.

(** A Python [str] is its sequence of code points. *)
Definition pystr := list Z.

Definition byte_val (b : byte) : Z := Z.of_N (Byte.to_N b).

Definition b_ (s : string) : bytes := list_byte_of_string s.
Definition s_ (s : string) : pystr := map byte_val (list_byte_of_string s).

Definition len {A} (l : list A) : Z := Z.of_nat (List.length l).

Fixpoint bytes_eqb (a b : bytes) : bool :=
  match a, b with
  | [], [] => true
  | x :: a', y :: b' => Byte.eqb x y && bytes_eqb a' b'
  | _, _ => false
  end.

Fixpoint pystr_eqb (a b : pystr) : bool :=
  match a, b with
  | [], [] => true
  | x :: a', y :: b' => (x =? y) && pystr_eqb a' b'
  | _, _ => false
  end.

(** Where a slice bound lands in a sequence of length [n]: negative bounds
    count from the end, and every bound is clamped into [0..n]. *)
Definition clamp_index (n i : Z) : Z :=
  if i <? 0 then Z.max 0 (i + n) else Z.min i n.

(** [l[a:b]] *)
Definition py_slice {A} (l : list A) (a b : Z) : list A :=
  let lo := clamp_index (len l) a in
  let hi := clamp_index (len l) b in
  firstn (Z.to_nat (hi - lo)) (skipn (Z.to_nat lo) l).

(** [l[a:]] *)
Definition py_slice_from {A} (l : list A) (a : Z) : list A :=
  skipn (Z.to_nat (clamp_index (len l) a)) l.

(** ** [struct.unpack] for the two formats the decoder uses *)

Fixpoint le_unsigned (b : bytes) : Z :=
  match b with
  | [] => 0
  | x :: b' => byte_val x + 256 * le_unsigned b'
  end.

Definition to_signed32 (u : Z) : Z :=
  if u <? 2147483648 then u else u - 4294967296.

(** [struct.unpack('<i', buf)[0]] and [struct.unpack('<l', buf)[0]]: with the
    [<] prefix both are four bytes, signed, little-endian; a buffer of any
    other length raises [struct.error]. *)
Definition unpack_i32 (buf : bytes) : result Z :=
  if len buf =? 4 then Ok (to_signed32 (le_unsigned buf)) else Raise StructError.

(** [b''.join(struct.unpack(str(count) + 'c', buf))]: a negative count makes
    the format string ill-formed, and the buffer must have exactly [count]
    bytes; both failures are [struct.error]. *)
Definition unpack_chars (count : Z) (buf : bytes) : result bytes :=
  if count <? 0 then Raise StructError
  else if len buf =? count then Ok buf
  else Raise StructError.

(** ** [bytes.decode] *)

Definition is_cont (b : Z) : bool := (128 <=? b) && (b <=? 191).
Definition in_range (lo hi b : Z) : bool := (lo <=? b) && (b <=? hi).

(** Strict UTF-8: no overlong forms, no surrogates, nothing above U+10FFFF. *)
Fixpoint decode_utf8_vals (l : list Z) : result pystr :=
  match l with
  | [] => Ok []
  | b0 :: r0 =>
    if b0 <? 128 then
      (rest <- decode_utf8_vals r0 ;; Ok (b0 :: rest))
    else if in_range 194 223 b0 then
      match r0 with
      | b1 :: r1 =>
        if is_cont b1 then
          (rest <- decode_utf8_vals r1 ;;
           Ok (((b0 - 192) * 64 + (b1 - 128)) :: rest))
        else Raise UnicodeDecodeError
      | _ => Raise UnicodeDecodeError
      end
    else if in_range 224 239 b0 then
      match r0 with
      | b1 :: b2 :: r2 =>
        if (if b0 =? 224 then in_range 160 191 b1
            else if b0 =? 237 then in_range 128 159 b1
            else is_cont b1) && is_cont b2 then
          (rest <- decode_utf8_vals r2 ;;
           Ok (((b0 - 224) * 4096 + (b1 - 128) * 64 + (b2 - 128)) :: rest))
        else Raise UnicodeDecodeError
      | _ => Raise UnicodeDecodeError
      end
    else if in_range 240 244 b0 then
      match r0 with
      | b1 :: b2 :: b3 :: r3 =>
        if (if b0 =? 240 then in_range 144 191 b1
            else if b0 =? 244 then in_range 128 143 b1
            else is_cont b1) && is_cont b2 && is_cont b3 then
          (rest <- decode_utf8_vals r3 ;;
           Ok (((b0 - 240) * 262144 + (b1 - 128) * 4096
                + (b2 - 128) * 64 + (b3 - 128)) :: rest))
        else Raise UnicodeDecodeError
      | _ => Raise UnicodeDecodeError
      end
    else Raise UnicodeDecodeError
  end.

(** [b.decode('utf-8')] *)
Definition decode_utf8 (b : bytes) : result pystr :=
  decode_utf8_vals (map byte_val b).

(** [b.decode('ascii')] *)
Definition decode_ascii (b : bytes) : result pystr :=
  if forallb (fun x => byte_val x <? 128) b then Ok (map byte_val b)
  else Raise UnicodeDecodeError.

(** ** Python values

    The values the two archive libraries hand over: scalars, lists (and
    tuples), dictionaries in insertion order, and class instances as their
    attribute table.  A [float] is kept as its IEEE-754 bit pattern. *)

Inductive pyobj : Type :=
| PNone
| PBool (b : bool)
| PInt (z : Z)
| PFloat (bits : Z)
| PStr (s : pystr)
| PBytes (b : bytes)
| PDatetime (t : Z) (aware : bool)
| PList (l : list pyobj)
| PDict (items : list (pyobj * pyobj))
| PObject (attrs : list (string * pyobj)).

(** [a == b], structurally (two instances with equal attributes compare equal,
    dictionaries compare in insertion order). *)
Fixpoint py_eqb (a b : pyobj) {struct a} : bool :=
  match a, b with
  | PNone, PNone => true
  | PBool x, PBool y => Bool.eqb x y
  | PInt x, PInt y => x =? y
  | PFloat x, PFloat y => x =? y
  | PStr x, PStr y => pystr_eqb x y
  | PBytes x, PBytes y => bytes_eqb x y
  | PDatetime t a1, PDatetime u a2 => (t =? u) && Bool.eqb a1 a2
  | PList l, PList m =>
    (fix go (l m : list pyobj) {struct l} : bool :=
       match l, m with
       | [], [] => true
       | x :: l', y :: m' => py_eqb x y && go l' m'
       | _, _ => false
       end) l m
  | PDict l, PDict m =>
    (fix go (l m : list (pyobj * pyobj)) {struct l} : bool :=
       match l, m with
       | [], [] => true
       | (k, v) :: l', (k', v') :: m' => py_eqb k k' && py_eqb v v' && go l' m'
       | _, _ => false
       end) l m
  | PObject l, PObject m =>
    (fix go (l m : list (string * pyobj)) {struct l} : bool :=
       match l, m with
       | [], [] => true
       | (k, v) :: l', (k', v') :: m' => String.eqb k k' && py_eqb v v' && go l' m'
       | _, _ => false
       end) l m
  | _, _ => false
  end.

(** [o == 'literal']: only a [str] with the same code points is equal to a
    string literal. *)
Definition eq_str (o : pyobj) (s : pystr) : bool :=
  match o with
  | PStr t => pystr_eqb t s
  | _ => false
  end.

Definition is_none (o : pyobj) : bool :=
  match o with PNone => true | _ => false end.

(** Truth value of an object in an [if]. *)
Definition truthy (o : pyobj) : bool :=
  match o with
  | PNone => false
  | PBool b => b
  | PInt z => negb (z =? 0)
  | PFloat bits => negb ((bits =? 0) || (bits =? 9223372036854775808))
  | PStr s => negb (len s =? 0)
  | PBytes b => negb (len b =? 0)
  | PDatetime _ _ => true
  | PList l => negb (len l =? 0)
  | PDict d => negb (len d =? 0)
  | PObject _ => true
  end.

Fixpoint nth_item {A} (l : list A) (n : nat) : result A :=
  match l, n with
  | [], _ => Raise IndexError
  | x :: _, O => Ok x
  | _ :: l', S n' => nth_item l' n'
  end.

(** [l[i]] on a sequence: a negative index counts from the end. *)
Definition seq_index {A} (l : list A) (i : Z) : result A :=
  let j := if i <? 0 then i + len l else i in
  if j <? 0 then Raise IndexError else nth_item l (Z.to_nat j).

Fixpoint dict_get (items : list (pyobj * pyobj)) (k : pyobj) : option pyobj :=
  match items with
  | [] => None
  | (k', v) :: rest => if py_eqb k' k then Some v else dict_get rest k
  end.

(** [o[k]] *)
Definition getitem (o k : pyobj) : result pyobj :=
  match o with
  | PDict items =>
    match dict_get items k with
    | Some v => Ok v
    | None => Raise KeyError
    end
  | PList l =>
    match k with
    | PInt i => seq_index l i
    | _ => Raise TypeError
    end
  | PStr s =>
    match k with
    | PInt i => (c <- seq_index s i ;; Ok (PStr [c]))
    | _ => Raise TypeError
    end
  | PBytes b =>
    match k with
    | PInt i => (c <- seq_index b i ;; Ok (PInt (byte_val c)))
    | _ => Raise TypeError
    end
  | _ => Raise TypeError
  end.

Definition key (o : pyobj) (k : string) : result pyobj := getitem o (PStr (s_ k)).

Fixpoint is_prefix (p s : pystr) : bool :=
  match p, s with
  | [], _ => true
  | x :: p', y :: s' => (x =? y) && is_prefix p' s'
  | _ :: _, [] => false
  end.

(** [p in s] for two strings. *)
Fixpoint is_substring (p s : pystr) : bool :=
  is_prefix p s ||
  match s with
  | [] => false
  | _ :: s' => is_substring p s'
  end.

(** [x in c] *)
Definition contains (x c : pyobj) : result bool :=
  match c with
  | PDict items => Ok (existsb (fun kv => py_eqb (fst kv) x) items)
  | PList l => Ok (existsb (fun y => py_eqb y x) l)
  | PStr s =>
    match x with
    | PStr p => Ok (is_substring p s)
    | _ => Raise TypeError
    end
  | PBytes b =>
    match x with
    | PInt i =>
      if in_range 0 255 i then Ok (existsb (fun y => byte_val y =? i) b)
      else Raise ValueError
    | PBytes p => Ok (is_substring (map byte_val p) (map byte_val b))
    | _ => Raise TypeError
    end
  | _ => Raise TypeError
  end.

Definition has_key (k : string) (c : pyobj) : result bool := contains (PStr (s_ k)) c.

(** The items a [for] loop visits. *)
Definition iterate (o : pyobj) : result (list pyobj) :=
  match o with
  | PList l => Ok l
  | PDict items => Ok (map fst items)
  | PStr s => Ok (map (fun c => PStr [c]) s)
  | PBytes b => Ok (map (fun c => PInt (byte_val c)) b)
  | _ => Raise TypeError
  end.

Fixpoint attr_get (attrs : list (string * pyobj)) (name : string) : option pyobj :=
  match attrs with
  | [] => None
  | (n, v) :: rest => if String.eqb n name then Some v else attr_get rest name
  end.

(** [o.name] for the data attributes the adapters read; only class instances
    carry them. *)
Definition getattr (o : pyobj) (name : string) : result pyobj :=
  match o with
  | PObject attrs =>
    match attr_get attrs name with
    | Some v => Ok v
    | None => Raise AttributeError
    end
  | _ => Raise AttributeError
  end.

(** [o.decode('utf-8')]: a method of [bytes] only. *)
Definition decode_method (o : pyobj) : result pyobj :=
  match o with
  | PBytes b => (s <- decode_utf8 b ;; Ok (PStr s))
  | _ => Raise AttributeError
  end.

(** [list(o.items())]: a method of dictionaries only. *)
Definition items_method (o : pyobj) : result (list (pyobj * pyobj)) :=
  match o with
  | PDict items => Ok items
  | _ => Raise AttributeError
  end.

(** [pytz.UTC.localize(o)]: a naive [datetime] becomes an aware one; an aware
    one is refused, and anything else has no [tzinfo]. *)
Definition localize (o : pyobj) : result pyobj :=
  match o with
  | PDatetime t false => Ok (PDatetime t true)
  | PDatetime _ true => Raise ValueError
  | _ => Raise AttributeError
  end.

Definition is_datetime (o : pyobj) : bool :=
  match o with PDatetime _ _ => true | _ => false end.

(** * rtfd_decode.py *)

Module Rtfd.

(** One entry of [parts]: a dictionary whose keys are filled in by the
    successive passes; a key not yet set is [None] here and reading it is a
    [KeyError]. *)
Record part : Type := mk_part {
  index : Z;
  name : bytes;
  size : option Z;
  contentbytes : option bytes;
  filebytes : option bytes
}.

Definition set_size (p : part) (v : Z) : part :=
  mk_part (index p) (name p) (Some v) (contentbytes p) (filebytes p).
Definition set_contentbytes (p : part) (v : bytes) : part :=
  mk_part (index p) (name p) (size p) (Some v) (filebytes p).
Definition set_filebytes (p : part) (v : bytes) : part :=
  mk_part (index p) (name p) (size p) (contentbytes p) (Some v).

Definition read {A} (field : option A) : result A :=
  match field with
  | Some v => Ok v
  | None => Raise KeyError
  end.

(** The returned [outdict]: each of its two keys may be missing. *)
Record outdict : Type := mk_outdict {
  filename : option pystr;
  data : option bytes
}.

Definition magic : bytes := b_ "rtfd".
Definition utf8_preferred_name : bytes := b_ "__@UTF8PreferredName@__".
Definition preferred_name : bytes := b_ "__@PreferredName@__".
Definition dotdot : bytes := b_ "..".
Definition dot : bytes := b_ ".".

Definition has_rtfd_magic (data : pyobj) : result bool :=
  match data with
  | PBytes d => if bytes_eqb (py_slice d 0 4) magic then Ok true else Ok false
  | _ => Raise TypeError
  end.

(** First loop: [count] name records from [offset] on, numbered from [i]. *)
Fixpoint read_names (data : bytes) (offset : Z) (i : Z) (count : nat)
  : result (list part * Z) :=
  match count with
  | O => Ok ([], offset)
  | S count' =>
    partnamelen <- unpack_i32 (py_slice data offset (offset + 4)) ;;
    let offset := offset + 4 in
    name <- unpack_chars partnamelen (py_slice data offset (offset + partnamelen)) ;;
    let offset := offset + partnamelen in
    ' (rest, offset) <- read_names data offset (i + 1) count' ;;
    Ok (mk_part i name None None None :: rest, offset)
  end.

(** Second loop: one length field per part. *)
Fixpoint read_sizes (data : bytes) (offset : Z) (parts : list part)
  : result (list part * Z) :=
  match parts with
  | [] => Ok ([], offset)
  | p :: ps =>
    size <- unpack_i32 (py_slice data offset (offset + 4)) ;;
    let offset := offset + 4 in
    ' (rest, offset) <- read_sizes data offset ps ;;
    Ok (set_size p size :: rest, offset)
  end.

(** Third loop: the content block of each part. *)
Fixpoint read_contents (data : bytes) (offset : Z) (parts : list part)
  : result (list part * Z) :=
  match parts with
  | [] => Ok ([], offset)
  | p :: ps =>
    sz <- read (size p) ;;
    content <- unpack_chars sz (py_slice data offset (offset + sz)) ;;
    let offset := offset + sz in
    ' (rest, offset) <- read_contents data offset ps ;;
    Ok (set_contentbytes p content :: rest, offset)
  end.

Definition sentinel : Z := -2147483648.

(** Where the file bytes sit inside a content block: [(content_size,
    content_start)]. *)
Definition content_layout (contentbytes : bytes) : result (Z * Z) :=
  content_header <- unpack_i32 (py_slice contentbytes 0 4) ;;
  content_size <- unpack_i32 (py_slice contentbytes 4 8) ;;
  let content_start := 8 in
  if content_size =? sentinel then
    content_size <- unpack_i32 (py_slice contentbytes 8 12) ;;
    padlen <- unpack_i32 (py_slice contentbytes 12 16) ;;
    Ok (content_size, padlen + 16)
  else Ok (content_size, content_start).

(** The file bytes of a content block. *)
Definition extract_file (contentbytes : bytes) : result bytes :=
  ' (content_size, content_start) <- content_layout contentbytes ;;
  unpack_chars content_size (py_slice_from contentbytes content_start).

(** Body of the fourth loop. *)
Definition trim_part (p : part) : result part :=
  contentbytes <- read (contentbytes p) ;;
  file <- extract_file contentbytes ;;
  Ok (set_filebytes p file).

Fixpoint trim_parts (parts : list part) : result (list part) :=
  match parts with
  | [] => Ok []
  | p :: ps =>
    p' <- trim_part p ;;
    rest <- trim_parts ps ;;
    Ok (p' :: rest)
  end.

(** The header and the three tables: the parts and the offset reached. *)
Definition read_tables (data : bytes) : result (list part * Z) :=
  padding <- unpack_i32 (py_slice data 4 8) ;;
  version <- unpack_i32 (py_slice data 8 12) ;;
  numberparts <- unpack_i32 (py_slice data 12 16) ;;
  let offset := 16 in
  ' (parts, offset) <- read_names data offset 0 (Z.to_nat numberparts) ;;
  ' (parts, offset) <- read_sizes data offset parts ;;
  read_contents data offset parts.

(** The file-name loop: stops at the first part carrying either name. *)
Fixpoint find_filename (parts : list part) : result (option pystr) :=
  match parts with
  | [] => Ok None
  | p :: ps =>
    if bytes_eqb (name p) utf8_preferred_name then
      fb <- read (filebytes p) ;;
      s <- decode_utf8 fb ;;
      Ok (Some s)
    else if bytes_eqb (name p) preferred_name then
      fb <- read (filebytes p) ;;
      s <- decode_ascii fb ;;
      Ok (Some s)
    else find_filename ps
  end.

(** The data loop: stops at the first part named [..] or [.]. *)
Fixpoint find_data (parts : list part) : result (option bytes) :=
  match parts with
  | [] => Ok None
  | p :: ps =>
    if bytes_eqb (name p) dotdot then
      fb <- read (filebytes p) ;;
      Ok (Some fb)
    else if bytes_eqb (name p) dot then
      fb <- read (filebytes p) ;;
      Ok (Some fb)
    else find_data ps
  end.

Definition build_outdict (parts : list part) : result outdict :=
  fn <- find_filename parts ;;
  d <- find_data parts ;;
  Ok (mk_outdict fn d).

(** The parts as they stand after the fourth loop. *)
Definition decode_parts (data : bytes) : result (list part) :=
  ' (parts, _) <- read_tables data ;;
  trim_parts parts.

Definition decode_rtfd (data : pyobj) : result outdict :=
  ok <- has_rtfd_magic data ;;
  if negb ok then Raise TypeError
  else
    match data with
    | PBytes d =>
      parts <- decode_parts d ;;
      build_outdict parts
    | _ => Raise TypeError
    end.

End Rtfd.

(** What the fourth loop leaves in a part: its file bytes are the rest of the
    content block from the start offset on, [content_size] bytes long. *)
Definition trimmed (p : Rtfd.part) : Prop :=
  exists (cb : bytes) (size start : Z),
    Rtfd.contentbytes p = Some cb /\
    Rtfd.content_layout cb = Ok (size, start) /\
    Rtfd.filebytes p = Some (py_slice_from cb start) /\
    len (py_slice_from cb start) = size /\
    (start < 0 \/ py_slice_from cb start = py_slice cb start (start + size)).


(** Little-endian encoding of a 32-bit field, to build test buffers. *)
Definition byte_of_Z (z : Z) : byte :=
  match Byte.of_N (Z.to_N (z mod 256)) with
  | Some b => b
  | None => x00
  end.

Definition le32 (z : Z) : bytes :=
  let u := z mod 4294967296 in
  [byte_of_Z u; byte_of_Z (u / 256); byte_of_Z (u / 65536); byte_of_Z (u / 16777216)].

(** A content block in the standard layout and one in the extended layout,
    with [pad] between the 16-byte header and the file. *)
Definition standard_block (hdr : Z) (payload : bytes) : bytes :=
  le32 hdr ++ le32 (len payload) ++ payload.


(** A container holding the given [(name, content block)] entries. *)
Definition container (entries : list (bytes * bytes)) : bytes :=
  Rtfd.magic ++ le32 0 ++ le32 3 ++ le32 (len entries)
  ++ flat_map (fun e => le32 (len (fst e)) ++ fst e) entries
  ++ flat_map (fun e => le32 (len (snd e))) entries
  ++ flat_map snd entries.

(** The two-part container of the end-to-end example, with [tail] following
    the five content bytes of the [.] part. *)
Definition note_container (tail : bytes) : bytes :=
  container [(Rtfd.utf8_preferred_name, standard_block 1 (b_ "note.txt"));
             (Rtfd.dot, le32 1 ++ le32 5 ++ b_ "hello" ++ tail)].


(** Both file-name parts, in the two possible orders. *)
Definition named_container (utf8_first : bool) : bytes :=
  let u := (Rtfd.utf8_preferred_name, standard_block 1 (b_ "utf8.txt")) in
  let a := (Rtfd.preferred_name, standard_block 1 (b_ "plain.txt")) in
  container (if utf8_first then [u; a] else [a; u]).

(** Both data parts, in the two possible orders. *)
Definition data_container (dotdot_first : bool) : bytes :=
  let dd := (Rtfd.dotdot, standard_block 1 (b_ "outer")) in
  let d := (Rtfd.dot, standard_block 1 (b_ "inner")) in
  container (if dotdot_first then [dd; d] else [d; dd]).


(** * The conversation model shared by the two adapters

    Each dictionary of the source is a record whose fields are the keys the
    code may set; an absent key is [None]. *)

Record Attachment : Type := mk_attachment {
  att_filename : option pystr;
  att_data : option pyobj;
  att_name : option pystr;
  att_type : option pystr;
  att_content_id : option pystr
}.

Record Message : Type := mk_message {
  m_guid : option pyobj;
  m_from : option pyobj;
  m_fromguid : option pyobj;
  m_dateobj : option pyobj;
  m_text : option pyobj;
  m_textfont : option pyobj;
  m_textsize : option pyobj;
  m_textcolor : option pystr;
  m_bgcolor : option pystr;
  m_attachment : option Attachment
}.

Record Conversation : Type := mk_conversation {
  participants : list pyobj;
  userids : option (list pyobj);
  names : option (list pyobj);
  messages : list Message;
  startobj : option pyobj;
  endobj : option pyobj;
  dateobj : option pyobj;
  protocol : pyobj;
  totalmessages : option pyobj;
  hasattachments : option bool
}.

Definition empty_message : Message :=
  mk_message None None None None None None None None None None.

Definition set_guid (m : Message) (v : pyobj) : Message :=
  mk_message (Some v) (m_from m) (m_fromguid m) (m_dateobj m) (m_text m)
             (m_textfont m) (m_textsize m) (m_textcolor m) (m_bgcolor m) (m_attachment m).
Definition set_from (m : Message) (v : pyobj) : Message :=
  mk_message (m_guid m) (Some v) (m_fromguid m) (m_dateobj m) (m_text m)
             (m_textfont m) (m_textsize m) (m_textcolor m) (m_bgcolor m) (m_attachment m).
Definition set_fromguid (m : Message) (v : pyobj) : Message :=
  mk_message (m_guid m) (m_from m) (Some v) (m_dateobj m) (m_text m)
             (m_textfont m) (m_textsize m) (m_textcolor m) (m_bgcolor m) (m_attachment m).
Definition set_dateobj (m : Message) (v : pyobj) : Message :=
  mk_message (m_guid m) (m_from m) (m_fromguid m) (Some v) (m_text m)
             (m_textfont m) (m_textsize m) (m_textcolor m) (m_bgcolor m) (m_attachment m).
Definition set_text (m : Message) (v : pyobj) : Message :=
  mk_message (m_guid m) (m_from m) (m_fromguid m) (m_dateobj m) (Some v)
             (m_textfont m) (m_textsize m) (m_textcolor m) (m_bgcolor m) (m_attachment m).
Definition set_textfont (m : Message) (v : pyobj) : Message :=
  mk_message (m_guid m) (m_from m) (m_fromguid m) (m_dateobj m) (m_text m)
             (Some v) (m_textsize m) (m_textcolor m) (m_bgcolor m) (m_attachment m).
Definition set_textsize (m : Message) (v : pyobj) : Message :=
  mk_message (m_guid m) (m_from m) (m_fromguid m) (m_dateobj m) (m_text m)
             (m_textfont m) (Some v) (m_textcolor m) (m_bgcolor m) (m_attachment m).
Definition set_textcolor (m : Message) (v : pystr) : Message :=
  mk_message (m_guid m) (m_from m) (m_fromguid m) (m_dateobj m) (m_text m)
             (m_textfont m) (m_textsize m) (Some v) (m_bgcolor m) (m_attachment m).
Definition set_bgcolor (m : Message) (v : pystr) : Message :=
  mk_message (m_guid m) (m_from m) (m_fromguid m) (m_dateobj m) (m_text m)
             (m_textfont m) (m_textsize m) (m_textcolor m) (Some v) (m_attachment m).
Definition set_attachment (m : Message) (v : Attachment) : Message :=
  mk_message (m_guid m) (m_from m) (m_fromguid m) (m_dateobj m) (m_text m)
             (m_textfont m) (m_textsize m) (m_textcolor m) (m_bgcolor m) (Some v).

(** [x in l] for a list [l] of values. *)
Definition member (x : pyobj) (l : list pyobj) : bool :=
  existsb (fun y => py_eqb y x) l.

(** The closing step of both adapters: fewer than two participants get one
    ['UNKNOWN'] appended. *)
Definition pad_participants (ps : list pyobj) : list pyobj :=
  if len ps <? 2 then ps ++ [PStr (s_ "UNKNOWN")] else ps.

(** What the adapters take from outside the repository: python-magic's
    [magic.from_buffer(_, mime=True)], [hashlib.md5(_).hexdigest()], and the
    float conversions [str(int(x * 255))] and [str(x)]. *)
Record externals : Type := mk_externals {
  sniff_mime : bytes -> pystr;
  md5_hexdigest : bytes -> pystr;
  scaled_channel : pyobj -> result pystr;
  str_of : pyobj -> result pystr
}.

(** * attachment_type.py *)

Definition nsfilewrapper_type : pystr := s_ "application/x-nsfilewrapper-serialized".

Definition determine_attachment_type (ext : externals) (data : pyobj) : result pystr :=
  is_rtfd <- Rtfd.has_rtfd_magic data ;;
  if is_rtfd then Ok nsfilewrapper_type
  else
    match data with
    | PBytes d => Ok (sniff_mime ext d)
    | _ => Raise TypeError
    end.

(** [hashlib.md5(data).hexdigest()]: only a bytes-like argument is hashed. *)
Definition content_id (ext : externals) (data : pyobj) : result pystr :=
  match data with
  | PBytes d => Ok (md5_hexdigest ext d)
  | _ => Raise TypeError
  end.

(** [attachment = rtfd_decode.decode_rtfd(data)] and the three assignments that
    follow it in both adapters, up to and including the type. *)
Definition decoded_attachment (ext : externals) (data : pyobj) : result Attachment :=
  out <- Rtfd.decode_rtfd data ;;
  fname <- Rtfd.read (Rtfd.filename out) ;;
  payload <- Rtfd.read (Rtfd.data out) ;;
  type <- determine_attachment_type ext (PBytes payload) ;;
  Ok (mk_attachment (Some fname) (Some (PBytes payload)) (Some fname) (Some type) None).

Definition set_content_id (a : Attachment) (v : pystr) : Attachment :=
  mk_attachment (att_filename a) (att_data a) (att_name a) (att_type a) (Some v).

(** ** String methods used on identifiers and names *)

Fixpoint drop_while {A} (f : A -> bool) (l : list A) : list A :=
  match l with
  | [] => []
  | x :: l' => if f x then drop_while f l' else l
  end.

Definition strip_with {A} (ws : A -> bool) (l : list A) : list A :=
  rev (drop_while ws (rev (drop_while ws l))).

(** The code points [str.strip()] removes. *)
Definition is_space (c : Z) : bool :=
  in_range 9 13 c || in_range 28 32 c || (c =? 133) || (c =? 160) || (c =? 5760)
  || in_range 8192 8202 c || (c =? 8232) || (c =? 8233) || (c =? 8239)
  || (c =? 8287) || (c =? 12288).

(** The bytes [bytes.strip()] removes. *)
Definition is_space_byte (b : byte) : bool :=
  in_range 9 13 (byte_val b) || (byte_val b =? 32).

(** [o.strip()] *)
Definition strip_method (o : pyobj) : result pyobj :=
  match o with
  | PStr s => Ok (PStr (strip_with is_space s))
  | PBytes b => Ok (PBytes (strip_with is_space_byte b))
  | _ => Raise AttributeError
  end.

(** The segment after the last colon. *)
Fixpoint last_segment (acc s : pystr) : pystr :=
  match s with
  | [] => rev acc
  | c :: s' => if c =? 58 then last_segment [] s' else last_segment (c :: acc) s'
  end.

(** [o.split(':')[-1]] *)
Definition split_last (o : pyobj) : result pyobj :=
  match o with
  | PStr s => Ok (PStr (last_segment [] s))
  | PBytes _ => Raise TypeError
  | _ => Raise AttributeError
  end.

(** * bplist_decode.py *)

Module Bplist.

Section Adapter.
Variable ext : externals.

(** The [for u in metadata['Participants']] loop. *)
Fixpoint strip_all (us : list pyobj) (names : list pyobj) : result (list pyobj) :=
  match us with
  | [] => Ok names
  | u :: us' =>
    n <- strip_method u ;;
    strip_all us' (names ++ [n])
  end.

Definition read_names (metadata : pyobj) : result (list pyobj) :=
  ps <- key metadata "Participants" ;;
  names <- match ps with
           | PStr _ => (n <- strip_method ps ;; Ok [n])
           | _ => Ok []
           end ;;
  match ps with
  | PList us => strip_all us names
  | _ => Ok names
  end.

(** The [for u in metadata['PresentityIDs']] loop. *)
Fixpoint add_userids (us : list pyobj) (userids : list pyobj) : result (list pyobj) :=
  match us with
  | [] => Ok userids
  | u :: us' =>
    id <- split_last u ;;
    add_userids us' (if negb (member id userids) then userids ++ [id] else userids)
  end.

Definition read_userids (metadata : pyobj) : result (list pyobj) :=
  present <- has_key "PresentityIDs" metadata ;;
  if present then
    ids <- key metadata "PresentityIDs" ;;
    us <- iterate ids ;;
    add_userids us []
  else Ok [].

Definition read_totalmessages (metadata : pyobj) : result (option pyobj) :=
  present <- has_key "LastMessageID" metadata ;;
  if present then (v <- key metadata "LastMessageID" ;; Ok (Some v))
  else Ok None.

(** The [if 'Sender' in msg_obj] block. *)
Definition read_sender (msg_obj : pyobj) (participants : list pyobj) (message : Message)
  : result (list pyobj * Message) :=
  present <- has_key "Sender" msg_obj ;;
  if present then
    sender <- key msg_obj "Sender" ;;
    if is_none sender then Ok (participants, set_from message (PStr []))
    else
      has_id <- has_key "ID" sender ;;
      if has_id then
        id <- key sender "ID" ;;
        from <- split_last id ;;
        Ok (if negb (member from participants) then participants ++ [from] else participants,
            set_from message from)
      else
        has_account <- has_key "AccountID" sender ;;
        if has_account then
          account <- key sender "AccountID" ;;
          Ok (participants, set_fromguid message account)
        else Ok (participants, message)
  else Ok (participants, message).

(** [message['textfont']] and [message['textsize']] from a font holder. *)
Definition read_font (holder : pyobj) (message : Message) : result Message :=
  font <- key holder "NSFont" ;;
  fname <- key font "NSName" ;;
  fsize <- key font "NSSize" ;;
  Ok (set_textsize (set_textfont message fname) fsize).

Definition read_style (attrs : pyobj) (message : Message) : result Message :=
  direct <- has_key "NSFont" attrs ;;
  if direct then read_font attrs message
  else
    match attrs with
    | PList _ =>
      first <- getitem attrs (PInt 0) ;;
      wrapped <- has_key "NSFont" first ;;
      if wrapped then read_font first message else Ok message
    | _ => Ok message
    end.

(** The [if 'NSAttachment' in ...] block: the message and the value of
    [conversation['hasattachments']] after it.  In the branch of a null
    wrapper the dictionary [attachment] is filled in and then goes out of
    scope: no assignment stores it in [message]. *)
Definition read_attachment (attrs : pyobj) (message : Message) (hasatt : option bool)
  : result (Message * option bool) :=
  marked <- has_key "NSAttachment" attrs ;;
  if marked then
    holder <- key attrs "NSAttachment" ;;
    wrapped <- has_key "NSFileWrapper" holder ;;
    if wrapped then
      wrapper <- key holder "NSFileWrapper" ;;
      if truthy wrapper then
        wdata <- key wrapper "NSFileWrapperData" ;;
        payload <- key wdata "NS.data" ;;
        is_rtfd <- Rtfd.has_rtfd_magic payload ;;
        if is_rtfd then
          attachment <- decoded_attachment ext payload ;;
          data <- Rtfd.read (att_data attachment) ;;
          cid <- content_id ext data ;;
          Ok (set_attachment message (set_content_id attachment cid), Some true)
        else Ok (message, Some true)
      else
        let attachment :=
          mk_attachment None (Some (PStr [])) (Some (s_ "Empty Attachment")) None None in
        Ok (message, Some true)
    else Ok (message, hasatt)
  else Ok (message, hasatt).

(** The [if 'MessageText' in msg_obj] block. *)
Definition read_text (msg_obj : pyobj) (message : Message) (hasatt : option bool)
  : result (Message * option bool) :=
  present <- has_key "MessageText" msg_obj ;;
  if present then
    mt <- key msg_obj "MessageText" ;;
    body <- key mt "NSString" ;;
    let message := set_text message body in
    styled <- has_key "NSAttributes" mt ;;
    if styled then
      attrs <- key mt "NSAttributes" ;;
      message <- read_style attrs message ;;
      read_attachment attrs message hasatt
    else Ok (message, hasatt)
  else Ok (message, hasatt).

(** The part of [conversation] the message loop updates. *)
Record loop_state : Type := mk_loop_state {
  ls_participants : list pyobj;
  ls_messages : list Message;
  ls_hasattachments : option bool
}.

(** Body of [for msg_obj in root_obj[2]]. *)
Definition process_message (st : loop_state) (msg_obj : pyobj) : result loop_state :=
  cls <- key msg_obj "$class" ;;
  cname <- key cls "$classname" ;;
  if eq_str cname (s_ "InstantMessage") then
    let message := empty_message in
    has_guid <- has_key "GUID" msg_obj ;;
    message <- (if has_guid then (g <- key msg_obj "GUID" ;; Ok (set_guid message g))
                else Ok message) ;;
    ' (participants, message) <- read_sender msg_obj (ls_participants st) message ;;
    has_time <- has_key "Time" msg_obj ;;
    message <- (if has_time then
                  (t <- key msg_obj "Time" ;; d <- localize t ;; Ok (set_dateobj message d))
                else Ok message) ;;
    ' (message, hasatt) <- read_text msg_obj message (ls_hasattachments st) ;;
    Ok (mk_loop_state participants (ls_messages st ++ [message]) hasatt)
  else Ok st.

Fixpoint process_messages (st : loop_state) (msg_objs : list pyobj) : result loop_state :=
  match msg_objs with
  | [] => Ok st
  | msg_obj :: rest =>
    st' <- process_message st msg_obj ;;
    process_messages st' rest
  end.

(** [bplist_to_conv], from the deserialised archive [base_obj] on. *)
Definition bplist_to_conv (base_obj : pyobj) : result Conversation :=
  root_obj <- key base_obj "root" ;;
  metadata <- key base_obj "metadata" ;;
  start <- key metadata "StartTime" ;;
  startobj <- localize start ;;
  endt <- key metadata "EndTime" ;;
  endobj <- localize endt ;;
  let dateobj := endobj in
  service <- key metadata "Service" ;;
  let protocol :=
    if eq_str service (s_ "AOL Instant Messenger") then PStr (s_ "AIM") else service in
  names <- read_names metadata ;;
  userids <- read_userids metadata ;;
  totalmessages <- read_totalmessages metadata ;;
  msg_list <- getitem root_obj (PInt 2) ;;
  msg_objs <- iterate msg_list ;;
  st <- process_messages (mk_loop_state [] [] None) msg_objs ;;
  Ok (mk_conversation (pad_participants (ls_participants st)) (Some userids) (Some names)
                      (ls_messages st) (Some startobj) (Some endobj) (Some dateobj)
                      protocol totalmessages (ls_hasattachments st)).

End Adapter.
End Bplist.

(** * ichat_to_eml.py: [parse_typedstream_chat] *)

Module IChat.

(** What the function mutates while it runs: three entries of [conversation]
    and the local [message]. *)
Record state : Type := mk_state {
  s_participants : list pyobj;
  s_hasattachments : bool;
  s_messages : list Message;
  s_message : Message
}.

Definition with_participants (s : state) (v : list pyobj) : state :=
  mk_state v (s_hasattachments s) (s_messages s) (s_message s).
Definition with_hasattachments (s : state) (v : bool) : state :=
  mk_state (s_participants s) v (s_messages s) (s_message s).
Definition with_message (s : state) (v : Message) : state :=
  mk_state (s_participants s) (s_hasattachments s) (s_messages s) v.

(** A statement either completes or raises; in both cases the mutations made
    so far stay, which is what an [except ...: pass] clause resumes from. *)
Inductive outcome : Type :=
| Normal (s : state)
| Abrupt (s : state) (e : exn).

(** Evaluate an expression in state [s]; an exception leaves [s] as it is. *)
Definition eval {A} (s : state) (r : result A) (k : A -> outcome) : outcome :=
  match r with
  | Ok a => k a
  | Raise e => Abrupt s e
  end.

Definition and_then (o : outcome) (k : state -> outcome) : outcome :=
  match o with
  | Normal s => k s
  | Abrupt s e => Abrupt s e
  end.

Fixpoint for_each {A} (body : state -> A -> outcome) (s : state) (l : list A) : outcome :=
  match l with
  | [] => Normal s
  | x :: l' => and_then (body s x) (fun s' => for_each body s' l')
  end.

(** [try: body except <handled>: pass] *)
Definition try_except (handled : exn -> bool) (body : outcome) : outcome :=
  match body with
  | Normal s => Normal s
  | Abrupt s e => if handled e then Normal s else Abrupt s e
  end.

Definition attribute_error (e : exn) : bool :=
  match e with AttributeError => true | _ => false end.

Definition attribute_or_index_error (e : exn) : bool :=
  match e with AttributeError | IndexError => true | _ => false end.

Notation "x <-[ s ] r ;; k" := (eval s r (fun x => k))
  (at level 61, r at next level, right associativity).

Section Adapter.
Variable ext : externals.

(** [o.clazz.name.decode('utf-8')] *)
Definition class_name (o : pyobj) : result pyobj :=
  c <- getattr o "clazz" ;;
  n <- getattr c "name" ;;
  decode_method n.

(** [o.value.value] *)
Definition value_value (o : pyobj) : result pyobj :=
  v <- getattr o "value" ;;
  getattr v "value".

(** First [try] of the contents loop. *)
Definition presentity_block (s : state) (i : pyobj) : outcome :=
  try_except attribute_error
    (v <-[s] getattr i "value" ;;
     cn <-[s] class_name v ;;
     if eq_str cn (s_ "Presentity") then
       who <-[s] (cs <- getattr v "contents" ;;
                  c1 <- getitem cs (PInt 1) ;;
                  value_value c1) ;;
       let s := if negb (member who (s_participants s))
                then with_participants s (s_participants s ++ [who]) else s in
       Normal (with_message s (set_from (s_message s) who))
     else Normal s).

(** Second [try] of the contents loop. *)
Definition date_block (s : state) (i : pyobj) : outcome :=
  try_except attribute_error
    (d <-[s] value_value i ;;
     if is_datetime d then Normal (with_message s (set_dateobj (s_message s) d))
     else Normal s).

(** ['rgba(' + str(int(c.red * 255)) + sep + ... + str(c.alpha) + ')'] *)
Definition rgba (sep : pystr) (c : pyobj) : result pystr :=
  r <- getattr c "red" ;;
  r <- scaled_channel ext r ;;
  g <- getattr c "green" ;;
  g <- scaled_channel ext g ;;
  b <- getattr c "blue" ;;
  b <- scaled_channel ext b ;;
  a <- getattr c "alpha" ;;
  a <- str_of ext a ;;
  Ok (s_ "rgba(" ++ r ++ sep ++ g ++ sep ++ b ++ sep ++ a ++ s_ ")").

(** The local [attachment] built for an ['NSAttachment'] entry. *)
Definition build_attachment (v : pyobj) : result Attachment :=
  attachmentdataobj <- (c <- getattr v "contents" ;;
                        c0 <- getitem c (PInt 0) ;;
                        vs <- getattr c0 "values" ;;
                        v1 <- getitem vs (PInt 1) ;;
                        c' <- getattr v1 "contents" ;;
                        c0' <- getitem c' (PInt 0) ;;
                        getattr c0' "value") ;;
  data <- getattr attachmentdataobj "data" ;;
  type <- determine_attachment_type ext data ;;
  let attachment :=
    mk_attachment None (Some data) (Some (s_ "Unnamed Attachment")) (Some type) None in
  attachment <- (if pystr_eqb type nsfilewrapper_type
                 then decoded_attachment ext data
                 else Ok attachment) ;;
  payload <- Rtfd.read (att_data attachment) ;;
  cid <- content_id ext payload ;;
  Ok (set_content_id attachment cid).

(** Body of [for j in list(....items())]: four independent [if]s on the key. *)
Definition attribute_entry (s : state) (j : pyobj * pyobj) : outcome :=
  let k := fst j in
  let v := snd j in
  kv <-[s] getattr k "value" ;;
  and_then
    (if eq_str kv (s_ "NSFont") then
       fname <-[s] getattr v "name" ;;
       let s := with_message s (set_textfont (s_message s) fname) in
       fsize <-[s] getattr v "size" ;;
       Normal (with_message s (set_textsize (s_message s) fsize))
     else Normal s)
    (fun s =>
  and_then
    (if eq_str kv (s_ "NSColor") then
       c <-[s] (textcolorobj <- getattr v "value" ;; rgba (s_ ", ") textcolorobj) ;;
       Normal (with_message s (set_textcolor (s_message s) c))
     else Normal s)
    (fun s =>
  and_then
    (if eq_str kv (s_ "NSBackgroundColor") then
       c <-[s] (bgcolorobj <- getattr v "value" ;; rgba (s_ ",") bgcolorobj) ;;
       Normal (with_message s (set_bgcolor (s_message s) c))
     else Normal s)
    (fun s =>
     if eq_str kv (s_ "NSAttachment") then
       attachment <-[s] build_attachment v ;;
       Normal (with_hasattachments
                 (with_message s (set_attachment (s_message s) attachment)) true)
     else Normal s))).

(** Third [try] of the contents loop. *)
Definition text_block (s : state) (i : pyobj) : outcome :=
  try_except attribute_or_index_error
    (v <-[s] getattr i "value" ;;
     cn <-[s] class_name v ;;
     if eq_str cn (s_ "NSAttributedString") then
       body <-[s] (cs <- getattr v "contents" ;;
                   c0 <- getitem cs (PInt 0) ;;
                   value_value c0) ;;
       let s := with_message s (set_text (s_message s) body) in
       entries <-[s] (cs <- getattr v "contents" ;;
                      c2 <- getitem cs (PInt 2) ;;
                      d <- getattr c2 "value" ;;
                      d' <- getattr d "contents" ;;
                      items_method d') ;;
       for_each attribute_entry s entries
     else Normal s).

(** Body of [for i in msgobj.contents]. *)
Definition content_item (s : state) (i : pyobj) : outcome :=
  and_then (presentity_block s i) (fun s =>
  and_then (date_block s i) (fun s =>
  text_block s i)).

(** Body of [for msgobj in tschat.elements[2].elements]. *)
Definition message_object (s : state) (msgobj : pyobj) : outcome :=
  cn <-[s] class_name msgobj ;;
  if eq_str cn (s_ "InstantMessage") then
    items <-[s] (cs <- getattr msgobj "contents" ;; iterate cs) ;;
    and_then (for_each content_item s items) (fun s =>
    Normal (mk_state (s_participants s) (s_hasattachments s)
                     (s_messages s ++ [s_message s]) empty_message))
  else Normal s.

(** Body of [for l3 in l2.contents]. *)
Definition stray_entry (protocol : pyobj) (s : state) (l3 : pyobj) : outcome :=
  who <-[s] value_value l3 ;;
  if negb (member who (s_participants s)) then
    in_protocol <-[s] contains who protocol ;;
    if negb in_protocol then Normal (with_participants s (s_participants s ++ [who]))
    else Normal s
  else Normal s.

(** Body of [for l2 in l1.elements]. *)
Definition stray_object (protocol : pyobj) (s : state) (l2 : pyobj) : outcome :=
  try_except attribute_error
    (cn <-[s] class_name l2 ;;
     if eq_str cn (s_ "Presentity") then
       l3s <-[s] (cs <- getattr l2 "contents" ;; iterate cs) ;;
       for_each (stray_entry protocol) s l3s
     else Normal s).

(** Body of [for l1 in tschat.elements[2:]]. *)
Definition stray_group (protocol : pyobj) (s : state) (l1 : pyobj) : outcome :=
  try_except attribute_error
    (l2s <-[s] (es <- getattr l1 "elements" ;; iterate es) ;;
     for_each (stray_object protocol) s l2s).

(** [o[2:]] *)
Definition tail_from_2 (o : pyobj) : result (list pyobj) :=
  match o with
  | PList l => Ok (py_slice_from l 2)
  | PStr s => Ok (map (fun c => PStr [c]) (py_slice_from s 2))
  | PBytes b => Ok (map (fun c => PInt (byte_val c)) (py_slice_from b 2))
  | _ => Raise TypeError
  end.

(** [conversation['messages'][-1]['dateobj']] *)
Definition last_dateobj (msgs : list Message) : result pyobj :=
  m <- seq_index msgs (-1) ;;
  match m_dateobj m with
  | Some d => Ok d
  | None => Raise KeyError
  end.

Definition initial_state : state := mk_state [] false [] empty_message.

(** What [for msgobj in tschat.elements[2].elements] visits. *)
Definition message_objects (tschat : pyobj) : result (list pyobj) :=
  es <- getattr tschat "elements" ;;
  e2 <- getitem es (PInt 2) ;;
  ms <- getattr e2 "elements" ;;
  iterate ms.

(** The two loops, from the unarchived root object [tschat]. *)
Definition run_loops (tschat : pyobj) (protocol : pyobj) : outcome :=
  let s := initial_state in
  msgobjs <-[s] message_objects tschat ;;
  and_then (for_each message_object s msgobjs) (fun s =>
  groups <-[s] (es <- getattr tschat "elements" ;; tail_from_2 es) ;;
  for_each (stray_group protocol) s groups).

Definition parse_typedstream_chat (tschat : pyobj) : result Conversation :=
  protocol <- (es <- getattr tschat "elements" ;;
               e0 <- getitem es (PInt 0) ;;
               getattr e0 "value") ;;
  match run_loops tschat protocol with
  | Abrupt _ e => Raise e
  | Normal s =>
    dateobj <- last_dateobj (s_messages s) ;;
    Ok (mk_conversation (pad_participants (s_participants s)) None None
                        (s_messages s) None None (Some dateobj)
                        protocol None (Some (s_hasattachments s)))
  end.

End Adapter.
End IChat.

(** ** Invariants of the traversal of Adapter B *)

(** The state a statement leaves behind, however it ends. *)
Definition out_state (o : IChat.outcome) : IChat.state :=
  match o with
  | IChat.Normal s => s
  | IChat.Abrupt s _ => s
  end.

(** Whether a message carries an attachment. *)
Definition carries (m : Message) : bool :=
  match m_attachment m with
  | Some _ => true
  | None => false
  end.

(** [hasattachments] tells whether a stored message or the message under
    construction carries an attachment. *)
Definition flag_ok (s : IChat.state) : Prop :=
  IChat.s_hasattachments s =
  existsb carries (IChat.s_messages s) || carries (IChat.s_message s).

(** A step inside one message: the stored messages stay, and the flag stays
    right if it was. *)
Definition step_ok (s s' : IChat.state) : Prop :=
  IChat.s_messages s' = IChat.s_messages s /\ (flag_ok s -> flag_ok s').

(** A step that may only add participants. *)
Definition only_participants (s s' : IChat.state) : Prop :=
  IChat.s_hasattachments s' = IChat.s_hasattachments s /\
  IChat.s_messages s' = IChat.s_messages s /\
  IChat.s_message s' = IChat.s_message s.

(** [msgobj.clazz.name.decode('utf-8') == 'InstantMessage'], false when the
    name cannot be read. *)
Definition is_instant_message (msgobj : pyobj) : bool :=
  match IChat.class_name msgobj with
  | Ok cn => eq_str cn (s_ "InstantMessage")
  | Raise _ => false
  end.

(** Two states agree on the message under construction. *)
Definition same_message (s t : IChat.state) : Prop :=
  IChat.s_message s = IChat.s_message t.

(** Two runs end the same way, with the same message under construction. *)
Definition sim (o1 o2 : IChat.outcome) : Prop :=
  match o1, o2 with
  | IChat.Normal s, IChat.Normal t => same_message s t
  | IChat.Abrupt s e, IChat.Abrupt t e' => same_message s t /\ e = e'
  | _, _ => False
  end.

(** The message an [InstantMessage] object gives when its contents are read
    on their own, from the initial state. *)
Definition message_of (ext : externals) (msgobj : pyobj) : Message :=
  match (cs <- getattr msgobj "contents" ;; iterate cs) with
  | Ok items =>
    IChat.s_message
      (out_state (IChat.for_each (IChat.content_item ext) IChat.initial_state items))
  | Raise _ => empty_message
  end.

(** A step of the message loop, started with nothing under construction: an
    [InstantMessage] object adds its own message, any other object adds none;
    nothing is left under construction, and the flag stays right. *)
Definition message_step_ok (ext : externals) (msgobj : pyobj) (s s' : IChat.state) : Prop :=
  IChat.s_message s = empty_message ->
  IChat.s_messages s' =
  IChat.s_messages s ++ (if is_instant_message msgobj then [message_of ext msgobj] else []) /\
  IChat.s_message s' = empty_message /\
  (flag_ok s -> flag_ok s').

(** * Sample archives *)

Definition obj_of_class (cls : string) (contents : list pyobj) : pyobj :=
  PObject [("clazz", PObject [("name", PBytes (b_ cls))]); ("contents", PList contents)].

(** A typed value wrapping [o]. *)
Definition typed (o : pyobj) : pyobj := PObject [("value", o)].

(** An archived string or date object holding [o]. *)
Definition boxed (o : pyobj) : pyobj := PObject [("value", o)].

Definition presentity (who : string) : pyobj :=
  typed (obj_of_class "Presentity"
           [typed (boxed (PStr (s_ "AIM"))); typed (boxed (PStr (s_ who)))]).

Definition date_value (t : Z) : pyobj := typed (boxed (PDatetime t true)).

Definition attributed_string (contents : list pyobj) : pyobj :=
  typed (obj_of_class "NSAttributedString" contents).

Definition no_attributes : pyobj := typed (PObject [("contents", PDict [])]).

(** A complete message: sender, date, text with an empty attribute table. *)
Definition full_message (who : string) (t : Z) (body : string) : pyobj :=
  obj_of_class "InstantMessage"
    [presentity who; date_value t;
     attributed_string [typed (boxed (PStr (s_ body))); typed PNone; no_attributes]].

(** The same, but the attributed string stops after its text: the attribute
    table expected at [contents[2]] is absent. *)
Definition broken_message (who : string) (t : Z) (body : string) : pyobj :=
  obj_of_class "InstantMessage"
    [presentity who; date_value t;
     attributed_string [typed (boxed (PStr (s_ body)))]].

Definition chat_of (msgs : list pyobj) : pyobj :=
  PObject [("elements",
            PList [boxed (PStr (s_ "AIM")); boxed (PStr []);
                   PObject [("elements", PList msgs)]])].

Definition three_message_chat : pyobj :=
  chat_of [full_message "alice" 100 "one"; broken_message "bob" 200 "two";
           full_message "alice" 300 "three"].

Definition null_externals : externals :=
  mk_externals (fun _ => []) (fun _ => []) (fun _ => Ok []) (fun _ => Ok []).

(** A chat whose only message has a date and a text but no sender. *)
Definition anonymous_chat : pyobj :=
  chat_of [obj_of_class "InstantMessage"
             [date_value 100;
              attributed_string [typed (boxed (PStr (s_ "hello"))); typed PNone;
                                 no_attributes]]].




(** A dictionary with string keys. *)
Definition dict (entries : list (string * pyobj)) : pyobj :=
  PDict (map (fun kv => (PStr (s_ (fst kv)), snd kv)) entries).

Definition instant_message (fields : list (string * pyobj)) : pyobj :=
  dict (("$class", dict [("$classname", PStr (s_ "InstantMessage"))]) :: fields).

Definition keyed_archive (service : string) (msgs : list pyobj) : pyobj :=
  dict [("root", PList [PNone; PNone; PList msgs]);
        ("metadata",
         dict [("StartTime", PDatetime 0 false); ("EndTime", PDatetime 900 false);
               ("Service", PStr (s_ service));
               ("Participants", PList [PStr (s_ "Alice"); PStr (s_ " Bob ")])])].

(** A message whose attachment marker holds a null file wrapper. *)
Definition null_wrapper_message : pyobj :=
  instant_message
    [("Sender", dict [("ID", PStr (s_ "AIM:alice"))]);
     ("Time", PDatetime 60 false);
     ("MessageText",
      dict [("NSString", PStr (s_ "file"));
            ("NSAttributes",
             dict [("NSAttachment", dict [("NSFileWrapper", PNone)])])])].

(** A message whose file wrapper holds bytes that are not a container. *)
Definition plain_payload_message : pyobj :=
  instant_message
    [("Sender", dict [("ID", PStr (s_ "AIM:alice"))]);
     ("Time", PDatetime 60 false);
     ("MessageText",
      dict [("NSString", PStr (s_ "file"));
            ("NSAttributes",
             dict [("NSAttachment",
                    dict [("NSFileWrapper",
                           dict [("NSFileWrapperData",
                                  dict [("NS.data", PBytes (b_ "GIF89a"))])])])])])].

(** A message recorded with no sender. *)
Definition senderless_message : pyobj :=
  instant_message
    [("Sender", PNone); ("Time", PDatetime 60 false);
     ("MessageText", dict [("NSString", PStr (s_ "hi"))])].

(** A message with a GUID whose file wrapper holds the note container. *)
Definition note_message : pyobj :=
  instant_message
    [("GUID", PStr (s_ "G-1"));
     ("Sender", dict [("ID", PStr (s_ "AIM:bob"))]);
     ("Time", PDatetime 120 false);
     ("MessageText",
      dict [("NSString", PStr (s_ "note"));
            ("NSAttributes",
             dict [("NSAttachment",
                    dict [("NSFileWrapper",
                           dict [("NSFileWrapperData",
                                  dict [("NS.data", PBytes (note_container []))])])])])])].

(** An object of the message list that is not an instant message. *)
Definition status_change : pyobj :=
  dict [("$class", dict [("$classname", PStr (s_ "StatusChange"))])].

Definition mixed_archive : pyobj :=
  keyed_archive "Jabber"
    [null_wrapper_message; status_change; senderless_message; note_message;
     plain_payload_message].

(** An archive whose metadata lists presentity identifiers, one account under
    two services. *)
Definition archive_with_ids : pyobj :=
  dict [("root", PList [PNone; PNone; PList [senderless_message]]);
        ("metadata",
         dict [("StartTime", PDatetime 0 false); ("EndTime", PDatetime 900 false);
               ("Service", PStr (s_ "Jabber"));
               ("Participants", PStr (s_ " Alice "));
               ("PresentityIDs",
                PList [PStr (s_ "AIM:alice"); PStr (s_ "Jabber:alice"); PStr (s_ "bob")]);
               ("LastMessageID", PInt 1)])].

(** * ichat_to_eml.py: the [--no-background] step of [main] *)

(** [if 'bgcolor' in message: del (message['bgcolor'])] *)
Definition clear_bgcolor (m : Message) : Message :=
  mk_message (m_guid m) (m_from m) (m_fromguid m) (m_dateobj m) (m_text m)
             (m_textfont m) (m_textsize m) (m_textcolor m) None (m_attachment m).

(** [for message in conversation['messages']: ...] *)
Definition strip_background (conv : Conversation) : Conversation :=
  mk_conversation (participants conv) (userids conv) (names conv)
                  (map clear_bgcolor (messages conv))
                  (startobj conv) (endobj conv) (dateobj conv) (protocol conv)
                  (totalmessages conv) (hasattachments conv).

(** An instant message whose first element is a presentity with no contents. *)
Definition short_presentity_chat : pyobj :=
  chat_of [obj_of_class "InstantMessage" [typed (obj_of_class "Presentity" [])]].

(** * ichat_to_eml.py: the plain-text view built by [eml_from_conv] *)

(** An operand of [+] with a string literal, or an item of [''.join]: only a
    [str] is accepted. *)
Definition as_str (o : pyobj) : result pystr :=
  match o with
  | PStr s => Ok s
  | _ => Raise TypeError
  end.

Section PlainText.
(** [d.astimezone(tz).strftime('%r')], which is pytz's and [datetime]'s. *)
Variable clock : pyobj -> result pystr.

(** [''.join(line)] for the [line] of one message. *)
Definition text_line (message : Message) : result pystr :=
  stamp <- match m_dateobj message with
           | Some d => (t <- clock d ;; Ok (s_ "(" ++ t ++ s_ ")&nbsp;"))
           | None => Ok []
           end ;;
  who <- match m_from message with
         | Some f => (f <- as_str f ;; Ok (f ++ [58; 9]))
         | None => Ok []
         end ;;
  body <- match m_text message with
          | Some t => as_str t
          | None => Ok []
          end ;;
  Ok (stamp ++ who ++ body).

(** The line announcing an attachment: a tab, [Attachment: <], the content
    identifier, [> ] and the name between double quotes. *)
Definition attachment_line (a : Attachment) : result pystr :=
  cid <- Rtfd.read (att_content_id a) ;;
  name <- Rtfd.read (att_name a) ;;
  Ok ([9] ++ s_ "Attachment: <" ++ cid ++ s_ "> " ++ [34] ++ name ++ [34]).

(** [text_lines] after [for message in conv['messages']]. *)
Fixpoint text_lines (msgs : list Message) : result (list pystr) :=
  match msgs with
  | [] => Ok []
  | message :: rest =>
    line <- text_line message ;;
    note <- match m_attachment message with
            | Some a => (l <- attachment_line a ;; Ok [l])
            | None => Ok []
            end ;;
    more <- text_lines rest ;;
    Ok (line :: note ++ more)
  end.

End PlainText.

(** A clock that formats every [datetime] the same way. *)
Definition still_clock (d : pyobj) : result pystr :=
  match d with
  | PDatetime _ _ => Ok (s_ "12:00:00 PM")
  | _ => Raise AttributeError
  end.

(** * ichat_to_eml.py: the [From] and [To] headers of [eml_from_conv] *)

(** [p], between double quotes, then [<p@fakedomain>]: the operand of each
    [+] must be a [str]. *)
Definition address (p : pyobj) (fakedomain : pystr) : result pystr :=
  s <- as_str p ;;
  Ok ([34] ++ s ++ [34; 32] ++ s_ "<" ++ s ++ s_ "@" ++ fakedomain ++ s_ ">").

(** The value of [eml['From']], built from [conv['participants'][0]]. *)
Definition from_header (conv : Conversation) (fakedomain : pystr) : result pystr :=
  p <- seq_index (participants conv) 0 ;;
  address p fakedomain.

(** The value of [eml['To']], built from [conv['participants'][1]]. *)
Definition to_header (conv : Conversation) (fakedomain : pystr) : result pystr :=
  p <- seq_index (participants conv) 1 ;;
  address p fakedomain.

(** * ichat_to_eml.py: the [References] header of [eml_from_conv] *)

(** [a <= b] on strings: by code points, a prefix first. *)
Fixpoint pystr_leb (a b : pystr) : bool :=
  match a, b with
  | [], _ => true
  | _ :: _, [] => false
  | x :: a', y :: b' => (x <? y) || ((x =? y) && pystr_leb a' b')
  end.

Fixpoint insert_sorted (x : pystr) (l : list pystr) : list pystr :=
  match l with
  | [] => [x]
  | y :: l' => if pystr_leb x y then x :: l else y :: insert_sorted x l'
  end.

(** [sorted(l)] on strings. *)
Definition sorted (l : list pystr) : list pystr := fold_right insert_sorted [] l.

(** [sep.join(l)] *)
Fixpoint join (sep : pystr) (l : list pystr) : pystr :=
  match l with
  | [] => []
  | [x] => x
  | x :: l' => x ++ sep ++ join sep l'
  end.

(** The items of a list that [sorted] and [' '.join] accept together: a value
    that is not a [str] is a [TypeError] in the one or in the other. *)
Fixpoint all_str (l : list pyobj) : result (list pystr) :=
  match l with
  | [] => Ok []
  | o :: l' =>
    s <- as_str o ;;
    rest <- all_str l' ;;
    Ok (s :: rest)
  end.

Section References.
Variable ext : externals.
(** [str.lower] and [str.encode('utf-8')]. *)
Variable lower : pystr -> pystr.
Variable encode : pystr -> result bytes.

(** ['<' + hashlib.md5(' '.join(sorted(participants)).lower().encode('utf-8'))
    .hexdigest() + '@' + fakedomain + '>'] *)
Definition references (participants : list pyobj) (fakedomain : pystr) : result pystr :=
  ids <- all_str participants ;;
  encoded <- encode (lower (join [32] (sorted ids))) ;;
  Ok (s_ "<" ++ md5_hexdigest ext encoded ++ s_ "@" ++ fakedomain ++ s_ ">").

End References.

(** * Further notions used to state properties of the code *)

(** The parts a container built from [(name, content block)] entries is read
    back as, numbered from [i]. *)
Fixpoint built_parts (i : Z) (entries : list (bytes * bytes)) : list Rtfd.part :=
  match entries with
  | [] => []
  | e :: rest =>
    Rtfd.mk_part i (fst e) (Some (len (snd e))) (Some (snd e)) None
    :: built_parts (i + 1) rest
  end.

(** The same for a container of [(name, file)] pairs in the standard layout:
    the parts after the fourth loop. *)
Fixpoint decoded_parts (hdr : Z) (i : Z) (files : list (bytes * bytes)) : list Rtfd.part :=
  match files with
  | [] => []
  | f :: rest =>
    Rtfd.mk_part i (fst f) (Some (len (standard_block hdr (snd f))))
                 (Some (standard_block hdr (snd f))) (Some (snd f))
    :: decoded_parts hdr (i + 1) rest
  end.

(** The three tables of a built container, and the parts as they stand after
    the first and after the second loop. *)
Definition name_table (entries : list (bytes * bytes)) : bytes :=
  flat_map (fun e => le32 (len (fst e)) ++ fst e) entries.
Definition size_table (entries : list (bytes * bytes)) : bytes :=
  flat_map (fun e => le32 (len (snd e))) entries.
Definition content_table (entries : list (bytes * bytes)) : bytes :=
  flat_map snd entries.

Fixpoint named_parts (i : Z) (entries : list (bytes * bytes)) : list Rtfd.part :=
  match entries with
  | [] => []
  | e :: rest => Rtfd.mk_part i (fst e) None None None :: named_parts (i + 1) rest
  end.

Fixpoint sized_parts (i : Z) (entries : list (bytes * bytes)) : list Rtfd.part :=
  match entries with
  | [] => []
  | e :: rest =>
    Rtfd.mk_part i (fst e) (Some (len (snd e))) None None :: sized_parts (i + 1) rest
  end.

Definition container_of_files (hdr : Z) (files : list (bytes * bytes)) : bytes :=
  container (map (fun f => (fst f, standard_block hdr (snd f))) files).

(** Sizes that fit the 32-bit fields of a container. *)
Definition fits (entries : list (bytes * bytes)) : Prop :=
  len entries < 2147483648 /\
  Forall (fun e => len (fst e) < 2147483648 /\ len (snd e) < 2147483648) entries.

Definition is_name_marker (p : Rtfd.part) : bool :=
  bytes_eqb (Rtfd.name p) Rtfd.utf8_preferred_name
  || bytes_eqb (Rtfd.name p) Rtfd.preferred_name.

Definition is_data_marker (p : Rtfd.part) : bool :=
  bytes_eqb (Rtfd.name p) Rtfd.dotdot || bytes_eqb (Rtfd.name p) Rtfd.dot.

(** A property of a key that may be absent. *)
Definition opt {A} (P : A -> Prop) (o : option A) : Prop :=
  match o with
  | Some x => P x
  | None => True
  end.

(** A string without a colon. *)
Definition colon_free (p : pyobj) : Prop :=
  exists r, p = PStr r /\ ~ In 58 r.

(** A time-zone aware [datetime]. *)
Definition aware (d : pyobj) : Prop :=
  exists t, d = PDatetime t true.

(** An attachment with every key [eml_from_conv] reads: bytes as ['data'], a
    ['name'], a ['type'] and a ['Content-ID']. *)
Definition complete (a : Attachment) : Prop :=
  (exists b, att_data a = Some (PBytes b)) /\
  att_name a <> None /\ att_type a <> None /\ att_content_id a <> None.

(** No value of the list is equal ([==]) to an earlier one. *)
Definition distinct (l : list pyobj) : Prop :=
  ForallOrdPairs (fun y x => py_eqb y x = false) l.

(** [msg_obj['$class']['$classname'] == 'InstantMessage'], false when the
    class name cannot be read. *)
Definition is_instant_message_a (msg_obj : pyobj) : bool :=
  match (cls <- key msg_obj "$class" ;; key cls "$classname") with
  | Ok cn => eq_str cn (s_ "InstantMessage")
  | Raise _ => false
  end.

(** What holds of every message Adapter A returns. *)
Definition message_ok_a (m : Message) : Prop :=
  opt aware (m_dateobj m) /\
  opt complete (m_attachment m) /\
  opt colon_free (m_from m).

(** The sender of a message is the empty string or one of the participants. *)
Definition sender_known (ps : list pyobj) (m : Message) : Prop :=
  opt (fun who => who = PStr [] \/ member who ps = true) (m_from m).

(** The value a dictionary holds under [k], when the key is there. *)
Definition value_at (o : pyobj) (k : string) : option pyobj :=
  match has_key k o with
  | Ok true => match key o k with Ok v => Some v | Raise _ => None end
  | _ => None
  end.

(** A message of Adapter A carries the GUID, the time (marked as UTC) and the
    text of the archive object it was made from. *)
Definition made_from (msg_obj : pyobj) (m : Message) : Prop :=
  m_guid m = value_at msg_obj "GUID" /\
  m_dateobj m = match value_at msg_obj "Time" with
                | Some (PDatetime t false) => Some (PDatetime t true)
                | _ => None
                end /\
  m_text m = match value_at msg_obj "MessageText" with
             | Some mt => value_at mt "NSString"
             | None => None
             end.

(** The ['text'] of a message, when it has one, is a [str]. *)
Definition text_is_str (m : Message) : Prop :=
  opt (fun t => exists s, t = PStr s) (m_text m).

(** The ['from'] of a message, when it has one, is a [str]. *)
Definition from_is_str (m : Message) : Prop :=
  opt (fun f => exists s, f = PStr s) (m_from m).

(** What holds of every message Adapter B returns. *)
Definition message_ok_b (m : Message) : Prop :=
  opt (fun d => is_datetime d = true) (m_dateobj m) /\
  opt complete (m_attachment m).

(** What the message loop of Adapter A keeps true of its state. *)
Definition loop_ok (st : Bplist.loop_state) : Prop :=
  distinct (Bplist.ls_participants st) /\
  Forall colon_free (Bplist.ls_participants st) /\
  Forall message_ok_a (Bplist.ls_messages st) /\
  Forall (sender_known (Bplist.ls_participants st)) (Bplist.ls_messages st) /\
  Forall (fun p => Exists (fun m => m_from m = Some p) (Bplist.ls_messages st))
         (Bplist.ls_participants st).

(** The sender of a message is one of the participants. *)
Definition sender_listed (ps : list pyobj) (m : Message) : Prop :=
  opt (fun who => member who ps = true) (m_from m).

(** What the loops of Adapter B keep true of their state. *)
Definition chat_ok (s : IChat.state) : Prop :=
  distinct (IChat.s_participants s) /\
  Forall message_ok_b (IChat.s_messages s) /\
  message_ok_b (IChat.s_message s) /\
  Forall (sender_listed (IChat.s_participants s)) (IChat.s_messages s) /\
  sender_listed (IChat.s_participants s) (IChat.s_message s).

(** Two messages with the same sender, time and attachment. *)
Definition same_core (m m' : Message) : Prop :=
  m_from m' = m_from m /\ m_dateobj m' = m_dateobj m /\ m_attachment m' = m_attachment m.

(** * Facts about slices and [struct.unpack] *)

Lemma len_nonneg {A} (l : list A) : 0 <= len l.
Proof. unfold len. lia. Qed.

Lemma len_app {A} (l m : list A) : len (l ++ m) = len l + len m.
Proof. unfold len. rewrite length_app. lia. Qed.

Lemma len_firstn {A} (n : nat) (l : list A) :
  len (firstn n l) = Z.min (Z.of_nat n) (len l).
Proof. unfold len. rewrite length_firstn. lia. Qed.

Lemma len_skipn {A} (n : nat) (l : list A) :
  len (skipn n l) = Z.max 0 (len l - Z.of_nat n).
Proof. unfold len. rewrite length_skipn. lia. Qed.

(** With bounds [0 <= a <= b] a slice is "drop [a], keep [b - a]". *)
Lemma py_slice_nonneg {A} (l : list A) (a b : Z) :
  0 <= a -> a <= b ->
  py_slice l a b = firstn (Z.to_nat (b - a)) (skipn (Z.to_nat a) l).
Proof.
  intros Ha Hab. unfold py_slice, clamp_index.
  destruct (Z.ltb_spec a 0) as [Ha0|Ha0]; [lia|].
  destruct (Z.ltb_spec b 0) as [Hb0|Hb0]; [lia|].
  destruct (Z.le_gt_cases a (len l)) as [Hal|Hal].
  - rewrite (Z.min_l a) by lia.
    destruct (Z.le_gt_cases b (len l)) as [Hbl|Hbl].
    + rewrite (Z.min_l b) by lia. reflexivity.
    + rewrite (Z.min_r b) by lia.
      rewrite !firstn_all2; auto; rewrite length_skipn; unfold len in *; lia.
  - rewrite (Z.min_r a), (Z.min_r b) by lia.
    rewrite !skipn_all2 by (unfold len in *; lia).
    rewrite !firstn_nil. reflexivity.
Qed.

Lemma len_py_slice {A} (l : list A) (a b : Z) :
  0 <= a -> a <= b ->
  len (py_slice l a b) = Z.min (b - a) (Z.max 0 (len l - a)).
Proof.
  intros Ha Hab. rewrite py_slice_nonneg by assumption.
  rewrite len_firstn, len_skipn. lia.
Qed.



Lemma unpack_i32_ok (buf : bytes) (v : Z) :
  unpack_i32 buf = Ok v -> len buf = 4.
Proof.
  unfold unpack_i32. destruct (Z.eqb_spec (len buf) 4); [auto|discriminate].
Qed.


Lemma unpack_i32_ok_or_struct (buf : bytes) (e : exn) :
  unpack_i32 buf = Raise e -> e = StructError.
Proof.
  unfold unpack_i32. destruct (len buf =? 4); [discriminate|].
  intros H; inversion H; reflexivity.
Qed.

Lemma unpack_chars_ok (count : Z) (buf out : bytes) :
  unpack_chars count buf = Ok out -> out = buf /\ 0 <= count /\ len buf = count.
Proof.
  unfold unpack_chars. destruct (Z.ltb_spec count 0) as [Hc|Hc]; [discriminate|].
  destruct (Z.eqb_spec (len buf) count) as [Hl|Hl]; [|discriminate].
  intros Hok; inversion Hok; subst; repeat split; auto; lia.
Qed.




(** A successful read lies inside the buffer. *)
Lemma read_i32_in_bounds (data : bytes) (off v : Z) :
  0 <= off ->
  unpack_i32 (py_slice data off (off + 4)) = Ok v -> off + 4 <= len data.
Proof.
  intros H0 Hv. apply unpack_i32_ok in Hv.
  rewrite len_py_slice in Hv by lia. lia.
Qed.

Lemma read_chars_in_bounds (data : bytes) (off count : Z) (out : bytes) :
  0 <= off -> off <= len data ->
  unpack_chars count (py_slice data off (off + count)) = Ok out ->
  0 <= count /\ off + count <= len data.
Proof.
  intros H0 Hl Hv. apply unpack_chars_ok in Hv. destruct Hv as (_ & Hc & Hlen).
  rewrite len_py_slice in Hlen by lia. lia.
Qed.

(** * The three table passes of [decode_rtfd] on a truncated buffer *)

Ltac bind_inv H :=
  match type of H with
  | bind ?r _ = Ok _ =>
    let a := fresh "a" in
    let E := fresh "E" in
    destruct r as [a|?] eqn:E; [cbn [bind] in H | discriminate H]
  end.

(** Offsets only move forward. *)
Lemma read_names_mono (data : bytes) (count : nat) :
  forall off i parts off',
    Rtfd.read_names data off i count = Ok (parts, off') -> off <= off'.
Proof.
  induction count as [|count IH]; intros off i parts off' Hrun; cbn [Rtfd.read_names] in *.
  - inversion Hrun; lia.
  - bind_inv Hrun. bind_inv Hrun. bind_inv Hrun. destruct a1 as [rest off2].
    inversion Hrun; subst; clear Hrun.
    apply unpack_chars_ok in E0. apply IH in E1. lia.
Qed.

Lemma read_sizes_mono (data : bytes) (parts : list Rtfd.part) :
  forall off parts' off',
    Rtfd.read_sizes data off parts = Ok (parts', off') -> off <= off'.
Proof.
  induction parts as [|p ps IH]; intros off parts' off' Hrun; cbn [Rtfd.read_sizes] in *.
  - inversion Hrun; lia.
  - bind_inv Hrun. bind_inv Hrun. destruct a0 as [rest off2].
    inversion Hrun; subst; clear Hrun.
    apply IH in E0. lia.
Qed.


Section Truncation.
Variable data : bytes.
Variable n : nat.





End Truncation.

(** * The magic test *)

Lemma bytes_eqb_eq (a b : bytes) : bytes_eqb a b = true <-> a = b.
Proof.
  revert b. induction a as [|x a IH]; intros [|y b]; cbn [bytes_eqb];
    try (split; [discriminate|intros H; discriminate H]); [tauto|].
  rewrite andb_true_iff, IH. split.
  - intros [Hx Hab]. apply Byte.byte_dec_bl in Hx. congruence.
  - intros H; inversion H; subst. split; [apply Byte.byte_dec_lb|]; reflexivity.
Qed.

Lemma py_slice_prefix {A} (a rest : list A) :
  py_slice (a ++ rest) 0 (len a) = a.
Proof.
  rewrite py_slice_nonneg by (pose proof (len_nonneg a); lia).
  cbn [Z.to_nat skipn]. rewrite Z.sub_0_r. unfold len. rewrite Nat2Z.id.
  rewrite firstn_app, Nat.sub_diag, firstn_all. cbn [firstn]. apply app_nil_r.
Qed.

Lemma magic_slice_iff (d : bytes) :
  py_slice d 0 4 = Rtfd.magic <-> exists rest, d = Rtfd.magic ++ rest.
Proof.
  split.
  - intros H. exists (skipn 4 d).
    rewrite py_slice_nonneg in H by lia. cbn [Z.to_nat skipn Z.sub] in H.
    change (Z.to_nat (4 - 0)) with 4%nat in H.
    rewrite <- H at 1. symmetry. apply firstn_skipn.
  - intros [rest ->]. apply (py_slice_prefix Rtfd.magic rest).
Qed.


(** C10: on a [bytes] argument of any length, the empty one included,
    [has_rtfd_magic] returns normally, and it returns [True] exactly when the
    argument starts with the four bytes [rtfd]; on an argument of any other
    type it raises [TypeError]. *)
Theorem has_rtfd_magic_total :
  (forall d : bytes,
      exists b : bool,
        Rtfd.has_rtfd_magic (PBytes d) = Ok b /\
        (b = true <-> exists rest, d = b_ "rtfd" ++ rest)) /\
  (forall o : pyobj,
      (forall d, o <> PBytes d) -> Rtfd.has_rtfd_magic o = Raise TypeError).
Proof.
  split.
  - intros d. cbn [Rtfd.has_rtfd_magic].
    destruct (bytes_eqb (py_slice d 0 4) Rtfd.magic) eqn:E.
    + exists true. split; [reflexivity|].
      apply bytes_eqb_eq in E. apply magic_slice_iff in E. tauto.
    + exists false. split; [reflexivity|].
      split; [discriminate|]. intros H. apply (magic_slice_iff d) in H.
      apply bytes_eqb_eq in H. congruence.
  - intros o Ho. destruct o; try reflexivity. exfalso. apply (Ho b). reflexivity.
Qed.

Lemma has_rtfd_magic_total_witness :
  Rtfd.has_rtfd_magic PNone = Raise TypeError.
Proof.
  apply (proj2 has_rtfd_magic_total PNone). intros d. discriminate.
Defined.

(** * Truncated containers *)




Lemma unpack_chars_error (count : Z) (buf : bytes) (e : exn) :
  unpack_chars count buf = Raise e -> e = StructError.
Proof.
  unfold unpack_chars. destruct (count <? 0); [intros H; inversion H; reflexivity|].
  destruct (len buf =? count); [discriminate|]. intros H; inversion H; reflexivity.
Qed.

(** Whatever goes wrong inside a content block is a [struct.error]. *)
Lemma extract_file_error (cb : bytes) (e : exn) :
  Rtfd.extract_file cb = Raise e -> e = StructError.
Proof.
  unfold Rtfd.extract_file, Rtfd.content_layout.
  destruct (unpack_i32 (py_slice cb 0 4)) as [hdr|e0] eqn:E0; cbn [bind];
    [|intros H; inversion H; subst; eapply unpack_i32_ok_or_struct; eassumption].
  destruct (unpack_i32 (py_slice cb 4 8)) as [declared|e1] eqn:E1; cbn [bind];
    [|intros H; inversion H; subst; eapply unpack_i32_ok_or_struct; eassumption].
  destruct (declared =? Rtfd.sentinel); cbn [bind]; [|apply unpack_chars_error].
  destruct (unpack_i32 (py_slice cb 8 12)) as [sz|e2] eqn:E2; cbn [bind];
    [|intros H; inversion H; subst; eapply unpack_i32_ok_or_struct; eassumption].
  destruct (unpack_i32 (py_slice cb 12 16)) as [padlen|e3] eqn:E3; cbn [bind];
    [|intros H; inversion H; subst; eapply unpack_i32_ok_or_struct; eassumption].
  apply unpack_chars_error.
Qed.



Lemma read_contents_filled (data : bytes) (parts : list Rtfd.part) :
  forall off parts' off',
    Rtfd.read_contents data off parts = Ok (parts', off') ->
    Forall (fun p => Rtfd.contentbytes p <> None) parts'.
Proof.
  induction parts as [|p ps IH]; intros off parts' off' Hrun; cbn [Rtfd.read_contents] in *.
  - inversion Hrun; constructor.
  - bind_inv Hrun. bind_inv Hrun. bind_inv Hrun. destruct a1 as [rest off2].
    inversion Hrun; subst; clear Hrun. constructor; [discriminate|].
    eapply IH; eassumption.
Qed.

Lemma read_tables_filled (data : bytes) (parts : list Rtfd.part) (off : Z) :
  Rtfd.read_tables data = Ok (parts, off) ->
  Forall (fun p => Rtfd.contentbytes p <> None) parts.
Proof.
  unfold Rtfd.read_tables. intros Hrun.
  bind_inv Hrun. bind_inv Hrun. bind_inv Hrun. bind_inv Hrun.
  destruct a2 as [named off1]. bind_inv Hrun. destruct a2 as [sized off2].
  eapply read_contents_filled; eassumption.
Qed.

Lemma trim_part_error (p : Rtfd.part) (e : exn) :
  Rtfd.contentbytes p <> None -> Rtfd.trim_part p = Raise e -> e = StructError.
Proof.
  unfold Rtfd.trim_part. destruct (Rtfd.contentbytes p) as [cb|]; [|congruence].
  intros _. cbn [Rtfd.read bind].
  destruct (Rtfd.extract_file cb) as [f|e'] eqn:E; cbn [bind]; [discriminate|].
  intros H; inversion H; subst. eapply extract_file_error; eassumption.
Qed.


(** * Every failure while the parts are read is a [struct.error] *)

Ltac raise_inv H :=
  match type of H with
  | bind ?r _ = Raise _ =>
    let a := fresh "a" in
    let e := fresh "e" in
    let E := fresh "E" in
    destruct r as [a|e] eqn:E; cbn [bind] in H;
    [|inversion H; subst; clear H]
  end.

Lemma read_names_error (data : bytes) (count : nat) :
  forall off i e, Rtfd.read_names data off i count = Raise e -> e = StructError.
Proof.
  induction count as [|count IH]; intros off i e H; cbn [Rtfd.read_names] in H;
    [discriminate|].
  raise_inv H; [|eapply unpack_i32_ok_or_struct; eassumption].
  raise_inv H; [|eapply unpack_chars_error; eassumption].
  raise_inv H; [destruct a1; discriminate|eapply IH; eassumption].
Qed.

Lemma read_sizes_error (data : bytes) (parts : list Rtfd.part) :
  forall off e, Rtfd.read_sizes data off parts = Raise e -> e = StructError.
Proof.
  induction parts as [|p ps IH]; intros off e H; cbn [Rtfd.read_sizes] in H;
    [discriminate|].
  raise_inv H; [|eapply unpack_i32_ok_or_struct; eassumption].
  raise_inv H; [destruct a0; discriminate|eapply IH; eassumption].
Qed.

Lemma read_sizes_filled (data : bytes) (parts : list Rtfd.part) :
  forall off parts' off',
    Rtfd.read_sizes data off parts = Ok (parts', off') ->
    Forall (fun p => Rtfd.size p <> None) parts'.
Proof.
  induction parts as [|p ps IH]; intros off parts' off' Hrun; cbn [Rtfd.read_sizes] in *.
  - inversion Hrun; constructor.
  - bind_inv Hrun. bind_inv Hrun. destruct a0 as [rest off2].
    inversion Hrun; subst; clear Hrun. constructor; [discriminate|].
    eapply IH; eassumption.
Qed.

Lemma read_contents_error (data : bytes) (parts : list Rtfd.part) :
  Forall (fun p => Rtfd.size p <> None) parts ->
  forall off e, Rtfd.read_contents data off parts = Raise e -> e = StructError.
Proof.
  induction 1 as [|p ps Hp _ IH]; intros off e H; cbn [Rtfd.read_contents] in H;
    [discriminate|].
  destruct (Rtfd.size p) as [sz|]; [|congruence]. cbn [Rtfd.read bind] in H.
  raise_inv H; [|eapply unpack_chars_error; eassumption].
  raise_inv H; [destruct a0; discriminate|eapply IH; eassumption].
Qed.

Lemma read_tables_error (data : bytes) (e : exn) :
  Rtfd.read_tables data = Raise e -> e = StructError.
Proof.
  unfold Rtfd.read_tables. intros H.
  raise_inv H; [|eapply unpack_i32_ok_or_struct; eassumption].
  raise_inv H; [|eapply unpack_i32_ok_or_struct; eassumption].
  raise_inv H; [|eapply unpack_i32_ok_or_struct; eassumption].
  raise_inv H; [|eapply read_names_error; eassumption].
  destruct a2 as [named off1].
  raise_inv H; [|eapply read_sizes_error; eassumption].
  destruct a2 as [sized off2].
  eapply read_contents_error; [|eassumption].
  eapply read_sizes_filled; eassumption.
Qed.

Lemma trim_parts_error (parts : list Rtfd.part) :
  Forall (fun p => Rtfd.contentbytes p <> None) parts ->
  forall e, Rtfd.trim_parts parts = Raise e -> e = StructError.
Proof.
  induction 1 as [|p ps Hp _ IH]; intros e H; cbn [Rtfd.trim_parts] in H;
    [discriminate|].
  raise_inv H; [|eapply trim_part_error; eassumption].
  raise_inv H; [discriminate|eapply IH; reflexivity].
Qed.

Lemma decode_parts_error (data : bytes) (e : exn) :
  Rtfd.decode_parts data = Raise e -> e = StructError.
Proof.
  unfold Rtfd.decode_parts. intros H.
  raise_inv H; [|eapply read_tables_error; eassumption].
  destruct a as [parts off].
  eapply trim_parts_error; [|eassumption].
  eapply read_tables_filled; eassumption.
Qed.



(** * Building and reading 32-bit fields *)

Lemma byte_val_byte_of_Z (z : Z) : byte_val (byte_of_Z z) = z mod 256.
Proof.
  unfold byte_val, byte_of_Z.
  assert (Hr : 0 <= z mod 256 < 256) by (apply Z.mod_pos_bound; lia).
  destruct (Byte.of_N (Z.to_N (z mod 256))) as [b|] eqn:E.
  - apply Byte.to_of_N in E. rewrite E. lia.
  - apply Byte.of_N_None_iff in E. lia.
Qed.

Lemma len_le32 (z : Z) : len (le32 z) = 4.
Proof. reflexivity. Qed.

Lemma le_unsigned_le32 (z : Z) : le_unsigned (le32 z) = z mod 4294967296.
Proof.
  unfold le32. cbn [le_unsigned]. rewrite !byte_val_byte_of_Z.
  set (u := z mod 4294967296).
  assert (Hu : 0 <= u < 4294967296) by (apply Z.mod_pos_bound; lia).
  Z.to_euclidean_division_equations. lia.
Qed.

Lemma unpack_le32 (z : Z) :
  -2147483648 <= z < 2147483648 -> unpack_i32 (le32 z) = Ok z.
Proof.
  intros Hz. unfold unpack_i32. rewrite len_le32. cbn [Z.eqb Pos.eqb].
  rewrite le_unsigned_le32. unfold to_signed32. f_equal.
  destruct (Z.ltb_spec (z mod 4294967296) 2147483648) as [Hlt|Hge];
    Z.to_euclidean_division_equations; lia.
Qed.

Lemma unpack_le32_any (z : Z) : exists v, unpack_i32 (le32 z) = Ok v.
Proof. unfold unpack_i32. rewrite len_le32. eexists. reflexivity. Qed.

Lemma py_slice_app_r {A} (w rest : list A) (a b : Z) :
  len w <= a -> a <= b ->
  py_slice (w ++ rest) a b = py_slice rest (a - len w) (b - len w).
Proof.
  intros Ha Hab. pose proof (len_nonneg w) as Hw.
  rewrite !py_slice_nonneg by lia.
  rewrite skipn_app. rewrite skipn_all2 by (unfold len in *; lia). cbn [app].
  f_equal; [lia|]. f_equal. unfold len in *. lia.
Qed.

Lemma py_slice_from_app_r {A} (w rest : list A) (a : Z) :
  len w <= a -> py_slice_from (w ++ rest) a = py_slice_from rest (a - len w).
Proof.
  intros Ha. pose proof (len_nonneg w) as Hw. pose proof (len_nonneg rest) as Hr.
  unfold py_slice_from, clamp_index. rewrite len_app.
  destruct (Z.ltb_spec a 0) as [Hneg|_]; [lia|].
  destruct (Z.ltb_spec (a - len w) 0) as [Hneg|_]; [lia|].
  rewrite skipn_app. rewrite skipn_all2 by (unfold len in *; lia). cbn [app].
  f_equal. unfold len in *. lia.
Qed.

Lemma py_slice_from_0 {A} (l : list A) : py_slice_from l 0 = l.
Proof.
  unfold py_slice_from, clamp_index. cbn [Z.ltb Z.compare].
  pose proof (len_nonneg l). rewrite Z.min_l by lia. reflexivity.
Qed.

(** The field starting at byte [4 * k] of a block that begins with fields. *)
Lemma field_0 (w : Z) (rest : bytes) : py_slice (le32 w ++ rest) 0 4 = le32 w.
Proof. apply (py_slice_prefix (le32 w) rest). Qed.

Lemma field_next (w : Z) (rest : bytes) (a : Z) :
  4 <= a -> py_slice (le32 w ++ rest) a (a + 4) = py_slice rest (a - 4) (a - 4 + 4).
Proof.
  intros Ha. rewrite py_slice_app_r by (rewrite ?len_le32; lia).
  rewrite len_le32. f_equal. lia.
Qed.

Lemma field_1 (a b : Z) (rest : bytes) :
  py_slice (le32 a ++ le32 b ++ rest) 4 8 = le32 b.
Proof.
  rewrite py_slice_app_r by (rewrite ?len_le32; lia). rewrite len_le32.
  apply (field_0 b rest).
Qed.



Lemma unpack_chars_exact (b : bytes) : unpack_chars (len b) b = Ok b.
Proof.
  unfold unpack_chars. pose proof (len_nonneg b).
  destruct (Z.ltb_spec (len b) 0) as [Hneg|_]; [lia|].
  rewrite Z.eqb_refl. reflexivity.
Qed.

Lemma extract_standard_block (hdr : Z) (payload : bytes) :
  len payload < 2147483648 ->
  Rtfd.extract_file (standard_block hdr payload) = Ok payload.
Proof.
  intros Hlen. pose proof (len_nonneg payload) as Hp.
  unfold Rtfd.extract_file, Rtfd.content_layout, standard_block.
  rewrite field_0. destruct (unpack_le32_any hdr) as [h ->]. cbn [bind].
  rewrite field_1, unpack_le32 by lia. cbn [bind].
  unfold Rtfd.sentinel.
  destruct (Z.eqb_spec (len payload) (-2147483648)) as [Heq|_]; [lia|]. cbn [bind].
  rewrite py_slice_from_app_r by (rewrite len_le32; lia). rewrite len_le32.
  rewrite py_slice_from_app_r by (rewrite len_le32; lia). rewrite len_le32.
  change (8 - 4 - 4) with 0. rewrite py_slice_from_0. apply unpack_chars_exact.
Qed.




(** * The file bytes of every part *)

Lemma py_slice_from_as_slice {A} (l : list A) (start size : Z) :
  0 <= start -> len (py_slice_from l start) = size ->
  py_slice_from l start = py_slice l start (start + size).
Proof.
  intros Hs Hlen. pose proof (len_nonneg (py_slice_from l start)) as Hn.
  rewrite py_slice_nonneg by lia.
  assert (Hfrom : py_slice_from l start = skipn (Z.to_nat start) l).
  { unfold py_slice_from, clamp_index.
    destruct (Z.ltb_spec start 0) as [Hneg|_]; [lia|].
    destruct (Z.le_gt_cases start (len l)) as [Hle|Hgt].
    - rewrite Z.min_l by lia. reflexivity.
    - rewrite Z.min_r by lia. rewrite skipn_all2 by (unfold len; lia).
      rewrite skipn_all2 by (unfold len in *; lia). reflexivity. }
  rewrite Hfrom in *. symmetry. apply firstn_all2. unfold len in *. lia.
Qed.

Lemma trim_part_trimmed (p p' : Rtfd.part) :
  Rtfd.trim_part p = Ok p' -> trimmed p'.
Proof.
  unfold Rtfd.trim_part. intros H. bind_inv H. bind_inv H. inversion H; subst; clear H.
  unfold Rtfd.extract_file in E0. bind_inv E0. destruct a1 as [size start].
  apply unpack_chars_ok in E0. destruct E0 as (-> & _ & Hlen).
  exists a, size, start. cbn [Rtfd.set_filebytes Rtfd.contentbytes Rtfd.filebytes].
  destruct (Rtfd.contentbytes p) as [cb|]; [|discriminate]. inversion E; subst.
  repeat split; auto.
  destruct (Z.lt_ge_cases start 0) as [Hneg|Hpos]; [left; assumption|right].
  apply py_slice_from_as_slice; [assumption|reflexivity].
Qed.

Lemma trim_parts_trimmed (parts : list Rtfd.part) :
  forall parts', Rtfd.trim_parts parts = Ok parts' -> Forall trimmed parts'.
Proof.
  induction parts as [|p ps IH]; intros parts' H; cbn [Rtfd.trim_parts] in H.
  - inversion H; constructor.
  - bind_inv H. bind_inv H. inversion H; subst; clear H.
    constructor; [eapply trim_part_trimmed; eassumption|apply IH; reflexivity].
Qed.

(** C2, as the code has it: after a successful decode every part's file bytes
    are all that its content block holds from the computed start offset on,
    and they are exactly [content_size] bytes (so, for a start offset that is
    not negative, the [content_size]-byte slice at that offset).  The two-part
    example decodes to [note.txt] / [hello] when the inner header of the [.]
    part is followed by exactly its five content bytes. *)
Theorem file_bytes_are_the_sized_remainder :
  (forall (data : bytes) (parts : list Rtfd.part),
      Rtfd.decode_parts data = Ok parts ->
      Forall (fun p =>
                exists (cb : bytes) (size start : Z),
                  Rtfd.contentbytes p = Some cb /\
                  Rtfd.content_layout cb = Ok (size, start) /\
                  Rtfd.filebytes p = Some (py_slice_from cb start) /\
                  len (py_slice_from cb start) = size /\
                  (start < 0 \/
                   py_slice_from cb start = py_slice cb start (start + size)))
             parts) /\
  Rtfd.decode_rtfd (PBytes (note_container [])) =
  Ok (Rtfd.mk_outdict (Some (s_ "note.txt")) (Some (b_ "hello"))).
Proof.
  split; [|vm_compute; reflexivity].
  intros data parts H. unfold Rtfd.decode_parts in H. bind_inv H.
  destruct a as [read off]. apply trim_parts_trimmed in H. exact H.
Qed.

Lemma file_bytes_are_the_sized_remainder_witness :
  exists parts,
    Rtfd.decode_parts (note_container []) = Ok parts /\
    Forall (fun p =>
              exists (cb : bytes) (size start : Z),
                Rtfd.contentbytes p = Some cb /\
                Rtfd.content_layout cb = Ok (size, start) /\
                Rtfd.filebytes p = Some (py_slice_from cb start) /\
                len (py_slice_from cb start) = size /\
                (start < 0 \/
                 py_slice_from cb start = py_slice cb start (start + size)))
           parts.
Proof.
  destruct (Rtfd.decode_parts (note_container [])) as [parts|e] eqn:E;
    [|vm_compute in E; discriminate E].
  exists parts. split; [reflexivity|].
  apply (proj1 file_bytes_are_the_sized_remainder (note_container []) parts E).
Defined.

(** C2, as the claim states the example: with eight content bytes after the
    inner header [01 00 00 00 05 00 00 00] of the [.] part, the decoder does
    not return [note.txt] / [hello]; it raises [struct.error]. *)
Lemma padded_example_raises :
  Rtfd.decode_rtfd (PBytes (note_container [x00; x00; x00])) = Raise StructError /\
  Rtfd.decode_rtfd (PBytes (note_container [x00; x00; x00])) <>
  Ok (Rtfd.mk_outdict (Some (s_ "note.txt")) (Some (b_ "hello"))).
Proof.
  split; [vm_compute; reflexivity|vm_compute; discriminate].
Qed.

(** * Which part names the file and which part is the data *)






(** * Adapter A: protocol and conversation time *)

Lemma pystr_eqb_eq (a b : pystr) : pystr_eqb a b = true <-> a = b.
Proof.
  revert b. induction a as [|x a IH]; intros [|y b]; cbn [pystr_eqb];
    try (split; [discriminate|intros H; discriminate H]); [tauto|].
  rewrite andb_true_iff, IH, Z.eqb_eq. split.
  - intros [-> ->]. reflexivity.
  - intros H; inversion H; auto.
Qed.

Lemma eq_str_iff (o : pyobj) (s : pystr) : eq_str o s = true <-> o = PStr s.
Proof.
  destruct o; cbn [eq_str]; try (split; [discriminate|intros H; discriminate H]).
  rewrite pystr_eqb_eq. split; [intros ->; reflexivity|intros H; inversion H; reflexivity].
Qed.

(** The metadata fields [bplist_to_conv] puts in the conversation. *)
Lemma bplist_to_conv_metadata (ext : externals) (base : pyobj) (conv : Conversation) :
  Bplist.bplist_to_conv ext base = Ok conv ->
  exists metadata endtime service e,
    key base "metadata" = Ok metadata /\
    key metadata "EndTime" = Ok endtime /\
    localize endtime = Ok e /\
    key metadata "Service" = Ok service /\
    endobj conv = Some e /\
    dateobj conv = Some e /\
    protocol conv =
      (if eq_str service (s_ "AOL Instant Messenger") then PStr (s_ "AIM") else service).
Proof.
  unfold Bplist.bplist_to_conv. intros H.
  repeat bind_inv H. inversion H; subst; clear H. cbn.
  exists a0, a3, a5, a4. repeat split; assumption || reflexivity.
Qed.

(** C8: the protocol of the conversation is ['AIM'] when the metadata's
    service name is ['AOL Instant Messenger'], and the service name itself in
    every other case. *)
Theorem protocol_is_normalised_service (ext : externals) (base : pyobj) (conv : Conversation) :
  Bplist.bplist_to_conv ext base = Ok conv ->
  exists metadata service,
    key base "metadata" = Ok metadata /\
    key metadata "Service" = Ok service /\
    (service = PStr (s_ "AOL Instant Messenger") -> protocol conv = PStr (s_ "AIM")) /\
    (service <> PStr (s_ "AOL Instant Messenger") -> protocol conv = service).
Proof.
  intros H. apply bplist_to_conv_metadata in H.
  destruct H as (metadata & endtime & service & e & Hm & _ & _ & Hs & _ & _ & Hp).
  exists metadata, service. split; [assumption|]. split; [assumption|].
  rewrite Hp. split.
  - intros ->. reflexivity.
  - intros Hne. destruct (eq_str service (s_ "AOL Instant Messenger")) eqn:E; [|reflexivity].
    apply eq_str_iff in E. contradiction.
Qed.

Lemma protocol_is_normalised_service_witness :
  match Bplist.bplist_to_conv null_externals
          (keyed_archive "AOL Instant Messenger" [senderless_message]) with
  | Ok conv => protocol conv = PStr (s_ "AIM")
  | Raise _ => False
  end /\
  match Bplist.bplist_to_conv null_externals
          (keyed_archive "Jabber" [senderless_message]) with
  | Ok conv => protocol conv = PStr (s_ "Jabber")
  | Raise _ => False
  end.
Proof.
  split.
  - destruct (Bplist.bplist_to_conv null_externals
                (keyed_archive "AOL Instant Messenger" [senderless_message]))
      as [conv|e] eqn:E; [|vm_compute in E; discriminate E].
    destruct (protocol_is_normalised_service _ _ _ E) as (m & sv & Hm & Hs & Haim & _).
    apply Haim. vm_compute in Hm. inversion Hm; subst. vm_compute in Hs.
    inversion Hs. reflexivity.
  - destruct (Bplist.bplist_to_conv null_externals
                (keyed_archive "Jabber" [senderless_message]))
      as [conv|e] eqn:E; [|vm_compute in E; discriminate E].
    destruct (protocol_is_normalised_service _ _ _ E) as (m & sv & Hm & Hs & _ & Hother).
    vm_compute in Hm. inversion Hm; subst. vm_compute in Hs. inversion Hs; subst.
    rewrite Hother by discriminate. reflexivity.
Defined.

(** * Conversation time *)

Lemma nth_item_last {A} (l : list A) :
  forall (n : nat) (x : A),
    nth_item l n = Ok x -> S n = List.length l -> exists init, l = init ++ [x].
Proof.
  induction l as [|y l IH]; intros n x Hnth Hlen; [discriminate|].
  destruct n as [|n]; cbn [nth_item] in Hnth.
  - inversion Hnth; subst. destruct l; [|discriminate]. exists []. reflexivity.
  - cbn [List.length] in Hlen. destruct (IH n x Hnth) as [init ->]; [lia|].
    exists (y :: init). reflexivity.
Qed.

Lemma seq_index_last {A} (l : list A) (x : A) :
  seq_index l (-1) = Ok x -> exists init, l = init ++ [x].
Proof.
  unfold seq_index. cbn [Z.ltb Z.compare].
  destruct (Z.ltb_spec (-1 + len l) 0) as [Hneg|Hpos]; [discriminate|].
  intros H. apply nth_item_last in H; [assumption|]. unfold len in *. lia.
Qed.

(** C9: Adapter A copies the end time of the metadata into the conversation
    time; Adapter B, which has no end time, takes the time stamp of the last
    message of the output sequence. *)
Theorem conversation_time_source :
  (forall (ext : externals) (base : pyobj) (conv : Conversation),
      Bplist.bplist_to_conv ext base = Ok conv ->
      exists metadata endtime e,
        key base "metadata" = Ok metadata /\
        key metadata "EndTime" = Ok endtime /\
        localize endtime = Ok e /\
        endobj conv = Some e /\
        dateobj conv = Some e) /\
  (forall (ext : externals) (tschat : pyobj) (conv : Conversation),
      IChat.parse_typedstream_chat ext tschat = Ok conv ->
      endobj conv = None /\
      exists earlier m d,
        messages conv = earlier ++ [m] /\
        m_dateobj m = Some d /\
        dateobj conv = Some d).
Proof.
  split.
  - intros ext base conv H. apply bplist_to_conv_metadata in H.
    destruct H as (metadata & endtime & service & e & Hm & He & Hl & _ & Hend & Hdate & _).
    exists metadata, endtime, e. auto.
  - intros ext tschat conv H. unfold IChat.parse_typedstream_chat in H.
    bind_inv H. destruct (IChat.run_loops ext tschat a) as [s|s e]; [|discriminate].
    bind_inv H. inversion H; subst; clear H. cbn.
    split; [reflexivity|].
    unfold IChat.last_dateobj in E0. bind_inv E0.
    destruct (m_dateobj a1) as [d|] eqn:Ed; [|discriminate].
    inversion E0; subst. apply seq_index_last in E1. destruct E1 as [init Hinit].
    exists init, a1, a0. auto.
Qed.

Lemma conversation_time_source_witness :
  match Bplist.bplist_to_conv null_externals
          (keyed_archive "Jabber" [senderless_message]) with
  | Ok conv => endobj conv = Some (PDatetime 900 true) /\
               dateobj conv = Some (PDatetime 900 true)
  | Raise _ => False
  end /\
  match IChat.parse_typedstream_chat null_externals three_message_chat with
  | Ok conv => exists earlier m,
      messages conv = earlier ++ [m] /\
      m_dateobj m = Some (PDatetime 300 true) /\
      dateobj conv = Some (PDatetime 300 true)
  | Raise _ => False
  end.
Proof.
  destruct conversation_time_source as [HA HB]. split.
  - destruct (Bplist.bplist_to_conv null_externals
                (keyed_archive "Jabber" [senderless_message]))
      as [conv|e] eqn:E; [|vm_compute in E; discriminate E].
    destruct (HA _ _ _ E) as (md & et & e & Hm & He & Hl & Hend & Hdate).
    vm_compute in Hm. inversion Hm; subst. vm_compute in He. inversion He; subst.
    vm_compute in Hl. inversion Hl; subst. auto.
  - destruct (IChat.parse_typedstream_chat null_externals three_message_chat)
      as [conv|e] eqn:E; [|vm_compute in E; discriminate E].
    destruct (HB _ _ _ E) as (_ & earlier & m & d & Hmsgs & Hm & Hd).
    exists earlier, m. vm_compute in E. inversion E; subst. cbn in Hd.
    inversion Hd; subst. auto.
Defined.

(** * Where the adapters depart from the specification *)

Lemma pad_participants_cases (ps : list pyobj) :
  (len ps = 0 -> pad_participants ps = [PStr (s_ "UNKNOWN")]) /\
  (len ps = 1 -> pad_participants ps = ps ++ [PStr (s_ "UNKNOWN")]) /\
  (2 <= len ps -> pad_participants ps = ps).
Proof.
  unfold pad_participants. destruct (Z.ltb_spec (len ps) 2) as [Hlt|Hge].
  - split; [|split]; intros H; try lia; [|reflexivity].
    destruct ps; [reflexivity|]. unfold len in H. cbn [List.length] in H. lia.
  - split; [|split]; intros H; try lia. reflexivity.
Qed.

(** C4, at a conversation in which no participant was discovered: a single
    ['UNKNOWN'] is appended, so the participants have length 1, not 2.  The
    first archive is a token-tagged chat whose only message has no sender
    element, the second a keyed archive whose only message records a null
    sender. *)
Theorem no_participant_gets_one_unknown (ext : externals) :
  (exists conv,
      IChat.parse_typedstream_chat ext anonymous_chat = Ok conv /\
      participants conv = [PStr (s_ "UNKNOWN")] /\
      len (participants conv) = 1) /\
  (exists conv,
      Bplist.bplist_to_conv ext (keyed_archive "Jabber" [senderless_message]) = Ok conv /\
      participants conv = [PStr (s_ "UNKNOWN")] /\
      len (participants conv) = 1).
Proof.
  split; eexists; (split; [vm_compute; reflexivity|]); split; reflexivity.
Qed.

(** C7, at three keyed archives of one message each.  With a null file
    wrapper, [hasattachments] is set although the message carries no
    attachment: the placeholder is built and not stored.  With a payload that
    is not a container the same happens.  With no attachment marker at all the
    key [hasattachments] is absent rather than false. *)
Theorem hasattachments_without_attachment (ext : externals) :
  (exists conv m,
      Bplist.bplist_to_conv ext
        (keyed_archive "AOL Instant Messenger" [null_wrapper_message]) = Ok conv /\
      messages conv = [m] /\
      m_attachment m = None /\
      hasattachments conv = Some true) /\
  (exists conv m,
      Bplist.bplist_to_conv ext
        (keyed_archive "AOL Instant Messenger" [plain_payload_message]) = Ok conv /\
      messages conv = [m] /\
      m_attachment m = None /\
      hasattachments conv = Some true) /\
  (exists conv m,
      Bplist.bplist_to_conv ext
        (keyed_archive "AOL Instant Messenger" [senderless_message]) = Ok conv /\
      messages conv = [m] /\
      m_attachment m = None /\
      hasattachments conv = None).
Proof.
  split; [|split]; do 2 eexists; (split; [vm_compute; reflexivity|]);
    repeat split; reflexivity.
Qed.

(** * Adapter B keeps every message *)

Lemma step_ok_refl (s : IChat.state) : step_ok s s.
Proof. split; auto. Qed.

Lemma step_ok_trans (s1 s2 s3 : IChat.state) :
  step_ok s1 s2 -> step_ok s2 s3 -> step_ok s1 s3.
Proof. intros [H1 F1] [H2 F2]. split; [congruence|auto]. Qed.

(** How a property of the state travels through the control operators. *)
Section Travel.
Variable P : IChat.state -> Prop.

Lemma ok_eval {A} (s : IChat.state) (r : result A) (k : A -> IChat.outcome) :
  P s -> (forall a, P (out_state (k a))) -> P (out_state (IChat.eval s r k)).
Proof. intros Hs Hk. destruct r; cbn [IChat.eval out_state]; auto. Qed.

Lemma ok_and_then (o : IChat.outcome) (k : IChat.state -> IChat.outcome) :
  P (out_state o) ->
  (forall s', P s' -> P (out_state (k s'))) ->
  P (out_state (IChat.and_then o k)).
Proof. intros Ho Hk. destruct o; cbn [IChat.and_then out_state] in *; auto. Qed.

Lemma ok_for_each {A} (body : IChat.state -> A -> IChat.outcome) :
  (forall s x, P s -> P (out_state (body s x))) ->
  forall (l : list A) (s : IChat.state),
    P s -> P (out_state (IChat.for_each body s l)).
Proof.
  intros Hbody. induction l as [|x l IH]; intros s Hs; cbn [IChat.for_each out_state]; auto.
  apply ok_and_then; auto.
Qed.

End Travel.

Lemma out_state_try (h : exn -> bool) (o : IChat.outcome) :
  out_state (IChat.try_except h o) = out_state o.
Proof. destruct o as [s|s e]; cbn; [reflexivity|]. destruct (h e); reflexivity. Qed.

(** Updates that touch neither the stored messages nor any attachment. *)
Lemma ok_with_participants (s0 s : IChat.state) (ps : list pyobj) :
  step_ok s0 s -> step_ok s0 (IChat.with_participants s ps).
Proof. intros H. eapply step_ok_trans; [exact H|]. split; auto. Qed.

Lemma ok_with_message (s0 s : IChat.state) (m : Message) :
  carries m = carries (IChat.s_message s) ->
  step_ok s0 s -> step_ok s0 (IChat.with_message s m).
Proof.
  intros Hm H. eapply step_ok_trans; [exact H|]. split; [reflexivity|].
  unfold flag_ok. cbn. rewrite Hm. auto.
Qed.

Lemma ok_attach (s0 s : IChat.state) (a : Attachment) :
  step_ok s0 s ->
  step_ok s0 (IChat.with_hasattachments
                (IChat.with_message s (set_attachment (IChat.s_message s) a)) true).
Proof.
  intros H. eapply step_ok_trans; [exact H|]. split; [reflexivity|].
  intros _. unfold flag_ok. cbn. rewrite orb_true_r. reflexivity.
Qed.

Lemma only_participants_add (s0 s : IChat.state) (ps : list pyobj) :
  only_participants s0 s -> only_participants s0 (IChat.with_participants s ps).
Proof. intros H. exact H. Qed.

Ltac ok_step :=
  repeat
    (cbv zeta; cbn [out_state];
     lazymatch goal with
     | H : ?P ?s |- ?P ?s => exact H
     | |- _ (out_state (IChat.try_except _ _)) => rewrite out_state_try
     | |- ?P (out_state (IChat.eval _ _ _)) => apply (ok_eval P); [|intros]
     | |- ?P (out_state (IChat.and_then _ _)) => apply (ok_and_then P); [|intros]
     | |- _ (out_state (if ?b then _ else _)) => destruct b
     | |- _ (if ?b then _ else _) => destruct b
     | |- step_ok _ (IChat.with_hasattachments
                       (IChat.with_message _ (set_attachment _ _)) true) =>
       apply ok_attach
     | |- step_ok _ (IChat.with_message _ _) => apply ok_with_message; [reflexivity|]
     | |- step_ok _ (IChat.with_participants _ _) => apply ok_with_participants
     | |- only_participants _ (IChat.with_participants _ _) =>
       apply only_participants_add
     end).

Section BlocksKeep.
Variable ext : externals.
Variable s0 : IChat.state.

Lemma presentity_block_ok (s : IChat.state) (i : pyobj) :
  step_ok s0 s -> step_ok s0 (out_state (IChat.presentity_block s i)).
Proof. intros Hs. unfold IChat.presentity_block. ok_step. Qed.

Lemma date_block_ok (s : IChat.state) (i : pyobj) :
  step_ok s0 s -> step_ok s0 (out_state (IChat.date_block s i)).
Proof. intros Hs. unfold IChat.date_block. ok_step. Qed.

Lemma attribute_entry_ok (s : IChat.state) (j : pyobj * pyobj) :
  step_ok s0 s -> step_ok s0 (out_state (IChat.attribute_entry ext s j)).
Proof. intros Hs. unfold IChat.attribute_entry. ok_step. Qed.

Lemma text_block_ok (s : IChat.state) (i : pyobj) :
  step_ok s0 s -> step_ok s0 (out_state (IChat.text_block ext s i)).
Proof.
  intros Hs. unfold IChat.text_block. rewrite out_state_try.
  apply (ok_eval (step_ok s0)); [assumption|intros v].
  apply (ok_eval (step_ok s0)); [assumption|intros cn].
  destruct (eq_str cn (s_ "NSAttributedString")); [|assumption].
  apply (ok_eval (step_ok s0)); [assumption|intros body]. cbv zeta.
  apply (ok_eval (step_ok s0)); [ok_step|intros entries].
  apply (ok_for_each (step_ok s0)); [|ok_step].
  intros s' j Hs'. apply attribute_entry_ok. assumption.
Qed.

Lemma content_item_ok (s : IChat.state) (i : pyobj) :
  step_ok s0 s -> step_ok s0 (out_state (IChat.content_item ext s i)).
Proof.
  intros Hs. unfold IChat.content_item.
  apply (ok_and_then (step_ok s0)); [apply presentity_block_ok; assumption|intros s1 H1].
  apply (ok_and_then (step_ok s0)); [apply date_block_ok; assumption|intros s2 H2].
  apply text_block_ok. assumption.
Qed.

(** The scan for stray participants changes nothing else. *)
Lemma stray_entry_ok (protocol : pyobj) (s : IChat.state) (l3 : pyobj) :
  only_participants s0 s ->
  only_participants s0 (out_state (IChat.stray_entry protocol s l3)).
Proof. intros Hs. unfold IChat.stray_entry. ok_step. Qed.

Lemma stray_object_ok (protocol : pyobj) (s : IChat.state) (l2 : pyobj) :
  only_participants s0 s ->
  only_participants s0 (out_state (IChat.stray_object protocol s l2)).
Proof.
  intros Hs. unfold IChat.stray_object. rewrite out_state_try.
  apply (ok_eval (only_participants s0)); [assumption|intros cn].
  destruct (eq_str cn (s_ "Presentity")); [|assumption].
  apply (ok_eval (only_participants s0)); [assumption|intros l3s].
  apply (ok_for_each (only_participants s0)); [|assumption].
  intros s' l3 Hs'. apply stray_entry_ok. assumption.
Qed.

Lemma stray_group_ok (protocol : pyobj) (s : IChat.state) (l1 : pyobj) :
  only_participants s0 s ->
  only_participants s0 (out_state (IChat.stray_group protocol s l1)).
Proof.
  intros Hs. unfold IChat.stray_group. rewrite out_state_try.
  apply (ok_eval (only_participants s0)); [assumption|intros l2s].
  apply (ok_for_each (only_participants s0)); [|assumption].
  intros s' l2 Hs'. apply stray_object_ok. assumption.
Qed.

End BlocksKeep.

(** ** The message under construction does not depend on the rest of the state *)

Lemma sim_eval {A} (s t : IChat.state) (r : result A) (k k' : A -> IChat.outcome) :
  same_message s t ->
  (forall a, sim (k a) (k' a)) ->
  sim (IChat.eval s r k) (IChat.eval t r k').
Proof. intros Hs Hk. destruct r; cbn [IChat.eval sim]; auto. Qed.

Lemma sim_and_then (o1 o2 : IChat.outcome) (k k' : IChat.state -> IChat.outcome) :
  sim o1 o2 ->
  (forall s t, same_message s t -> sim (k s) (k' t)) ->
  sim (IChat.and_then o1 k) (IChat.and_then o2 k').
Proof.
  intros Ho Hk. destruct o1, o2; cbn [IChat.and_then sim] in *; auto; contradiction.
Qed.

Lemma sim_try (h : exn -> bool) (o1 o2 : IChat.outcome) :
  sim o1 o2 -> sim (IChat.try_except h o1) (IChat.try_except h o2).
Proof.
  destruct o1, o2; cbn [IChat.try_except sim]; auto; try contradiction.
  intros [Hs ->]. destruct (h e0); cbn [sim]; auto.
Qed.

Lemma sim_for_each {A} (body : IChat.state -> A -> IChat.outcome) :
  (forall s t x, same_message s t -> sim (body s x) (body t x)) ->
  forall (l : list A) (s t : IChat.state),
    same_message s t -> sim (IChat.for_each body s l) (IChat.for_each body t l).
Proof.
  intros Hbody. induction l as [|x l IH]; intros s t Hst; cbn [IChat.for_each sim]; auto.
  apply sim_and_then; auto.
Qed.

Ltac sim_leaf :=
  unfold same_message in *;
  repeat match goal with |- context [if ?b then _ else _] => destruct b end;
  cbn; congruence.

Ltac sim_step :=
  repeat
    (cbv zeta;
     lazymatch goal with
     | |- sim (IChat.try_except _ _) (IChat.try_except _ _) => apply sim_try
     | |- sim (IChat.eval _ _ _) (IChat.eval _ _ _) => apply sim_eval; [sim_leaf|intros]
     | |- sim (IChat.and_then _ _) (IChat.and_then _ _) => apply sim_and_then; [|intros]
     | |- sim (if ?b then _ else _) (if ?b then _ else _) => destruct b
     | |- sim (IChat.Normal _) (IChat.Normal _) => cbn [sim]; sim_leaf
     end).

Section Independence.
Variable ext : externals.

Lemma presentity_block_sim (s t : IChat.state) (i : pyobj) :
  same_message s t -> sim (IChat.presentity_block s i) (IChat.presentity_block t i).
Proof. intros Hst. unfold IChat.presentity_block. sim_step. Qed.

Lemma date_block_sim (s t : IChat.state) (i : pyobj) :
  same_message s t -> sim (IChat.date_block s i) (IChat.date_block t i).
Proof. intros Hst. unfold IChat.date_block. sim_step. Qed.

Lemma attribute_entry_sim (s t : IChat.state) (j : pyobj * pyobj) :
  same_message s t -> sim (IChat.attribute_entry ext s j) (IChat.attribute_entry ext t j).
Proof. intros Hst. unfold IChat.attribute_entry. sim_step. Qed.

Lemma text_block_sim (s t : IChat.state) (i : pyobj) :
  same_message s t -> sim (IChat.text_block ext s i) (IChat.text_block ext t i).
Proof.
  intros Hst. unfold IChat.text_block. apply sim_try.
  apply sim_eval; [assumption|intros v]. apply sim_eval; [assumption|intros cn].
  destruct (eq_str cn (s_ "NSAttributedString")); [|exact Hst].
  apply sim_eval; [assumption|intros body]. cbv zeta.
  apply sim_eval; [sim_leaf|intros entries].
  apply sim_for_each; [|sim_leaf].
  intros s' t' j Hst'. apply attribute_entry_sim. assumption.
Qed.

Lemma content_item_sim (s t : IChat.state) (i : pyobj) :
  same_message s t -> sim (IChat.content_item ext s i) (IChat.content_item ext t i).
Proof.
  intros Hst. unfold IChat.content_item.
  apply sim_and_then; [apply presentity_block_sim; assumption|intros s1 t1 H1].
  apply sim_and_then; [apply date_block_sim; assumption|intros s2 t2 H2].
  apply text_block_sim. assumption.
Qed.

End Independence.

Lemma message_object_ok (ext : externals) (s s' : IChat.state) (msgobj : pyobj) :
  IChat.message_object ext s msgobj = IChat.Normal s' ->
  message_step_ok ext msgobj s s'.
Proof.
  unfold IChat.message_object, message_step_ok, is_instant_message, message_of.
  destruct (IChat.class_name msgobj) as [cn|e]; cbn [IChat.eval]; [|discriminate].
  destruct (eq_str cn (s_ "InstantMessage")).
  - destruct (cs <- getattr msgobj "contents" ;; iterate cs) as [items|e];
      cbn [IChat.eval]; [|discriminate].
    pose proof (ok_for_each (step_ok s) (IChat.content_item ext)
                  (fun s1 x H => content_item_ok ext s s1 x H) items s (step_ok_refl s))
      as [Hmsgs Hflag].
    intros Hrun Hempty.
    pose proof (sim_for_each (IChat.content_item ext) (content_item_sim ext)
                  items s IChat.initial_state Hempty) as Hsim.
    destruct (IChat.for_each (IChat.content_item ext) s items) as [s1|s1 e];
      cbn [IChat.and_then out_state] in *; [|discriminate].
    destruct (IChat.for_each (IChat.content_item ext) IChat.initial_state items)
      as [t1|t1 e]; cbn [sim out_state] in *; [|contradiction].
    inversion Hrun; subst; clear Hrun. cbn. split; [|split].
    + rewrite Hmsgs, Hsim. reflexivity.
    + reflexivity.
    + intros Hok. specialize (Hflag Hok).
      unfold flag_ok in *. cbn. rewrite Hflag, existsb_app. cbn.
      rewrite !orb_false_r. reflexivity.
  - intros H Hempty; inversion H; subst. rewrite app_nil_r. auto.
Qed.

Lemma message_loop_ok (ext : externals) (l : list pyobj) :
  forall s s',
    IChat.for_each (IChat.message_object ext) s l = IChat.Normal s' ->
    IChat.s_message s = empty_message ->
    IChat.s_messages s' =
    IChat.s_messages s ++ map (message_of ext) (filter is_instant_message l) /\
    IChat.s_message s' = empty_message /\
    (flag_ok s -> flag_ok s').
Proof.
  induction l as [|x l IH]; intros s s' H Hempty; cbn [IChat.for_each] in H.
  - inversion H; subst. cbn. rewrite app_nil_r. auto.
  - destruct (IChat.message_object ext s x) as [s1|s1 e] eqn:E;
      cbn [IChat.and_then] in H; [|discriminate].
    apply message_object_ok in E. destruct (E Hempty) as (Hmsgs & Hempty1 & Hflag).
    destruct (IH _ _ H Hempty1) as (Hmsgs' & Hempty' & Hflag').
    split; [|split; auto].
    rewrite Hmsgs', Hmsgs, <- app_assoc. f_equal. cbn [filter].
    destruct (is_instant_message x); reflexivity.
Qed.




(** * Further properties of the container decoder *)

Lemma decode_utf8_vals_error (n : nat) :
  forall (l : list Z) (e : exn),
    (List.length l <= n)%nat -> decode_utf8_vals l = Raise e -> e = UnicodeDecodeError.
Proof.
  induction n as [|n IH]; intros l e Hlen H.
  - destruct l; [discriminate|cbn in Hlen; lia].
  - destruct l as [|b0 r0]; [discriminate|]. cbn [decode_utf8_vals] in H.
    cbn [List.length] in Hlen.
    repeat match type of H with
           | (if ?c then _ else _) = _ => destruct c
           | match ?r with [] => _ | _ :: _ => _ end = _ =>
             destruct r; cbn [List.length] in Hlen
           | bind ?r _ = Raise _ =>
             let E := fresh "E" in
             destruct r eqn:E; cbn [bind] in H;
             [discriminate|inversion H; subst; eapply IH; [|eassumption]; lia]
           | Raise _ = Raise _ => inversion H; reflexivity
           end.
Qed.

Lemma decode_utf8_error (b : bytes) (e : exn) :
  decode_utf8 b = Raise e -> e = UnicodeDecodeError.
Proof. unfold decode_utf8. apply (decode_utf8_vals_error (List.length (map byte_val b))). lia. Qed.

Lemma decode_ascii_error (b : bytes) (e : exn) :
  decode_ascii b = Raise e -> e = UnicodeDecodeError.
Proof.
  unfold decode_ascii. destruct (forallb _ b); [discriminate|].
  intros H; inversion H; reflexivity.
Qed.

Lemma trim_parts_filled (parts : list Rtfd.part) :
  forall parts', Rtfd.trim_parts parts = Ok parts' ->
                 Forall (fun p => Rtfd.filebytes p <> None) parts'.
Proof.
  induction parts as [|p ps IH]; intros parts' H; cbn [Rtfd.trim_parts] in H.
  - inversion H; constructor.
  - bind_inv H. bind_inv H. inversion H; subst; clear H. constructor; [|apply IH; reflexivity].
    unfold Rtfd.trim_part in E. bind_inv E. bind_inv E. inversion E; subst. discriminate.
Qed.

Lemma find_filename_error (parts : list Rtfd.part) (e : exn) :
  Forall (fun p => Rtfd.filebytes p <> None) parts ->
  Rtfd.find_filename parts = Raise e -> e = UnicodeDecodeError.
Proof.
  induction 1 as [|p ps Hp _ IH]; cbn [Rtfd.find_filename]; [discriminate|].
  destruct (Rtfd.filebytes p) as [fb|]; [|congruence]. cbn [Rtfd.read bind].
  destruct (bytes_eqb (Rtfd.name p) Rtfd.utf8_preferred_name).
  - destruct (decode_utf8 fb) eqn:E; cbn [bind]; [discriminate|].
    intros H; inversion H; subst. eapply decode_utf8_error; eassumption.
  - destruct (bytes_eqb (Rtfd.name p) Rtfd.preferred_name); [|exact IH].
    destruct (decode_ascii fb) eqn:E; cbn [bind]; [discriminate|].
    intros H; inversion H; subst. eapply decode_ascii_error; eassumption.
Qed.

Lemma find_data_total (parts : list Rtfd.part) :
  Forall (fun p => Rtfd.filebytes p <> None) parts ->
  exists d, Rtfd.find_data parts = Ok d.
Proof.
  induction 1 as [|p ps Hp _ IH]; cbn [Rtfd.find_data]; [eexists; reflexivity|].
  destruct (Rtfd.filebytes p) as [fb|]; [|congruence]. cbn [Rtfd.read bind].
  destruct (bytes_eqb (Rtfd.name p) Rtfd.dotdot); [eexists; reflexivity|].
  destruct (bytes_eqb (Rtfd.name p) Rtfd.dot); [eexists; reflexivity|exact IH].
Qed.

(** X1: the only exceptions [decode_rtfd] raises are [TypeError], [struct.error]
    and [UnicodeDecodeError]; it raises [TypeError] exactly when the argument
    is not a [bytes] value that starts with the magic.  In particular no
    [KeyError] and no [IndexError] comes out of it. *)
Theorem decode_rtfd_exceptions (o : pyobj) :
  (forall e, Rtfd.decode_rtfd o = Raise e ->
             e = TypeError \/ e = StructError \/ e = UnicodeDecodeError) /\
  (Rtfd.decode_rtfd o = Raise TypeError <-> Rtfd.has_rtfd_magic o <> Ok true).
Proof.
  assert (Hmain : forall e, Rtfd.decode_rtfd o = Raise e ->
                            (e = TypeError /\ Rtfd.has_rtfd_magic o <> Ok true) \/
                            (Rtfd.has_rtfd_magic o = Ok true /\
                             (e = StructError \/ e = UnicodeDecodeError))).
  { intros e H. unfold Rtfd.decode_rtfd in H.
    destruct (Rtfd.has_rtfd_magic o) as [[|]|e0] eqn:Hm; cbn [bind negb] in H.
    - right. split; [reflexivity|]. destruct o; try discriminate Hm.
      destruct (Rtfd.decode_parts b) as [parts|e1] eqn:Hp; cbn [bind] in H.
      + unfold Rtfd.build_outdict in H.
        assert (Hfill : Forall (fun p => Rtfd.filebytes p <> None) parts).
        { unfold Rtfd.decode_parts in Hp. bind_inv Hp. destruct a.
          eapply trim_parts_filled; eassumption. }
        destruct (Rtfd.find_filename parts) as [fn|e1] eqn:Hf; cbn [bind] in H.
        * destruct (find_data_total parts Hfill) as [d Hd]. rewrite Hd in H. discriminate.
        * inversion H; subst. right. eapply find_filename_error; eassumption.
      + inversion H; subst. left. eapply decode_parts_error; eassumption.
    - left. inversion H. split; [reflexivity|discriminate].
    - inversion H; subst. left. split; [|discriminate].
      destruct o; cbn in Hm; try (inversion Hm; reflexivity).
      destruct (bytes_eqb _ _); discriminate. }
  split.
  - intros e H. destruct (Hmain e H) as [[-> _]|[_ [->| ->]]]; auto.
  - split.
    + intros H. destruct (Hmain _ H) as [[_ Hn]|[_ [Hc|Hc]]]; [assumption|discriminate..].
    + intros Hn. unfold Rtfd.decode_rtfd.
      destruct (Rtfd.has_rtfd_magic o) as [[|]|e0] eqn:Hm; cbn [bind negb];
        [congruence|reflexivity|].
      destruct o; cbn in Hm; try (inversion Hm; reflexivity).
      destruct (bytes_eqb _ _); discriminate.
Qed.

Lemma decode_rtfd_exceptions_witness :
  StructError = TypeError \/ StructError = StructError \/ StructError = UnicodeDecodeError.
Proof.
  apply (proj1 (decode_rtfd_exceptions (PBytes (b_ "rtfd"))) StructError).
  vm_compute. reflexivity.
Defined.

Lemma unpack_i32_total (buf : bytes) :
  len buf = 4 -> exists v, unpack_i32 buf = Ok v.
Proof. intros H. unfold unpack_i32. rewrite H. eexists. reflexivity. Qed.

Lemma read_i32_total (data : bytes) (off : Z) :
  0 <= off -> off + 4 <= len data ->
  exists v, unpack_i32 (py_slice data off (off + 4)) = Ok v.
Proof.
  intros H0 H. apply unpack_i32_total. rewrite len_py_slice by lia. lia.
Qed.

(** X2: a container whose part count is zero or negative decodes to the empty
    result, with neither file name nor data, whatever follows its 16-byte
    header. *)
Theorem no_parts_empty_result (d : bytes) (n : Z) :
  Rtfd.has_rtfd_magic (PBytes d) = Ok true ->
  16 <= len d ->
  unpack_i32 (py_slice d 12 16) = Ok n ->
  n <= 0 ->
  Rtfd.decode_rtfd (PBytes d) = Ok (Rtfd.mk_outdict None None).
Proof.
  intros Hmagic Hlen Hn Hle. unfold Rtfd.decode_rtfd. rewrite Hmagic. cbn [bind negb].
  unfold Rtfd.decode_parts, Rtfd.read_tables.
  destruct (read_i32_total d 4) as [v1 H1]; [lia|lia|].
  destruct (read_i32_total d 8) as [v2 H2]; [lia|lia|].
  change (4 + 4) with 8 in H1. change (8 + 4) with 12 in H2.
  rewrite H1, H2, Hn. cbn [bind].
  replace (Z.to_nat n) with 0%nat by lia. reflexivity.
Qed.

Lemma no_parts_empty_result_witness :
  Rtfd.decode_rtfd (PBytes (Rtfd.magic ++ le32 0 ++ le32 3 ++ le32 (-1) ++ b_ "junk")) =
  Ok (Rtfd.mk_outdict None None).
Proof.
  apply (no_parts_empty_result _ (-1)); [reflexivity|vm_compute; discriminate|reflexivity|lia].
Defined.

(** ** Bytes after the last content block *)

Lemma py_slice_app_l {A} (l extra : list A) (a b : Z) :
  0 <= a -> a <= b -> b <= len l ->
  py_slice (l ++ extra) a b = py_slice l a b.
Proof.
  intros Ha Hab Hb. rewrite !py_slice_nonneg by assumption.
  rewrite skipn_app, firstn_app.
  replace (Z.to_nat (b - a) - List.length (skipn (Z.to_nat a) l))%nat with 0%nat
    by (rewrite length_skipn; unfold len in *; lia).
  cbn [firstn]. apply app_nil_r.
Qed.

Section Extension.
Variable data extra : bytes.

Lemma read_i32_extended (off v : Z) :
  0 <= off ->
  unpack_i32 (py_slice data off (off + 4)) = Ok v ->
  unpack_i32 (py_slice (data ++ extra) off (off + 4)) = Ok v /\ off + 4 <= len data.
Proof.
  intros H0 Hv. pose proof (read_i32_in_bounds data off v H0 Hv) as Hb.
  rewrite py_slice_app_l by lia. auto.
Qed.

Lemma read_chars_extended (off count : Z) (out : bytes) :
  0 <= off -> off <= len data ->
  unpack_chars count (py_slice data off (off + count)) = Ok out ->
  unpack_chars count (py_slice (data ++ extra) off (off + count)) = Ok out /\
  0 <= count /\ off + count <= len data.
Proof.
  intros H0 Hl Hv. destruct (read_chars_in_bounds data off count out H0 Hl Hv) as [Hc Hb].
  rewrite py_slice_app_l by lia. auto.
Qed.

Lemma read_names_extended (count : nat) :
  forall off i parts off',
    0 <= off -> off <= len data ->
    Rtfd.read_names data off i count = Ok (parts, off') ->
    Rtfd.read_names (data ++ extra) off i count = Ok (parts, off') /\ off' <= len data.
Proof.
  induction count as [|count IH]; intros off i parts off' H0 Hl Hrun;
    cbn [Rtfd.read_names] in *.
  - inversion Hrun; subst. auto.
  - bind_inv Hrun. bind_inv Hrun. bind_inv Hrun. destruct a1 as [rest off2].
    inversion Hrun; subst; clear Hrun.
    destruct (read_i32_extended off a H0 E) as [-> Hb]. cbn [bind].
    destruct (read_chars_extended (off + 4) a a0) as (-> & Hc & Hb'); [lia|lia|assumption|].
    cbn [bind].
    destruct (IH (off + 4 + a) (i + 1) rest off') as [-> Hb'']; [lia|lia|assumption|].
    auto.
Qed.

Lemma read_sizes_extended (parts : list Rtfd.part) :
  forall off parts' off',
    0 <= off -> off <= len data ->
    Rtfd.read_sizes data off parts = Ok (parts', off') ->
    Rtfd.read_sizes (data ++ extra) off parts = Ok (parts', off') /\ off' <= len data.
Proof.
  induction parts as [|p ps IH]; intros off parts' off' H0 Hl Hrun;
    cbn [Rtfd.read_sizes] in *.
  - inversion Hrun; subst. auto.
  - bind_inv Hrun. bind_inv Hrun. destruct a0 as [rest off2].
    inversion Hrun; subst; clear Hrun.
    destruct (read_i32_extended off a H0 E) as [-> Hb]. cbn [bind].
    destruct (IH (off + 4) rest off') as [-> Hb']; [lia|lia|assumption|].
    auto.
Qed.

Lemma read_contents_extended (parts : list Rtfd.part) :
  forall off parts' off',
    0 <= off -> off <= len data ->
    Rtfd.read_contents data off parts = Ok (parts', off') ->
    Rtfd.read_contents (data ++ extra) off parts = Ok (parts', off') /\ off' <= len data.
Proof.
  induction parts as [|p ps IH]; intros off parts' off' H0 Hl Hrun;
    cbn [Rtfd.read_contents] in *.
  - inversion Hrun; subst. auto.
  - bind_inv Hrun. bind_inv Hrun. bind_inv Hrun. destruct a1 as [rest off2].
    inversion Hrun; subst; clear Hrun. cbn [bind].
    destruct (read_chars_extended off a a0) as (-> & Hc & Hb'); [lia|lia|assumption|].
    cbn [bind].
    destruct (IH (off + a) rest off') as [-> Hb'']; [lia|lia|assumption|].
    auto.
Qed.

Lemma read_tables_extended (parts : list Rtfd.part) (off : Z) :
  Rtfd.read_tables data = Ok (parts, off) ->
  Rtfd.read_tables (data ++ extra) = Ok (parts, off).
Proof.
  unfold Rtfd.read_tables. intros Hrun.
  bind_inv Hrun. bind_inv Hrun. bind_inv Hrun. bind_inv Hrun.
  destruct a2 as [named off1]. bind_inv Hrun. destruct a2 as [sized off2].
  destruct (read_i32_extended 4 a) as [A1 _]; [lia|exact E|].
  destruct (read_i32_extended 8 a0) as [A2 _]; [lia|exact E0|].
  destruct (read_i32_extended 12 a1) as [A3 H16]; [lia|exact E1|].
  change (4 + 4) with 8 in A1. change (8 + 4) with 12 in A2. change (12 + 4) with 16 in *.
  rewrite A1, A2, A3. cbn [bind].
  destruct (read_names_extended (Z.to_nat a1) 16 0 named off1) as [-> Hb1];
    [lia|lia|exact E2|].
  pose proof (read_names_mono _ _ _ _ _ _ E2) as M1. cbn [bind].
  destruct (read_sizes_extended named off1 sized off2) as [-> Hb2]; [lia|lia|exact E3|].
  pose proof (read_sizes_mono _ _ _ _ _ E3) as M2. cbn [bind].
  apply (read_contents_extended sized off2 parts off); [lia|lia|exact Hrun].
Qed.

End Extension.

(** X3: bytes that follow the last content block are never looked at: a buffer
    that decodes still decodes, to the same result, with anything appended. *)
Theorem trailing_bytes_are_ignored (data extra : bytes) (out : Rtfd.outdict) :
  Rtfd.decode_rtfd (PBytes data) = Ok out ->
  Rtfd.decode_rtfd (PBytes (data ++ extra)) = Ok out.
Proof.
  unfold Rtfd.decode_rtfd. intros H.
  destruct (Rtfd.has_rtfd_magic (PBytes data)) as [[|]|e] eqn:Hm; cbn [bind negb] in H;
    try discriminate.
  unfold Rtfd.decode_parts in H.
  destruct (Rtfd.read_tables data) as [[parts off]|e] eqn:Hr; cbn [bind] in H;
    [|discriminate].
  assert (H16 : 16 <= len data).
  { unfold Rtfd.read_tables in Hr. bind_inv Hr. bind_inv Hr. bind_inv Hr.
    apply (read_i32_in_bounds data 12 a1); [lia|exact E1]. }
  assert (Hm' : Rtfd.has_rtfd_magic (PBytes (data ++ extra)) = Ok true).
  { cbn [Rtfd.has_rtfd_magic] in *. rewrite py_slice_app_l by lia. exact Hm. }
  rewrite Hm'. cbn [bind negb]. unfold Rtfd.decode_parts.
  rewrite (read_tables_extended data extra parts off Hr). cbn [bind]. exact H.
Qed.

Lemma trailing_bytes_are_ignored_witness :
  Rtfd.decode_rtfd (PBytes (note_container [] ++ b_ "anything")) =
  Ok (Rtfd.mk_outdict (Some (s_ "note.txt")) (Some (b_ "hello"))).
Proof.
  apply trailing_bytes_are_ignored. vm_compute. reflexivity.
Defined.

(** ** Reading back a built container *)

Lemma slice_at {A} (l pre w rest : list A) (a b : Z) :
  l = pre ++ w ++ rest -> a = len pre -> b = a + len w ->
  py_slice l a b = w.
Proof.
  intros -> -> ->. pose proof (len_nonneg pre). pose proof (len_nonneg w).
  rewrite py_slice_app_r by lia.
  replace (len pre - len pre) with 0 by lia.
  replace (len pre + len w - len pre) with (len w) by lia.
  apply py_slice_prefix.
Qed.

Lemma read_names_built (entries : list (bytes * bytes)) :
  forall (data pre rest : bytes) (off i : Z),
    Forall (fun e => len (fst e) < 2147483648) entries ->
    data = pre ++ name_table entries ++ rest ->
    off = len pre ->
    Rtfd.read_names data off i (List.length entries) =
    Ok (named_parts i entries, off + len (name_table entries)).
Proof.
  induction entries as [|e es IH]; intros data pre rest off i Hfit Hdata Hoff.
  - cbn. rewrite Z.add_0_r. reflexivity.
  - apply Forall_cons_iff in Hfit. destruct Hfit as [He Hes]. subst. cbn beta in He.
    unfold bytes in *.
    pose proof (len_nonneg (fst e)) as Hn.
    cbn [List.length Rtfd.read_names name_table flat_map named_parts].
    fold (name_table es).
    rewrite (slice_at _ pre (le32 (len (fst e))) (fst e ++ name_table es ++ rest));
      [|rewrite <- !app_assoc; reflexivity|reflexivity|reflexivity].
    rewrite unpack_le32
      by lia.
    cbn [bind].
    rewrite (slice_at _ (pre ++ le32 (len (fst e))) (fst e) (name_table es ++ rest));
      [|rewrite <- !app_assoc; reflexivity|rewrite len_app; reflexivity|reflexivity].
    rewrite unpack_chars_exact. cbn [bind].
    rewrite (IH _ (pre ++ le32 (len (fst e)) ++ fst e) rest _ (i + 1) Hes);
      [|rewrite <- !app_assoc; reflexivity|rewrite !len_app, len_le32; unfold bytes in *; lia].
    cbn [bind]. rewrite !len_app, len_le32. do 2 f_equal. unfold bytes in *. lia.
Qed.

Lemma read_sizes_built (entries : list (bytes * bytes)) :
  forall (data pre rest : bytes) (off i : Z),
    Forall (fun e => len (snd e) < 2147483648) entries ->
    data = pre ++ size_table entries ++ rest ->
    off = len pre ->
    Rtfd.read_sizes data off (named_parts i entries) =
    Ok (sized_parts i entries, off + len (size_table entries)).
Proof.
  induction entries as [|e es IH]; intros data pre rest off i Hfit Hdata Hoff.
  - cbn. rewrite Z.add_0_r. reflexivity.
  - apply Forall_cons_iff in Hfit. destruct Hfit as [He Hes]. subst. cbn beta in He.
    unfold bytes in *.
    pose proof (len_nonneg (snd e)) as Hn.
    cbn [Rtfd.read_sizes size_table flat_map named_parts sized_parts].
    fold (size_table es).
    rewrite (slice_at _ pre (le32 (len (snd e))) (size_table es ++ rest));
      [|rewrite <- !app_assoc; reflexivity|reflexivity|reflexivity].
    rewrite unpack_le32
      by lia.
    cbn [bind].
    rewrite (IH _ (pre ++ le32 (len (snd e))) rest _ (i + 1) Hes);
      [|rewrite <- !app_assoc; reflexivity|rewrite !len_app, len_le32; unfold bytes in *; lia].
    cbn [bind]. rewrite !len_app, len_le32. do 2 f_equal. unfold bytes in *. lia.
Qed.

Lemma read_contents_built (entries : list (bytes * bytes)) :
  forall (data pre rest : bytes) (off i : Z),
    data = pre ++ content_table entries ++ rest ->
    off = len pre ->
    Rtfd.read_contents data off (sized_parts i entries) =
    Ok (built_parts i entries, off + len (content_table entries)).
Proof.
  induction entries as [|e es IH]; intros data pre rest off i Hdata Hoff.
  - cbn. rewrite Z.add_0_r. reflexivity.
  - subst. unfold bytes in *.
    cbn [Rtfd.read_contents content_table flat_map sized_parts built_parts
         Rtfd.size Rtfd.read bind].
    fold (content_table es).
    rewrite (slice_at _ pre (snd e) (content_table es ++ rest));
      [|rewrite <- !app_assoc; reflexivity|reflexivity|reflexivity].
    rewrite unpack_chars_exact. cbn [bind].
    rewrite (IH _ (pre ++ snd e) rest _ (i + 1));
      [|rewrite <- !app_assoc; reflexivity|rewrite !len_app; unfold bytes in *; lia].
    cbn [bind]. rewrite !len_app. do 2 f_equal. unfold bytes in *. lia.
Qed.

Lemma container_tables (entries : list (bytes * bytes)) :
  fits entries ->
  Rtfd.read_tables (container entries) =
  Ok (built_parts 0 entries, len (container entries)).
Proof.
  intros [Hcount Hfit]. pose proof (len_nonneg entries) as Hn.
  unfold Rtfd.read_tables, container.
  fold (name_table entries) (size_table entries) (content_table entries).
  set (tables := name_table entries ++ size_table entries ++ content_table entries).
  rewrite (slice_at _ Rtfd.magic (le32 0) (le32 3 ++ le32 (len entries) ++ tables));
    [|reflexivity|reflexivity|reflexivity].
  rewrite unpack_le32 by lia. cbn [bind].
  rewrite (slice_at _ (Rtfd.magic ++ le32 0) (le32 3) (le32 (len entries) ++ tables));
    [|rewrite <- !app_assoc; reflexivity|reflexivity|reflexivity].
  rewrite unpack_le32 by lia. cbn [bind].
  rewrite (slice_at _ (Rtfd.magic ++ le32 0 ++ le32 3) (le32 (len entries)) tables);
    [|rewrite <- !app_assoc; reflexivity|reflexivity|reflexivity].
  rewrite unpack_le32 by lia. cbn [bind].
  replace (Z.to_nat (len entries)) with (List.length entries) by (unfold len; lia).
  subst tables.
  rewrite (read_names_built entries _ (Rtfd.magic ++ le32 0 ++ le32 3 ++ le32 (len entries))
             (size_table entries ++ content_table entries) 16 0);
    [|eapply Forall_impl; [|exact Hfit]; intros e He; apply He
     |rewrite <- !app_assoc; reflexivity|reflexivity].
  cbn [bind].
  rewrite (read_sizes_built entries _
             (Rtfd.magic ++ le32 0 ++ le32 3 ++ le32 (len entries) ++ name_table entries)
             (content_table entries) _ 0);
    [|eapply Forall_impl; [|exact Hfit]; intros e He; apply He
     |rewrite <- !app_assoc; reflexivity
     |rewrite !len_app, !len_le32; change (len Rtfd.magic) with 4; unfold bytes in *; lia].
  cbn [bind].
  rewrite (read_contents_built entries _
             (Rtfd.magic ++ le32 0 ++ le32 3 ++ le32 (len entries) ++ name_table entries
              ++ size_table entries) [] _ 0);
    [|rewrite <- !app_assoc, app_nil_r; reflexivity
     |rewrite !len_app, !len_le32; change (len Rtfd.magic) with 4; unfold bytes in *; lia].
  f_equal. f_equal. rewrite !len_app, !len_le32. change (len Rtfd.magic) with 4.
  unfold bytes in *. lia.
Qed.

(** X4: what is written is what is read.  A container built from a list of
    [(name, content block)] entries whose sizes fit the 32-bit fields is read
    back as one part per entry, in the same order, numbered from 0, with that
    entry's name, size and content block; the three table passes end exactly
    at the end of the buffer. *)
Theorem built_container_reads_back (entries : list (bytes * bytes)) :
  fits entries ->
  Rtfd.read_tables (container entries) =
  Ok (built_parts 0 entries, len (container entries)).
Proof.
  intros [Hcount Hfit]. pose proof (len_nonneg entries) as Hn.
  unfold Rtfd.read_tables, container.
  fold (name_table entries) (size_table entries) (content_table entries).
  set (tables := name_table entries ++ size_table entries ++ content_table entries).
  rewrite (slice_at _ Rtfd.magic (le32 0) (le32 3 ++ le32 (len entries) ++ tables));
    [|reflexivity|reflexivity|reflexivity].
  rewrite unpack_le32 by lia. cbn [bind].
  rewrite (slice_at _ (Rtfd.magic ++ le32 0) (le32 3) (le32 (len entries) ++ tables));
    [|rewrite <- !app_assoc; reflexivity|reflexivity|reflexivity].
  rewrite unpack_le32 by lia. cbn [bind].
  rewrite (slice_at _ (Rtfd.magic ++ le32 0 ++ le32 3) (le32 (len entries)) tables);
    [|rewrite <- !app_assoc; reflexivity|reflexivity|reflexivity].
  rewrite unpack_le32 by lia. cbn [bind].
  replace (Z.to_nat (len entries)) with (List.length entries) by (unfold len; lia).
  subst tables.
  rewrite (read_names_built entries _ (Rtfd.magic ++ le32 0 ++ le32 3 ++ le32 (len entries))
             (size_table entries ++ content_table entries) 16 0);
    [|eapply Forall_impl; [|exact Hfit]; intros e He; apply He
     |rewrite <- !app_assoc; reflexivity|reflexivity].
  cbn [bind].
  rewrite (read_sizes_built entries _
             (Rtfd.magic ++ le32 0 ++ le32 3 ++ le32 (len entries) ++ name_table entries)
             (content_table entries) _ 0);
    [|eapply Forall_impl; [|exact Hfit]; intros e He; apply He
     |rewrite <- !app_assoc; reflexivity
     |rewrite !len_app, !len_le32; change (len Rtfd.magic) with 4; unfold bytes in *; lia].
  cbn [bind].
  rewrite (read_contents_built entries _
             (Rtfd.magic ++ le32 0 ++ le32 3 ++ le32 (len entries) ++ name_table entries
              ++ size_table entries) [] _ 0);
    [|rewrite <- !app_assoc, app_nil_r; reflexivity
     |rewrite !len_app, !len_le32; change (len Rtfd.magic) with 4; unfold bytes in *; lia].
  f_equal. f_equal. rewrite !len_app, !len_le32. change (len Rtfd.magic) with 4.
  unfold bytes in *. lia.
Qed.

Lemma built_container_reads_back_witness :
  Rtfd.read_tables (container [(Rtfd.dot, b_ "12345678"); (b_ "x", [])]) =
  Ok (built_parts 0 [(Rtfd.dot, b_ "12345678"); (b_ "x", [])], 42).
Proof.
  apply (built_container_reads_back [(Rtfd.dot, b_ "12345678"); (b_ "x", [])]).
  split; [reflexivity|]. repeat constructor.
Defined.

Lemma len_standard_block (hdr : Z) (payload : bytes) :
  len (standard_block hdr payload) = 8 + len payload.
Proof. unfold standard_block. rewrite !len_app, !len_le32. lia. Qed.

Lemma trim_built_files (hdr : Z) (files : list (bytes * bytes)) :
  forall i,
    Forall (fun f => len (snd f) < 2147483648) files ->
    Rtfd.trim_parts
      (built_parts i (map (fun f => (fst f, standard_block hdr (snd f))) files)) =
    Ok (decoded_parts hdr i files).
Proof.
  induction files as [|f fs IH]; intros i Hfit; [reflexivity|].
  apply Forall_cons_iff in Hfit. destruct Hfit as [Hf Hfs]. cbn beta in Hf.
  cbn [map built_parts decoded_parts Rtfd.trim_parts fst snd].
  unfold Rtfd.trim_part. cbn [Rtfd.contentbytes Rtfd.read bind].
  rewrite extract_standard_block by assumption. cbn [bind].
  rewrite IH by assumption. reflexivity.
Qed.

Lemma container_parts (hdr : Z) (files : list (bytes * bytes)) :
  len files < 2147483648 ->
  Forall (fun f => len (fst f) < 2147483648 /\ len (snd f) < 2147483640) files ->
  Rtfd.decode_parts (container_of_files hdr files) = Ok (decoded_parts hdr 0 files).
Proof.
  intros Hcount Hfit. unfold Rtfd.decode_parts, container_of_files.
  rewrite container_tables.
  - cbn [bind]. apply trim_built_files.
    eapply Forall_impl; [|exact Hfit]. intros f [_ Hf]. cbn beta. unfold bytes in *. lia.
  - split.
    + unfold len in *. rewrite length_map. exact Hcount.
    + apply Forall_map. eapply Forall_impl; [|exact Hfit].
      intros f [Hn Hf]. cbn [fst snd]. split; [exact Hn|].
      rewrite len_standard_block. unfold bytes in *. lia.
Qed.

(** X5: files written in the standard layout come back byte for byte.  For a
    list of [(name, file)] pairs whose sizes fit the 32-bit fields, the parts
    decoded from the container built of them are, in order, one per pair,
    with index 0, 1, ..., that pair's name and, as file bytes, that pair's
    file. *)
Theorem files_decode_back (hdr : Z) (files : list (bytes * bytes)) :
  len files < 2147483648 ->
  Forall (fun f => len (fst f) < 2147483648 /\ len (snd f) < 2147483640) files ->
  Rtfd.decode_parts (container_of_files hdr files) = Ok (decoded_parts hdr 0 files).
Proof.
  intros Hcount Hfit. unfold Rtfd.decode_parts, container_of_files.
  rewrite container_tables.
  - cbn [bind]. apply trim_built_files.
    eapply Forall_impl; [|exact Hfit]. intros f [_ Hf]. cbn beta. unfold bytes in *. lia.
  - split.
    + unfold len in *. rewrite length_map. exact Hcount.
    + apply Forall_map. eapply Forall_impl; [|exact Hfit].
      intros f [Hn Hf]. cbn [fst snd]. split; [exact Hn|].
      rewrite len_standard_block. unfold bytes in *. lia.
Qed.

Lemma files_decode_back_witness :
  Rtfd.decode_parts (container_of_files 1 [(Rtfd.dot, b_ "hello"); (b_ "x", [])]) =
  Ok (decoded_parts 1 0 [(Rtfd.dot, b_ "hello"); (b_ "x", [])]).
Proof.
  apply files_decode_back; [reflexivity|]. repeat constructor.
Defined.

Lemma container_outdict (hdr : Z) (fname payload : bytes) (s : pystr) :
  len fname < 2147483640 -> len payload < 2147483640 ->
  decode_utf8 fname = Ok s ->
  Rtfd.decode_rtfd
    (PBytes (container_of_files hdr [(Rtfd.utf8_preferred_name, fname);
                                     (Rtfd.dot, payload)])) =
  Ok (Rtfd.mk_outdict (Some s) (Some payload)).
Proof.
  intros Hf Hp Hs. unfold Rtfd.decode_rtfd.
  assert (Hm : Rtfd.has_rtfd_magic
                 (PBytes (container_of_files hdr [(Rtfd.utf8_preferred_name, fname);
                                                  (Rtfd.dot, payload)])) = Ok true).
  { cbn [Rtfd.has_rtfd_magic]. unfold container_of_files, container.
    rewrite (py_slice_prefix Rtfd.magic). reflexivity. }
  rewrite Hm. cbn [bind negb]. rewrite container_parts.
  - cbn [bind decoded_parts]. unfold Rtfd.build_outdict.
    cbn [Rtfd.find_filename Rtfd.find_data Rtfd.name Rtfd.filebytes fst snd].
    change (bytes_eqb Rtfd.utf8_preferred_name Rtfd.utf8_preferred_name) with true.
    change (bytes_eqb Rtfd.utf8_preferred_name Rtfd.dotdot) with false.
    change (bytes_eqb Rtfd.utf8_preferred_name Rtfd.dot) with false.
    change (bytes_eqb Rtfd.dot Rtfd.dotdot) with false.
    change (bytes_eqb Rtfd.dot Rtfd.dot) with true.
    cbn [Rtfd.read bind]. rewrite Hs. reflexivity.
  - reflexivity.
  - repeat constructor; cbn [fst snd]; try assumption; reflexivity.
Qed.

(** X6: a name and a file survive the trip.  A container holding a part named
    [__@UTF8PreferredName@__] whose file is the UTF-8 encoding of a name, and
    a part named [.] whose file is any payload, decodes to exactly that name
    and that payload. *)
Theorem name_and_data_round_trip (hdr : Z) (fname payload : bytes) (s : pystr) :
  len fname < 2147483640 -> len payload < 2147483640 ->
  decode_utf8 fname = Ok s ->
  Rtfd.decode_rtfd
    (PBytes (container_of_files hdr [(Rtfd.utf8_preferred_name, fname);
                                     (Rtfd.dot, payload)])) =
  Ok (Rtfd.mk_outdict (Some s) (Some payload)).
Proof.
  intros Hf Hp Hs. unfold Rtfd.decode_rtfd.
  assert (Hm : Rtfd.has_rtfd_magic
                 (PBytes (container_of_files hdr [(Rtfd.utf8_preferred_name, fname);
                                                  (Rtfd.dot, payload)])) = Ok true).
  { cbn [Rtfd.has_rtfd_magic]. unfold container_of_files, container.
    rewrite (py_slice_prefix Rtfd.magic). reflexivity. }
  rewrite Hm. cbn [bind negb]. rewrite container_parts.
  - cbn [bind decoded_parts]. unfold Rtfd.build_outdict.
    cbn [Rtfd.find_filename Rtfd.find_data Rtfd.name Rtfd.filebytes fst snd].
    change (bytes_eqb Rtfd.utf8_preferred_name Rtfd.utf8_preferred_name) with true.
    change (bytes_eqb Rtfd.utf8_preferred_name Rtfd.dotdot) with false.
    change (bytes_eqb Rtfd.utf8_preferred_name Rtfd.dot) with false.
    change (bytes_eqb Rtfd.dot Rtfd.dotdot) with false.
    change (bytes_eqb Rtfd.dot Rtfd.dot) with true.
    cbn [Rtfd.read bind]. rewrite Hs. reflexivity.
  - reflexivity.
  - repeat constructor; cbn [fst snd]; try assumption; reflexivity.
Qed.

Lemma name_and_data_round_trip_witness :
  Rtfd.decode_rtfd
    (PBytes (container_of_files 1 [(Rtfd.utf8_preferred_name, b_ "a.png");
                                   (Rtfd.dot, [x89; x50])])) =
  Ok (Rtfd.mk_outdict (Some (s_ "a.png")) (Some [x89; x50])).
Proof.
  apply name_and_data_round_trip; reflexivity.
Defined.

(** ** Containers without a name part or without a data part *)

Lemma find_filename_none_iff (parts : list Rtfd.part) :
  Rtfd.find_filename parts = Ok None <-> existsb is_name_marker parts = false.
Proof.
  induction parts as [|p ps IH]; cbn [Rtfd.find_filename existsb]; [tauto|].
  unfold is_name_marker at 1.
  destruct (bytes_eqb (Rtfd.name p) Rtfd.utf8_preferred_name); cbn [orb].
  - split; [|discriminate]. intros H.
    destruct (Rtfd.read (Rtfd.filebytes p)); cbn [bind] in H; [|discriminate].
    destruct (decode_utf8 a); discriminate.
  - destruct (bytes_eqb (Rtfd.name p) Rtfd.preferred_name); cbn [orb]; [|exact IH].
    split; [|discriminate]. intros H.
    destruct (Rtfd.read (Rtfd.filebytes p)); cbn [bind] in H; [|discriminate].
    destruct (decode_ascii a); discriminate.
Qed.

Lemma find_data_none_iff (parts : list Rtfd.part) :
  Rtfd.find_data parts = Ok None <-> existsb is_data_marker parts = false.
Proof.
  induction parts as [|p ps IH]; cbn [Rtfd.find_data existsb]; [tauto|].
  unfold is_data_marker at 1.
  destruct (bytes_eqb (Rtfd.name p) Rtfd.dotdot); cbn [orb].
  - split; [|discriminate]. intros H.
    destruct (Rtfd.read (Rtfd.filebytes p)); discriminate.
  - destruct (bytes_eqb (Rtfd.name p) Rtfd.dot); cbn [orb]; [|exact IH].
    split; [|discriminate]. intros H.
    destruct (Rtfd.read (Rtfd.filebytes p)); discriminate.
Qed.

(** X7: the two keys of the result are optional, and the adapters do not allow
    for that.  A container that decodes but has no part named
    [__@UTF8PreferredName@__] or [__@PreferredName@__] gives a result without
    ['filename'], one without a part named [..] or [.] gives a result without
    ['data'], and in either case the attachment code of both adapters
    ([attachment['name'] = attachment['filename']] and what follows) raises
    [KeyError]. *)
Theorem missing_part_is_key_error (ext : externals) (d : bytes) (parts : list Rtfd.part) :
  Rtfd.has_rtfd_magic (PBytes d) = Ok true ->
  Rtfd.decode_parts d = Ok parts ->
  (existsb is_name_marker parts = false ->
   (exists dat, Rtfd.decode_rtfd (PBytes d) = Ok (Rtfd.mk_outdict None dat)) /\
   decoded_attachment ext (PBytes d) = Raise KeyError) /\
  (existsb is_data_marker parts = false ->
   forall out, Rtfd.decode_rtfd (PBytes d) = Ok out ->
               Rtfd.data out = None /\
               decoded_attachment ext (PBytes d) = Raise KeyError).
Proof.
  intros Hm Hp.
  assert (Hfill : Forall (fun p => Rtfd.filebytes p <> None) parts).
  { unfold Rtfd.decode_parts in Hp. bind_inv Hp. destruct a.
    eapply trim_parts_filled; eassumption. }
  assert (Hdec : Rtfd.decode_rtfd (PBytes d) = Rtfd.build_outdict parts).
  { unfold Rtfd.decode_rtfd. rewrite Hm. cbn [bind negb]. rewrite Hp. reflexivity. }
  split.
  - intros Hno. apply find_filename_none_iff in Hno.
    destruct (find_data_total parts Hfill) as [dat Hdat].
    assert (Hout : Rtfd.decode_rtfd (PBytes d) = Ok (Rtfd.mk_outdict None dat)).
    { rewrite Hdec. unfold Rtfd.build_outdict. rewrite Hno, Hdat. reflexivity. }
    split; [exists dat; exact Hout|].
    unfold decoded_attachment. rewrite Hout. reflexivity.
  - intros Hno out Hout. apply find_data_none_iff in Hno.
    rewrite Hdec in Hout. unfold Rtfd.build_outdict in Hout.
    destruct (Rtfd.find_filename parts) as [fn|e] eqn:Hfn; cbn [bind] in Hout;
      [|discriminate].
    rewrite Hno in Hout. cbn [bind] in Hout. inversion Hout; subst; clear Hout.
    split; [reflexivity|].
    unfold decoded_attachment. rewrite Hdec. unfold Rtfd.build_outdict.
    rewrite Hfn, Hno. cbn [bind Rtfd.filename Rtfd.data Rtfd.read].
    destruct fn; reflexivity.
Qed.

Lemma missing_part_is_key_error_witness :
  decoded_attachment null_externals (PBytes (data_container true)) = Raise KeyError /\
  decoded_attachment null_externals (PBytes (named_container true)) = Raise KeyError.
Proof.
  split.
  - destruct (Rtfd.decode_parts (data_container true)) as [parts|e] eqn:E;
      [|vm_compute in E; discriminate E].
    apply (proj1 (missing_part_is_key_error null_externals (data_container true) parts
                    eq_refl E)).
    vm_compute in E. inversion E. reflexivity.
  - destruct (Rtfd.decode_parts (named_container true)) as [parts|e] eqn:E;
      [|vm_compute in E; discriminate E].
    destruct (Rtfd.decode_rtfd (PBytes (named_container true))) as [out|e] eqn:Eo;
      [|vm_compute in Eo; discriminate Eo].
    apply (proj2 (missing_part_is_key_error null_externals (named_container true) parts
                    eq_refl E)) with out.
    + vm_compute in E. inversion E. reflexivity.
    + exact Eo.
Defined.

(** * Identifiers, equality and lists without repetition *)



Lemma last_segment_colon_free (s : pystr) :
  forall acc, ~ In 58 acc -> ~ In 58 (last_segment acc s).
Proof.
  induction s as [|c s IH]; intros acc Hacc; cbn [last_segment].
  - rewrite <- in_rev. exact Hacc.
  - destruct (Z.eqb_spec c 58) as [->|Hc].
    + apply IH. intros [].
    + apply IH. intros [Heq|Hin]; [congruence|contradiction].
Qed.



Lemma bytes_eqb_refl (b : bytes) : bytes_eqb b b = true.
Proof. apply bytes_eqb_eq. reflexivity. Qed.

Lemma pystr_eqb_refl (s : pystr) : pystr_eqb s s = true.
Proof. apply pystr_eqb_eq. reflexivity. Qed.

Lemma py_eqb_refl : forall o : pyobj, py_eqb o o = true.
Proof.
  fix IH 1. intros o. destruct o as [|b|z|bits|s|b|t aw|l|items|attrs]; cbn [py_eqb].
  - reflexivity.
  - destruct b; reflexivity.
  - apply Z.eqb_refl.
  - apply Z.eqb_refl.
  - apply pystr_eqb_refl.
  - apply bytes_eqb_refl.
  - rewrite Z.eqb_refl. destruct aw; reflexivity.
  - induction l as [|x l IHl]; [reflexivity|]. rewrite IH, IHl. reflexivity.
  - induction items as [|[k v] l IHl]; [reflexivity|]. rewrite !IH, IHl. reflexivity.
  - induction attrs as [|[k v] l IHl]; [reflexivity|].
    rewrite String.eqb_refl, IH, IHl. reflexivity.
Qed.

Lemma member_app (x : pyobj) (l m : list pyobj) :
  member x (l ++ m) = member x l || member x m.
Proof. unfold member. apply existsb_app. Qed.

Lemma member_last (x : pyobj) (l : list pyobj) : member x (l ++ [x]) = true.
Proof.
  rewrite member_app. cbn. rewrite py_eqb_refl. rewrite orb_true_r. reflexivity.
Qed.

Lemma distinct_snoc (l : list pyobj) (x : pyobj) :
  distinct l -> member x l = false -> distinct (l ++ [x]).
Proof.
  unfold distinct, member. induction 1 as [|y l Hy Hl IH]; intros Hx; cbn [app].
  - constructor; constructor.
  - cbn [existsb] in Hx. apply orb_false_iff in Hx. destruct Hx as [Hyx Hx].
    constructor; [|apply IH; exact Hx].
    apply Forall_app. split; [exact Hy|]. constructor; [exact Hyx|constructor].
Qed.

(** * Adapter A: what every returned conversation satisfies *)

Lemma split_last_ok (o r : pyobj) : split_last o = Ok r -> colon_free r.
Proof.
  destruct o; try discriminate. cbn [split_last]. intros H; inversion H; subst.
  eexists. split; [reflexivity|]. apply last_segment_colon_free. intros [].
Qed.

Lemma localize_ok (o d : pyobj) : localize o = Ok d -> aware d.
Proof.
  destruct o as [| | | | | |t aw| | |]; try discriminate. destruct aw; [discriminate|].
  cbn. intros H; inversion H. exists t. reflexivity.
Qed.

Lemma sender_known_more (ps extra : list pyobj) (m : Message) :
  sender_known ps m -> sender_known (ps ++ extra) m.
Proof.
  unfold sender_known, opt. destruct (m_from m); [|auto].
  intros [H|H]; [left; exact H|right]. rewrite member_app, H. reflexivity.
Qed.

Lemma decoded_attachment_ok (ext : externals) (data : pyobj) (a : Attachment) :
  decoded_attachment ext data = Ok a ->
  exists b fname type,
    a = mk_attachment (Some fname) (Some (PBytes b)) (Some fname) (Some type) None.
Proof.
  unfold decoded_attachment. intros H. repeat bind_inv H. inversion H; subst.
  eexists _, _, _. reflexivity.
Qed.

Section AdapterAInvariants.
Variable ext : externals.

Lemma read_sender_ok (msg_obj : pyobj) (ps ps' : list pyobj) (m m' : Message) :
  Bplist.read_sender msg_obj ps m = Ok (ps', m') ->
  distinct ps -> Forall colon_free ps ->
  opt colon_free (m_from m) -> sender_known ps m ->
  distinct ps' /\ Forall colon_free ps' /\
  (exists extra, ps' = ps ++ extra /\ Forall (fun p => m_from m' = Some p) extra) /\
  opt colon_free (m_from m') /\ sender_known ps' m' /\
  m_dateobj m' = m_dateobj m /\ m_attachment m' = m_attachment m.
Proof.
  assert (Hsame : exists extra : list pyobj,
             ps = ps ++ extra /\ Forall (fun p => m_from m' = Some p) extra).
  { exists []. rewrite app_nil_r. split; [reflexivity|constructor]. }
  unfold Bplist.read_sender. intros H Hd Hc Hf Hk.
  bind_inv H. destruct a.
  2:{ inversion H; subst. repeat split; auto. }
  bind_inv H. destruct (is_none a).
  { inversion H; subst. repeat split; auto.
    - cbn. exists []. split; [reflexivity|intros []].
    - cbn. left. reflexivity. }
  bind_inv H. destruct a0.
  - bind_inv H. bind_inv H. inversion H; subst; clear H.
    pose proof (split_last_ok _ _ E3) as Hfree.
    destruct (member a1 ps) eqn:Hmem; cbn [negb].
    + repeat split; auto. cbn. right. exact Hmem.
    + repeat split.
      * apply distinct_snoc; assumption.
      * apply Forall_app. split; [assumption|]. constructor; [assumption|constructor].
      * exists [a1]. split; [reflexivity|]. constructor; [reflexivity|constructor].
      * exact Hfree.
      * cbn. right. apply member_last.
  - bind_inv H. destruct a0.
    + bind_inv H. inversion H; subst. repeat split; auto.
    + inversion H; subst. repeat split; auto.
Qed.

Lemma read_font_keeps (holder : pyobj) (m m' : Message) :
  Bplist.read_font holder m = Ok m' ->
  m_from m' = m_from m /\ m_dateobj m' = m_dateobj m /\ m_attachment m' = m_attachment m.
Proof.
  unfold Bplist.read_font. intros H. repeat bind_inv H. inversion H; subst. auto.
Qed.

Lemma read_style_keeps (attrs : pyobj) (m m' : Message) :
  Bplist.read_style attrs m = Ok m' ->
  m_from m' = m_from m /\ m_dateobj m' = m_dateobj m /\ m_attachment m' = m_attachment m.
Proof.
  unfold Bplist.read_style. intros H. bind_inv H. destruct a.
  - eapply read_font_keeps; eassumption.
  - destruct attrs; try (inversion H; subst; auto; fail).
    bind_inv H. bind_inv H. destruct a0; [eapply read_font_keeps; eassumption|].
    inversion H; subst; auto.
Qed.

Lemma read_attachment_ok (attrs : pyobj) (m m' : Message) (h h' : option bool) :
  Bplist.read_attachment ext attrs m h = Ok (m', h') ->
  m_from m' = m_from m /\ m_dateobj m' = m_dateobj m /\
  (m_attachment m' = m_attachment m \/ exists a, m_attachment m' = Some a /\ complete a).
Proof.
  unfold Bplist.read_attachment. intros H.
  bind_inv H. destruct a; [|inversion H; subst; auto].
  bind_inv H. bind_inv H. destruct a0; [|inversion H; subst; auto].
  bind_inv H. destruct (truthy a0); [|inversion H; subst; auto].
  bind_inv H. bind_inv H. bind_inv H. destruct a3; [|inversion H; subst; auto].
  bind_inv H. bind_inv H. bind_inv H. inversion H; subst; clear H.
  destruct (decoded_attachment_ok _ _ _ E6) as (b & fname & type & ->).
  cbn. repeat split; auto. right. eexists. split; [reflexivity|].
  unfold complete. cbn. repeat split; try discriminate. exists b. reflexivity.
Qed.

Lemma read_text_ok (msg_obj : pyobj) (m m' : Message) (h h' : option bool) :
  Bplist.read_text ext msg_obj m h = Ok (m', h') ->
  m_from m' = m_from m /\ m_dateobj m' = m_dateobj m /\
  (m_attachment m' = m_attachment m \/ exists a, m_attachment m' = Some a /\ complete a).
Proof.
  unfold Bplist.read_text. intros H.
  bind_inv H. destruct a; [|inversion H; subst; auto].
  bind_inv H. bind_inv H. bind_inv H. destruct a1; [|inversion H; subst; auto].
  bind_inv H. bind_inv H.
  apply read_style_keeps in E4. destruct E4 as (F1 & D1 & A1).
  apply read_attachment_ok in H. destruct H as (F2 & D2 & A2).
  cbn in F1, D1, A1. rewrite F2, D2, F1, D1. repeat split; auto.
  destruct A2 as [A2|A2]; [left; congruence|right; exact A2].
Qed.

Lemma process_message_ok (st st' : Bplist.loop_state) (msg_obj : pyobj) :
  Bplist.process_message ext st msg_obj = Ok st' ->
  loop_ok st ->
  loop_ok st' /\
  len (Bplist.ls_messages st') =
  len (Bplist.ls_messages st) + (if is_instant_message_a msg_obj then 1 else 0).
Proof.
  unfold Bplist.process_message, is_instant_message_a.
  intros H (Hd & Hc & Hm & Hk & Hs).
  bind_inv H. bind_inv H. cbn [bind]. rewrite E0.
  destruct (eq_str a0 (s_ "InstantMessage")); [|inversion H; subst; split; [repeat split; auto|lia]].
  bind_inv H. bind_inv H. bind_inv H. destruct a3 as [ps1 m1].
  bind_inv H. bind_inv H. bind_inv H. destruct a5 as [m3 h3].
  inversion H; subst; clear H. cbn [Bplist.ls_participants Bplist.ls_messages].
  assert (Hm0 : m_from a2 = None /\ m_dateobj a2 = None /\ m_attachment a2 = None).
  { destruct a1; [bind_inv E2|]; inversion E2; subst; auto. }
  destruct Hm0 as (F0 & D0 & A0).
  destruct (read_sender_ok _ _ _ _ _ E3 Hd Hc)
    as (Hd1 & Hc1 & (extra & -> & Hx) & Hf1 & Hk1 & D1 & A1);
    [rewrite F0; exact I|unfold sender_known; rewrite F0; exact I|].
  assert (Hm2 : m_from a4 = m_from m1 /\ opt aware (m_dateobj a4) /\
                m_attachment a4 = m_attachment m1).
  { destruct a3.
    - bind_inv E5. bind_inv E5. inversion E5; subst. cbn. repeat split; auto.
      eapply localize_ok; eassumption.
    - inversion E5; subst. rewrite D1, D0. repeat split; auto. }
  destruct Hm2 as (F2 & D2 & A2).
  apply read_text_ok in E6. destruct E6 as (F3 & D3 & A3).
  split.
  - repeat split; auto.
    + apply Forall_app. split; [exact Hm|]. constructor; [|constructor].
      unfold message_ok_a. rewrite D3, F3, F2. repeat split; auto.
      destruct A3 as [A3|(att & -> & Ha)]; [|exact Ha].
      rewrite A3, A2, A1, A0. exact I.
    + apply Forall_app. split.
      * eapply Forall_impl; [|exact Hk]. intros m. apply sender_known_more.
      * constructor; [|constructor]. unfold sender_known in *. rewrite F3, F2. exact Hk1.
    + apply Forall_app. split.
      * eapply Forall_impl; [|exact Hs]. intros p Hp. apply Exists_app. left. exact Hp.
      * eapply Forall_impl; [|exact Hx]. intros p Hp. apply Exists_app. right.
        constructor. rewrite F3, F2. exact Hp.
  - rewrite len_app. reflexivity.
Qed.

Lemma process_messages_ok (msg_objs : list pyobj) :
  forall st st',
    Bplist.process_messages ext st msg_objs = Ok st' ->
    loop_ok st ->
    loop_ok st' /\
    len (Bplist.ls_messages st') =
    len (Bplist.ls_messages st) + len (filter is_instant_message_a msg_objs).
Proof.
  induction msg_objs as [|x l IH]; intros st st' H Hok; cbn [Bplist.process_messages] in H.
  - inversion H; subst. split; [exact Hok|cbn; lia].
  - bind_inv H. destruct (process_message_ok _ _ _ E Hok) as [Hok1 Hlen1].
    destruct (IH _ _ H Hok1) as [Hok' Hlen']. split; [exact Hok'|].
    rewrite Hlen', Hlen1. cbn [filter].
    destruct (is_instant_message_a x); unfold len; cbn [List.length]; lia.
Qed.

End AdapterAInvariants.

Lemma dict_get_some_exists (items : list (pyobj * pyobj)) (k v : pyobj) :
  dict_get items k = Some v -> existsb (fun kv => py_eqb (fst kv) k) items = true.
Proof.
  induction items as [|[k' v'] rest IH]; cbn [dict_get existsb fst]; [discriminate|].
  destruct (py_eqb k' k); [reflexivity|]. exact IH.
Qed.

Lemma key_ok_value_at (o : pyobj) (k : string) (v : pyobj) :
  key o k = Ok v -> value_at o k = Some v.
Proof.
  unfold value_at, has_key, key.
  destruct o as [|b|z|bits|s|b|t aw|l|items|attrs]; try discriminate.
  cbn [getitem contains]. destruct (dict_get items (PStr (s_ k))) as [w|] eqn:E; [|discriminate].
  intros H; inversion H; subst.
  rewrite (dict_get_some_exists _ _ _ E). reflexivity.
Qed.

Lemma absent_value_at (o : pyobj) (k : string) :
  has_key k o = Ok false -> value_at o k = None.
Proof. unfold value_at. intros ->. reflexivity. Qed.

Section AdapterAContents.
Variable ext : externals.

Lemma read_sender_keeps (msg_obj : pyobj) (ps ps' : list pyobj) (m m' : Message) :
  Bplist.read_sender msg_obj ps m = Ok (ps', m') ->
  m_guid m' = m_guid m /\ m_text m' = m_text m.
Proof.
  unfold Bplist.read_sender. intros H.
  repeat first [ bind_inv H
               | match type of H with
                 | (if ?c then _ else _) = _ => destruct c
                 end ];
    inversion H; subst; auto.
Qed.

Lemma read_font_keeps_text (holder : pyobj) (m m' : Message) :
  Bplist.read_font holder m = Ok m' ->
  m_guid m' = m_guid m /\ m_text m' = m_text m.
Proof.
  unfold Bplist.read_font. intros H. repeat bind_inv H. inversion H; subst. auto.
Qed.

Lemma read_style_keeps_text (attrs : pyobj) (m m' : Message) :
  Bplist.read_style attrs m = Ok m' ->
  m_guid m' = m_guid m /\ m_text m' = m_text m.
Proof.
  unfold Bplist.read_style. intros H. bind_inv H. destruct a.
  - eapply read_font_keeps_text; eassumption.
  - destruct attrs; try (inversion H; subst; auto; fail).
    bind_inv H. bind_inv H. destruct a0; [eapply read_font_keeps_text; eassumption|].
    inversion H; subst; auto.
Qed.

Lemma read_attachment_keeps_text (attrs : pyobj) (m m' : Message) (h h' : option bool) :
  Bplist.read_attachment ext attrs m h = Ok (m', h') ->
  m_guid m' = m_guid m /\ m_text m' = m_text m.
Proof.
  unfold Bplist.read_attachment. intros H.
  repeat first [ bind_inv H
               | match type of H with
                 | (if ?c then _ else _) = _ => destruct c
                 end ];
    inversion H; subst; auto.
Qed.

Lemma read_text_carries (msg_obj : pyobj) (m m' : Message) (h h' : option bool) :
  Bplist.read_text ext msg_obj m h = Ok (m', h') ->
  m_text m = None ->
  m_guid m' = m_guid m /\
  m_text m' = match value_at msg_obj "MessageText" with
              | Some mt => value_at mt "NSString"
              | None => None
              end.
Proof.
  unfold Bplist.read_text. intros H Hnone.
  bind_inv H. destruct a.
  2:{ inversion H; subst. rewrite (absent_value_at _ _ E). auto. }
  bind_inv H. bind_inv H.
  rewrite (key_ok_value_at _ _ _ E0), (key_ok_value_at _ _ _ E1).
  bind_inv H. destruct a1; [|inversion H; subst; auto].
  bind_inv H. bind_inv H.
  apply read_style_keeps_text in E4. apply read_attachment_keeps_text in H.
  destruct E4 as [G1 T1], H as [G2 T2]. cbn in G1, T1. rewrite G2, T2, G1, T1. auto.
Qed.

Lemma process_message_made_from (st st' : Bplist.loop_state) (msg_obj : pyobj) :
  Bplist.process_message ext st msg_obj = Ok st' ->
  if is_instant_message_a msg_obj
  then exists m, Bplist.ls_messages st' = Bplist.ls_messages st ++ [m] /\ made_from msg_obj m
  else Bplist.ls_messages st' = Bplist.ls_messages st.
Proof.
  unfold Bplist.process_message, is_instant_message_a. intros H.
  bind_inv H. bind_inv H. cbn [bind]. rewrite E0.
  destruct (eq_str a0 (s_ "InstantMessage")); [|inversion H; subst; reflexivity].
  bind_inv H. bind_inv H. bind_inv H. destruct a3 as [ps1 m1].
  bind_inv H. bind_inv H. bind_inv H. destruct a5 as [m3 h3].
  inversion H; subst; clear H. cbn [Bplist.ls_messages].
  exists m3. split; [reflexivity|].
  assert (H0 : m_guid a2 = value_at msg_obj "GUID" /\ m_text a2 = None /\ m_dateobj a2 = None).
  { destruct a1.
    - destruct (key msg_obj "GUID") as [g|] eqn:Eg; [|discriminate].
      rewrite (key_ok_value_at _ _ _ Eg). cbn in E2. inversion E2; subst. auto.
    - inversion E2; subst. rewrite (absent_value_at _ _ E1). auto. }
  destruct H0 as (G0 & T0 & D0).
  destruct (read_sender_keeps _ _ _ _ _ E3) as [G1 T1].
  assert (D1 : m_dateobj m1 = m_dateobj a2).
  { revert E3. unfold Bplist.read_sender. intros H.
    repeat first [ bind_inv H
                 | match type of H with
                   | (if ?c then _ else _) = _ => destruct c
                   end ];
      inversion H; subst; auto. }
  assert (H2 : m_guid a4 = m_guid m1 /\ m_text a4 = m_text m1 /\
               m_dateobj a4 = match value_at msg_obj "Time" with
                              | Some (PDatetime t false) => Some (PDatetime t true)
                              | _ => None
                              end).
  { destruct a3.
    - destruct (key msg_obj "Time") as [t|] eqn:Et; [|discriminate].
      rewrite (key_ok_value_at _ _ _ Et). cbn [bind] in E5.
      destruct t as [| | | | | |t aw| | |]; try discriminate.
      destruct aw; [discriminate|]. cbn in E5. inversion E5; subst. auto.
    - inversion E5; subst. rewrite (absent_value_at _ _ E4), D1, D0. auto. }
  destruct H2 as (G2 & T2 & D2).
  destruct (read_text_carries _ _ _ _ _ E6) as [G3 T3]; [congruence|].
  assert (D3 : m_dateobj m3 = m_dateobj a4).
  { apply read_text_ok in E6. tauto. }
  unfold made_from. rewrite G3, G2, G1, G0, T3, D3, D2. auto.
Qed.

Lemma process_messages_made_from (msg_objs : list pyobj) :
  forall st st',
    Bplist.process_messages ext st msg_objs = Ok st' ->
    exists made,
      Bplist.ls_messages st' = Bplist.ls_messages st ++ made /\
      Forall2 made_from (filter is_instant_message_a msg_objs) made.
Proof.
  induction msg_objs as [|x l IH]; intros st st' H; cbn [Bplist.process_messages] in H.
  - inversion H; subst. exists []. rewrite app_nil_r. split; [reflexivity|constructor].
  - bind_inv H. apply process_message_made_from in E.
    destruct (IH _ _ H) as (made & Hm & Hall). cbn [filter].
    destruct (is_instant_message_a x).
    + destruct E as (m & Hx & Hfrom). exists (m :: made). split.
      * rewrite Hm, Hx, <- app_assoc. reflexivity.
      * constructor; assumption.
    + exists made. split; [congruence|assumption].
Qed.

End AdapterAContents.

(** The loop of [bplist_to_conv] and what the conversation takes from it. *)
Lemma bplist_to_conv_loop (ext : externals) (base : pyobj) (conv : Conversation) :
  Bplist.bplist_to_conv ext base = Ok conv ->
  exists root msg_list msg_objs st,
    key base "root" = Ok root /\
    getitem root (PInt 2) = Ok msg_list /\
    iterate msg_list = Ok msg_objs /\
    Bplist.process_messages ext (Bplist.mk_loop_state [] [] None) msg_objs = Ok st /\
    participants conv = pad_participants (Bplist.ls_participants st) /\
    messages conv = Bplist.ls_messages st.
Proof.
  unfold Bplist.bplist_to_conv. intros H.
  repeat bind_inv H. inversion H; subst; clear H. cbn.
  eexists _, _, _, _. repeat split; eassumption || reflexivity.
Qed.

Lemma add_userids_ok (us : list pyobj) :
  forall ids ids',
    Bplist.add_userids us ids = Ok ids' ->
    distinct ids -> Forall colon_free ids ->
    distinct ids' /\ Forall colon_free ids'.
Proof.
  induction us as [|u us IH]; intros ids ids' H Hd Hc; cbn [Bplist.add_userids] in H.
  - inversion H; subst. auto.
  - bind_inv H. pose proof (split_last_ok _ _ E) as Hfree.
    destruct (member a ids) eqn:Hmem; cbn [negb] in H.
    + eapply IH; eassumption.
    + eapply IH; [exact H| |].
      * apply distinct_snoc; assumption.
      * apply Forall_app. split; [assumption|]. constructor; [assumption|constructor].
Qed.

(** X9: the messages Adapter A returns are, in the order of the archive, one
    for every object of [root_obj[2]] whose class name is ['InstantMessage'],
    each with the GUID, the time marked as UTC and the text of its object;
    objects of other classes leave no trace. *)
Theorem bplist_messages_follow_the_archive
  (ext : externals) (base : pyobj) (conv : Conversation) :
  Bplist.bplist_to_conv ext base = Ok conv ->
  exists root msg_list msg_objs,
    key base "root" = Ok root /\
    getitem root (PInt 2) = Ok msg_list /\
    iterate msg_list = Ok msg_objs /\
    Forall2 made_from (filter is_instant_message_a msg_objs) (messages conv).
Proof.
  intros H. apply bplist_to_conv_loop in H.
  destruct H as (root & msg_list & msg_objs & st & Hr & Hl & Hi & Hrun & _ & Hm).
  exists root, msg_list, msg_objs. repeat split; try assumption.
  apply process_messages_made_from in Hrun. destruct Hrun as (made & Hmade & Hall).
  cbn in Hmade. rewrite Hm, Hmade. exact Hall.
Qed.

Lemma bplist_messages_follow_the_archive_witness :
  match Bplist.bplist_to_conv null_externals mixed_archive with
  | Ok conv =>
    exists root msg_list msg_objs,
      key mixed_archive "root" = Ok root /\
      getitem root (PInt 2) = Ok msg_list /\
      iterate msg_list = Ok msg_objs /\
      Forall2 made_from (filter is_instant_message_a msg_objs) (messages conv)
  | Raise _ => False
  end.
Proof.
  destruct (Bplist.bplist_to_conv null_externals mixed_archive) as [conv|e] eqn:E;
    [|vm_compute in E; discriminate E].
  exact (bplist_messages_follow_the_archive _ _ _ E).
Defined.

(** X10: the participants Adapter A returns are the senders it met, each
    once, without a service prefix, followed by one ['UNKNOWN'] when there are
    fewer than two; every message's ['from'] is the empty string or one of
    them, and every one of them is the ['from'] of some message. *)
Theorem bplist_participants_are_the_senders
  (ext : externals) (base : pyobj) (conv : Conversation) :
  Bplist.bplist_to_conv ext base = Ok conv ->
  exists discovered,
    participants conv = pad_participants discovered /\
    distinct discovered /\
    Forall colon_free discovered /\
    Forall (sender_known discovered) (messages conv) /\
    Forall (fun p => Exists (fun m => m_from m = Some p) (messages conv)) discovered.
Proof.
  intros H. apply bplist_to_conv_loop in H.
  destruct H as (root & msg_list & msg_objs & st & _ & _ & _ & Hrun & Hp & Hm).
  apply process_messages_ok in Hrun.
  - destruct Hrun as [(Hd & Hc & _ & Hk & Hs) _]. rewrite Hm.
    exists (Bplist.ls_participants st). auto.
  - repeat split; constructor.
Qed.

Lemma bplist_participants_are_the_senders_witness :
  match Bplist.bplist_to_conv null_externals mixed_archive with
  | Ok conv =>
    exists discovered,
      participants conv = pad_participants discovered /\
      distinct discovered /\
      Forall colon_free discovered /\
      Forall (sender_known discovered) (messages conv) /\
      Forall (fun p => Exists (fun m => m_from m = Some p) (messages conv)) discovered
  | Raise _ => False
  end.
Proof.
  destruct (Bplist.bplist_to_conv null_externals mixed_archive) as [conv|e] eqn:E;
    [|vm_compute in E; discriminate E].
  exact (bplist_participants_are_the_senders _ _ _ E).
Defined.

(** X11: in a conversation returned by Adapter A the start and the end time
    are time-zone aware, and so is the ['dateobj'] of every message that has
    one; an ['attachment'] stored in a message has bytes as ['data'] and a
    ['name'], a ['type'] and a ['Content-ID']; a ['from'] holds no colon. *)
Theorem bplist_messages_are_well_formed
  (ext : externals) (base : pyobj) (conv : Conversation) :
  Bplist.bplist_to_conv ext base = Ok conv ->
  (exists s e, startobj conv = Some s /\ aware s /\
               endobj conv = Some e /\ dateobj conv = Some e /\ aware e) /\
  Forall message_ok_a (messages conv).
Proof.
  intros H. split.
  - unfold Bplist.bplist_to_conv in H. repeat bind_inv H. inversion H; subst; clear H.
    cbn. eexists _, _. repeat split; try reflexivity; eapply localize_ok; eassumption.
  - apply bplist_to_conv_loop in H.
    destruct H as (root & msg_list & msg_objs & st & _ & _ & _ & Hrun & _ & Hm).
    apply process_messages_ok in Hrun.
    + destruct Hrun as [(_ & _ & Hok & _) _]. rewrite Hm. exact Hok.
    + repeat split; constructor.
Qed.

Lemma bplist_messages_are_well_formed_witness :
  match Bplist.bplist_to_conv null_externals mixed_archive with
  | Ok conv =>
    (exists s e, startobj conv = Some s /\ aware s /\
                 endobj conv = Some e /\ dateobj conv = Some e /\ aware e) /\
    Forall message_ok_a (messages conv)
  | Raise _ => False
  end.
Proof.
  destruct (Bplist.bplist_to_conv null_externals mixed_archive) as [conv|e] eqn:E;
    [|vm_compute in E; discriminate E].
  exact (bplist_messages_are_well_formed _ _ _ E).
Defined.

(** X12: the user identifiers Adapter A returns hold no colon and no value
    twice: an account listed under two services is kept once. *)
Theorem bplist_userids_are_distinct
  (ext : externals) (base : pyobj) (conv : Conversation) :
  Bplist.bplist_to_conv ext base = Ok conv ->
  exists ids, userids conv = Some ids /\ distinct ids /\ Forall colon_free ids.
Proof.
  unfold Bplist.bplist_to_conv. intros H. repeat bind_inv H. inversion H; subst; clear H.
  cbn. eexists. split; [reflexivity|].
  match goal with
  | Hu : Bplist.read_userids _ = Ok _ |- _ => rename Hu into Hids
  end.
  unfold Bplist.read_userids in Hids.
  destruct (has_key "PresentityIDs" a0) as [[|]|] eqn:Hp; [| |discriminate];
    cbn [bind] in Hids.
  - bind_inv Hids. bind_inv Hids.
    eapply add_userids_ok; [eassumption|constructor|constructor].
  - inversion Hids; subst. split; constructor.
Qed.

Lemma bplist_userids_are_distinct_witness :
  match Bplist.bplist_to_conv null_externals archive_with_ids with
  | Ok conv =>
    userids conv = Some [PStr (s_ "alice"); PStr (s_ "bob")] /\
    exists ids, userids conv = Some ids /\ distinct ids /\ Forall colon_free ids
  | Raise _ => False
  end.
Proof.
  destruct (Bplist.bplist_to_conv null_externals archive_with_ids) as [conv|e] eqn:E;
    [|vm_compute in E; discriminate E].
  split; [|exact (bplist_userids_are_distinct _ _ _ E)].
  vm_compute in E. inversion E. reflexivity.
Defined.

(** * Adapter B: what every returned conversation satisfies *)

Lemma ok_eval_ok (P : IChat.state -> Prop) {A} (s : IChat.state) (r : result A)
      (k : A -> IChat.outcome) :
  P s -> (forall a, r = Ok a -> P (out_state (k a))) -> P (out_state (IChat.eval s r k)).
Proof. intros Hs Hk. destruct r; cbn [IChat.eval out_state]; auto. Qed.

Lemma sender_listed_more (ps extra : list pyobj) (m : Message) :
  sender_listed ps m -> sender_listed (ps ++ extra) m.
Proof.
  unfold sender_listed, opt. destruct (m_from m); [|auto].
  intros H. rewrite member_app, H. reflexivity.
Qed.

Lemma chat_ok_same_core (s : IChat.state) (m : Message) :
  chat_ok s -> same_core (IChat.s_message s) m -> chat_ok (IChat.with_message s m).
Proof.
  intros (Hd & Hms & [Hm1 Hm2] & Hls & Hl) (F & D & A).
  unfold chat_ok, message_ok_b, sender_listed in *. cbn.
  rewrite F, D, A. repeat split; auto.
Qed.

Lemma chat_ok_add (s : IChat.state) (who : pyobj) :
  chat_ok s -> member who (IChat.s_participants s) = false ->
  chat_ok (IChat.with_participants s (IChat.s_participants s ++ [who])).
Proof.
  intros (Hd & Hms & Hm & Hls & Hl) Hnew. unfold chat_ok. cbn.
  repeat split; try apply Hm; auto.
  - apply distinct_snoc; assumption.
  - eapply Forall_impl; [|exact Hls]. intros m. apply sender_listed_more.
  - apply sender_listed_more. exact Hl.
Qed.

Lemma chat_ok_from (s : IChat.state) (who : pyobj) :
  chat_ok s -> member who (IChat.s_participants s) = true ->
  chat_ok (IChat.with_message s (set_from (IChat.s_message s) who)).
Proof.
  intros (Hd & Hms & Hm & Hls & Hl) Hin. unfold chat_ok. cbn.
  repeat split; try apply Hm; auto.
Qed.

Lemma chat_ok_date (s : IChat.state) (d : pyobj) :
  chat_ok s -> is_datetime d = true ->
  chat_ok (IChat.with_message s (set_dateobj (IChat.s_message s) d)).
Proof.
  intros (Hd & Hms & Hm & Hls & Hl) Hdate. unfold chat_ok. cbn.
  repeat split; try apply Hm; auto.
Qed.

Lemma chat_ok_attach (s : IChat.state) (a : Attachment) :
  chat_ok s -> complete a ->
  chat_ok (IChat.with_hasattachments
             (IChat.with_message s (set_attachment (IChat.s_message s) a)) true).
Proof.
  intros (Hd & Hms & Hm & Hls & Hl) Ha. unfold chat_ok. cbn.
  repeat split; try apply Hm; try apply Ha; auto.
Qed.

Section AdapterBInvariants.
Variable ext : externals.

Lemma build_attachment_complete (v : pyobj) (a : Attachment) :
  IChat.build_attachment ext v = Ok a -> complete a.
Proof.
  unfold IChat.build_attachment. intros H. repeat bind_inv H.
  inversion H; subst; clear H.
  assert (Hcore : att_name a3 <> None /\ att_type a3 <> None).
  { destruct (pystr_eqb a2 nsfilewrapper_type).
    - apply decoded_attachment_ok in E2. destruct E2 as (b & fname & type & ->).
      cbn. split; discriminate.
    - inversion E2; subst. cbn. split; discriminate. }
  destruct (att_data a3) as [d|] eqn:Hdata; [|discriminate].
  cbn in E3. inversion E3; subst.
  destruct a4 as [| | | | |b| | | |]; try discriminate.
  unfold complete. cbn. rewrite Hdata. repeat split; try tauto; try discriminate.
  exists b. reflexivity.
Qed.

Lemma presentity_block_chat_ok (s : IChat.state) (i : pyobj) :
  chat_ok s -> chat_ok (out_state (IChat.presentity_block s i)).
Proof.
  intros Hs. unfold IChat.presentity_block. rewrite out_state_try.
  apply (ok_eval chat_ok); [assumption|intros v].
  apply (ok_eval chat_ok); [assumption|intros cn].
  destruct (eq_str cn (s_ "Presentity")); [|assumption].
  apply (ok_eval chat_ok); [assumption|intros who].
  cbv zeta. cbn [out_state].
  destruct (member who (IChat.s_participants s)) eqn:Hin; cbn [negb].
  - apply chat_ok_from; assumption.
  - apply (chat_ok_from (IChat.with_participants s (IChat.s_participants s ++ [who]))).
    + apply chat_ok_add; assumption.
    + apply member_last.
Qed.

Lemma date_block_chat_ok (s : IChat.state) (i : pyobj) :
  chat_ok s -> chat_ok (out_state (IChat.date_block s i)).
Proof.
  intros Hs. unfold IChat.date_block. rewrite out_state_try.
  apply (ok_eval chat_ok); [assumption|intros d].
  destruct (is_datetime d) eqn:Hd; [|assumption].
  apply chat_ok_date; assumption.
Qed.

Lemma attribute_entry_chat_ok (s : IChat.state) (j : pyobj * pyobj) :
  chat_ok s -> chat_ok (out_state (IChat.attribute_entry ext s j)).
Proof.
  intros Hs. unfold IChat.attribute_entry. cbv zeta.
  apply (ok_eval chat_ok); [assumption|intros kv].
  apply (ok_and_then chat_ok).
  { destruct (eq_str kv (s_ "NSFont")); [|assumption].
    apply (ok_eval chat_ok); [assumption|intros fname].
    assert (H1 : chat_ok (IChat.with_message s (set_textfont (IChat.s_message s) fname))).
    { apply chat_ok_same_core; [assumption|repeat split]. }
    apply (ok_eval chat_ok); [assumption|intros fsize].
    apply chat_ok_same_core; [assumption|repeat split]. }
  intros s1 Hs1. apply (ok_and_then chat_ok).
  { destruct (eq_str kv (s_ "NSColor")); [|assumption].
    apply (ok_eval chat_ok); [assumption|intros c].
    apply chat_ok_same_core; [assumption|repeat split]. }
  intros s2 Hs2. apply (ok_and_then chat_ok).
  { destruct (eq_str kv (s_ "NSBackgroundColor")); [|assumption].
    apply (ok_eval chat_ok); [assumption|intros c].
    apply chat_ok_same_core; [assumption|repeat split]. }
  intros s3 Hs3.
  destruct (eq_str kv (s_ "NSAttachment")); [|assumption].
  apply (ok_eval_ok chat_ok); [assumption|intros a Ha].
  apply chat_ok_attach; [assumption|]. eapply build_attachment_complete. eassumption.
Qed.

Lemma text_block_chat_ok (s : IChat.state) (i : pyobj) :
  chat_ok s -> chat_ok (out_state (IChat.text_block ext s i)).
Proof.
  intros Hs. unfold IChat.text_block. rewrite out_state_try.
  apply (ok_eval chat_ok); [assumption|intros v].
  apply (ok_eval chat_ok); [assumption|intros cn].
  destruct (eq_str cn (s_ "NSAttributedString")); [|assumption].
  apply (ok_eval chat_ok); [assumption|intros body].
  assert (H1 : chat_ok (IChat.with_message s (set_text (IChat.s_message s) body))).
  { apply chat_ok_same_core; [assumption|repeat split]. }
  cbv zeta. apply (ok_eval chat_ok); [assumption|intros entries].
  apply (ok_for_each chat_ok); [|assumption].
  intros s' j Hs'. apply attribute_entry_chat_ok. assumption.
Qed.

Lemma content_item_chat_ok (s : IChat.state) (i : pyobj) :
  chat_ok s -> chat_ok (out_state (IChat.content_item ext s i)).
Proof.
  intros Hs. unfold IChat.content_item.
  apply (ok_and_then chat_ok); [apply presentity_block_chat_ok; assumption|].
  intros s1 Hs1. apply (ok_and_then chat_ok); [apply date_block_chat_ok; assumption|].
  intros s2 Hs2. apply text_block_chat_ok. assumption.
Qed.

Lemma message_object_chat_ok (s : IChat.state) (msgobj : pyobj) :
  chat_ok s -> chat_ok (out_state (IChat.message_object ext s msgobj)).
Proof.
  intros Hs. unfold IChat.message_object.
  apply (ok_eval chat_ok); [assumption|intros cn].
  destruct (eq_str cn (s_ "InstantMessage")); [|assumption].
  apply (ok_eval chat_ok); [assumption|intros items].
  apply (ok_and_then chat_ok).
  - apply (ok_for_each chat_ok); [|assumption].
    intros s' i Hs'. apply content_item_chat_ok. assumption.
  - intros s' (Hd & Hms & Hm & Hls & Hl). cbn [out_state]. unfold chat_ok. cbn.
    repeat split; auto.
    + apply Forall_app. split; [assumption|]. constructor; [assumption|constructor].
    + apply Forall_app. split; [assumption|]. constructor; [assumption|constructor].
Qed.

Lemma stray_entry_chat_ok (protocol : pyobj) (s : IChat.state) (l3 : pyobj) :
  chat_ok s -> chat_ok (out_state (IChat.stray_entry protocol s l3)).
Proof.
  intros Hs. unfold IChat.stray_entry.
  apply (ok_eval chat_ok); [assumption|intros who].
  destruct (member who (IChat.s_participants s)) eqn:Hin; cbn [negb]; [assumption|].
  apply (ok_eval chat_ok); [assumption|intros in_protocol].
  destruct in_protocol; cbn [negb out_state]; [assumption|].
  apply chat_ok_add; assumption.
Qed.

Lemma stray_object_chat_ok (protocol : pyobj) (s : IChat.state) (l2 : pyobj) :
  chat_ok s -> chat_ok (out_state (IChat.stray_object protocol s l2)).
Proof.
  intros Hs. unfold IChat.stray_object. rewrite out_state_try.
  apply (ok_eval chat_ok); [assumption|intros cn].
  destruct (eq_str cn (s_ "Presentity")); [|assumption].
  apply (ok_eval chat_ok); [assumption|intros l3s].
  apply (ok_for_each chat_ok); [|assumption].
  intros s' l3 Hs'. apply stray_entry_chat_ok. assumption.
Qed.

Lemma stray_group_chat_ok (protocol : pyobj) (s : IChat.state) (l1 : pyobj) :
  chat_ok s -> chat_ok (out_state (IChat.stray_group protocol s l1)).
Proof.
  intros Hs. unfold IChat.stray_group. rewrite out_state_try.
  apply (ok_eval chat_ok); [assumption|intros l2s].
  apply (ok_for_each chat_ok); [|assumption].
  intros s' l2 Hs'. apply stray_object_chat_ok. assumption.
Qed.

Lemma run_loops_chat_ok (tschat protocol : pyobj) :
  chat_ok (out_state (IChat.run_loops ext tschat protocol)).
Proof.
  assert (H0 : chat_ok IChat.initial_state).
  { unfold chat_ok, message_ok_b, sender_listed. cbn. repeat split; constructor. }
  unfold IChat.run_loops. cbv zeta.
  apply (ok_eval chat_ok); [assumption|intros msgobjs].
  apply (ok_and_then chat_ok).
  - apply (ok_for_each chat_ok); [|assumption].
    intros s x Hs. apply message_object_chat_ok. assumption.
  - intros s Hs. apply (ok_eval chat_ok); [assumption|intros groups].
    apply (ok_for_each chat_ok); [|assumption].
    intros s' x Hs'. apply stray_group_chat_ok. assumption.
Qed.

End AdapterBInvariants.



(** X14: in a conversation returned by Adapter B every ['dateobj'] of a
    message is a [datetime], and every ['attachment'] has bytes as ['data']
    and a ['name'], a ['type'] and a ['Content-ID']. *)
Theorem typedstream_messages_are_well_formed
  (ext : externals) (tschat : pyobj) (conv : Conversation) :
  IChat.parse_typedstream_chat ext tschat = Ok conv ->
  Forall message_ok_b (messages conv).
Proof.
  unfold IChat.parse_typedstream_chat. intros H. bind_inv H.
  pose proof (run_loops_chat_ok ext tschat a) as Hok.
  destruct (IChat.run_loops ext tschat a) as [s|s e]; [|discriminate].
  bind_inv H. inversion H; subst; clear H. cbn.
  destruct Hok as (_ & Hms & _). exact Hms.
Qed.

Lemma typedstream_messages_are_well_formed_witness :
  match IChat.parse_typedstream_chat null_externals three_message_chat with
  | Ok conv => Forall message_ok_b (messages conv)
  | Raise _ => False
  end.
Proof.
  destruct (IChat.parse_typedstream_chat null_externals three_message_chat)
    as [conv|e] eqn:E; [|vm_compute in E; discriminate E].
  exact (typedstream_messages_are_well_formed _ _ _ E).
Defined.

Lemma run_loops_messages (ext : externals) (tschat protocol : pyobj) (s : IChat.state) :
  IChat.run_loops ext tschat protocol = IChat.Normal s ->
  exists msgobjs,
    IChat.message_objects tschat = Ok msgobjs /\
    IChat.s_messages s = map (message_of ext) (filter is_instant_message msgobjs).
Proof.
  unfold IChat.run_loops. cbv zeta. intros Hrun.
  destruct (IChat.message_objects tschat) as [msgobjs|e]; cbn [IChat.eval] in Hrun;
    [|discriminate].
  exists msgobjs. split; [reflexivity|].
  destruct (IChat.for_each (IChat.message_object ext) IChat.initial_state msgobjs)
    as [s1|s1 e] eqn:Hloop; cbn [IChat.and_then] in Hrun; [|discriminate].
  apply message_loop_ok in Hloop; [|reflexivity].
  destruct Hloop as (Hmsgs & _ & _).
  destruct (es <- getattr tschat "elements" ;; IChat.tail_from_2 es) as [groups|e];
    cbn [IChat.eval] in Hrun; [|discriminate].
  pose proof (ok_for_each (only_participants s1) (IChat.stray_group protocol)
                (fun s2 x H => stray_group_ok s1 protocol s2 x H) groups s1
                (conj eq_refl (conj eq_refl eq_refl))) as Hstray.
  rewrite Hrun in Hstray. cbn [out_state] in Hstray.
  destruct Hstray as (_ & Hm & _). rewrite Hm, Hmsgs. reflexivity.
Qed.

(** X15: an archive whose message array holds no [InstantMessage] object is
    never converted; when both loops complete, it is reading the time of the
    last message that raises, an [IndexError]. *)
Theorem typedstream_needs_a_message
  (ext : externals) (tschat : pyobj) (msgobjs : list pyobj) :
  IChat.message_objects tschat = Ok msgobjs ->
  filter is_instant_message msgobjs = [] ->
  (exists e, IChat.parse_typedstream_chat ext tschat = Raise e) /\
  (forall protocol s,
      (es <- getattr tschat "elements" ;;
       e0 <- getitem es (PInt 0) ;;
       getattr e0 "value") = Ok protocol ->
      IChat.run_loops ext tschat protocol = IChat.Normal s ->
      IChat.parse_typedstream_chat ext tschat = Raise IndexError).
Proof.
  intros Hobjs Hnone.
  assert (Hlast : forall protocol s,
             IChat.run_loops ext tschat protocol = IChat.Normal s ->
             IChat.last_dateobj (IChat.s_messages s) = Raise IndexError).
  { intros protocol s Hrun. apply run_loops_messages in Hrun.
    destruct Hrun as (objs & Hobjs' & ->). rewrite Hobjs in Hobjs'.
    inversion Hobjs'; subst. rewrite Hnone. reflexivity. }
  unfold IChat.parse_typedstream_chat. split.
  - destruct (es <- getattr tschat "elements" ;;
              e0 <- getitem es (PInt 0) ;;
              getattr e0 "value") as [protocol|e]; cbn [bind]; [|eauto].
    destruct (IChat.run_loops ext tschat protocol) as [s|s e] eqn:Hrun; [|eauto].
    rewrite (Hlast _ _ Hrun). cbn [bind]. eauto.
  - intros protocol s -> Hrun. cbn [bind]. rewrite Hrun, (Hlast _ _ Hrun). reflexivity.
Qed.

Lemma typedstream_needs_a_message_witness :
  (exists e, IChat.parse_typedstream_chat null_externals
               (chat_of [obj_of_class "Presentity" []]) = Raise e) /\
  IChat.parse_typedstream_chat null_externals (chat_of [obj_of_class "Presentity" []])
  = Raise IndexError.
Proof.
  destruct (typedstream_needs_a_message null_externals
              (chat_of [obj_of_class "Presentity" []]) [obj_of_class "Presentity" []]
              eq_refl eq_refl) as [Hraise Hindex].
  split; [exact Hraise|].
  destruct (IChat.run_loops null_externals (chat_of [obj_of_class "Presentity" []])
              (PStr (s_ "AIM"))) as [s|s e] eqn:Hrun; [|vm_compute in Hrun; discriminate Hrun].
  exact (Hindex _ _ eq_refl Hrun).
Defined.

(** * Adapter B: which exceptions an element of a message lets through *)

Lemma try_except_abrupt (h : exn -> bool) (o : IChat.outcome) (s : IChat.state) (e : exn) :
  IChat.try_except h o = IChat.Abrupt s e -> h e = false.
Proof.
  destruct o as [s1|s1 e1]; cbn [IChat.try_except]; [discriminate|].
  destruct (h e1) eqn:He; [discriminate|]. intros H; inversion H; subst. exact He.
Qed.

(** X16: reading one element of an instant message never ends in an
    [AttributeError], which all three [try] statements handle; an
    [IndexError] is handled by the third only, so a [Presentity] with fewer
    than two contents ends the element, and with it the conversion, with an
    [IndexError]. *)
Theorem content_item_error_handling (ext : externals) (s : IChat.state) (i : pyobj) :
  (forall s' e, IChat.content_item ext s i = IChat.Abrupt s' e -> e <> AttributeError) /\
  (forall v cs,
      getattr i "value" = Ok v ->
      IChat.class_name v = Ok (PStr (s_ "Presentity")) ->
      getattr v "contents" = Ok (PList cs) ->
      len cs < 2 ->
      IChat.content_item ext s i = IChat.Abrupt s IndexError).
Proof.
  split.
  - intros s' e H ->. unfold IChat.content_item in H.
    destruct (IChat.presentity_block s i) as [s1|s1 e1] eqn:H1; cbn [IChat.and_then] in H.
    + destruct (IChat.date_block s1 i) as [s2|s2 e2] eqn:H2; cbn [IChat.and_then] in H.
      * apply try_except_abrupt in H. discriminate H.
      * inversion H; subst. apply try_except_abrupt in H2. discriminate H2.
    + inversion H; subst. apply try_except_abrupt in H1. discriminate H1.
  - intros v cs Hv Hc Hcs Hlen. unfold IChat.content_item, IChat.presentity_block.
    rewrite Hv. cbn [IChat.eval]. rewrite Hc. cbn [IChat.eval].
    change (eq_str (PStr (s_ "Presentity")) (s_ "Presentity")) with true. cbv iota.
    rewrite Hcs. cbn [bind getitem].
    assert (Hno : seq_index cs 1 = Raise IndexError).
    { destruct cs as [|x [|y cs]]; [reflexivity|reflexivity|].
      unfold len in Hlen. cbn [List.length] in Hlen. lia. }
    rewrite Hno. reflexivity.
Qed.

Lemma content_item_error_handling_witness :
  IChat.content_item null_externals IChat.initial_state
    (typed (obj_of_class "Presentity" [])) = IChat.Abrupt IChat.initial_state IndexError /\
  IChat.parse_typedstream_chat null_externals short_presentity_chat = Raise IndexError.
Proof.
  split; [|reflexivity].
  destruct (content_item_error_handling null_externals IChat.initial_state
              (typed (obj_of_class "Presentity" []))) as [_ H].
  apply (H (obj_of_class "Presentity" []) []); reflexivity.
Defined.

(** * Colours and the [--no-background] option *)

Lemma map_clear_bgcolor (msgs : list Message) :
  Forall (fun m => m_bgcolor m = None) msgs -> map clear_bgcolor msgs = msgs.
Proof.
  induction 1 as [|m l Hm Hl IH]; cbn [map]; [reflexivity|].
  rewrite IH. f_equal. destruct m; cbn in Hm; subst. reflexivity.
Qed.

Ltac read_through :=
  repeat match goal with
         | H : bind _ _ = Ok _ |- _ => bind_inv H
         | H : (if ?c then _ else _) = Ok _ |- _ => destruct c
         | H : match ?c with _ => _ end = Ok _ |- _ => destruct c
         | H : Ok _ = Ok _ |- _ => inversion H; subst; clear H
         | H : Raise _ = Ok _ |- _ => discriminate H
         end.

Section AdapterAColours.
Variable ext : externals.

Lemma read_text_no_colour (msg_obj : pyobj) (m m' : Message) (h h' : option bool) :
  Bplist.read_text ext msg_obj m h = Ok (m', h') ->
  m_textcolor m' = m_textcolor m /\ m_bgcolor m' = m_bgcolor m.
Proof.
  unfold Bplist.read_text, Bplist.read_attachment, Bplist.read_style, Bplist.read_font.
  intros H. read_through; auto.
Qed.

Lemma process_message_no_colour (st st' : Bplist.loop_state) (msg_obj : pyobj) :
  Bplist.process_message ext st msg_obj = Ok st' ->
  Forall (fun m => m_textcolor m = None /\ m_bgcolor m = None) (Bplist.ls_messages st) ->
  Forall (fun m => m_textcolor m = None /\ m_bgcolor m = None) (Bplist.ls_messages st').
Proof.
  unfold Bplist.process_message. intros H Hall.
  bind_inv H. bind_inv H.
  destruct (eq_str a0 (s_ "InstantMessage")); [|inversion H; subst; exact Hall].
  bind_inv H. bind_inv H. bind_inv H. destruct a3 as [ps1 m1].
  bind_inv H. bind_inv H. bind_inv H. destruct a5 as [m3 h3].
  inversion H; subst; clear H. cbn [Bplist.ls_messages].
  apply Forall_app. split; [exact Hall|]. constructor; [|constructor].
  apply read_text_no_colour in E6. destruct E6 as [-> ->].
  assert (H4 : m_textcolor a4 = m_textcolor m1 /\ m_bgcolor a4 = m_bgcolor m1).
  { clear - E5. read_through; auto. }
  destruct H4 as [-> ->].
  assert (H1 : m_textcolor m1 = m_textcolor a2 /\ m_bgcolor m1 = m_bgcolor a2).
  { clear - E3. unfold Bplist.read_sender in E3. read_through; auto. }
  destruct H1 as [-> ->].
  clear - E2. read_through; auto.
Qed.

Lemma process_messages_no_colour (msg_objs : list pyobj) :
  forall st st',
    Bplist.process_messages ext st msg_objs = Ok st' ->
    Forall (fun m => m_textcolor m = None /\ m_bgcolor m = None) (Bplist.ls_messages st) ->
    Forall (fun m => m_textcolor m = None /\ m_bgcolor m = None) (Bplist.ls_messages st').
Proof.
  induction msg_objs as [|x l IH]; intros st st' H Hall; cbn [Bplist.process_messages] in H.
  - inversion H; subst. exact Hall.
  - bind_inv H. eapply IH; [exact H|]. eapply process_message_no_colour; eassumption.
Qed.

End AdapterAColours.

(** X17: Adapter A records neither a text colour nor a background colour, so
    the [--no-background] step of [main] leaves a conversation read from an
    [.ichat] file as it is. *)
Theorem no_background_changes_no_bplist_conversation
  (ext : externals) (base : pyobj) (conv : Conversation) :
  Bplist.bplist_to_conv ext base = Ok conv ->
  Forall (fun m => m_textcolor m = None /\ m_bgcolor m = None) (messages conv) /\
  strip_background conv = conv.
Proof.
  intros H. apply bplist_to_conv_loop in H.
  destruct H as (root & msg_list & msg_objs & st & _ & _ & _ & Hrun & _ & Hm).
  apply process_messages_no_colour in Hrun; [|constructor].
  rewrite <- Hm in Hrun. split; [exact Hrun|].
  unfold strip_background. rewrite map_clear_bgcolor.
  - destruct conv; reflexivity.
  - eapply Forall_impl; [|exact Hrun]. intros m [_ Hb]. exact Hb.
Qed.

Lemma no_background_changes_no_bplist_conversation_witness :
  match Bplist.bplist_to_conv null_externals mixed_archive with
  | Ok conv =>
    Forall (fun m => m_textcolor m = None /\ m_bgcolor m = None) (messages conv) /\
    strip_background conv = conv
  | Raise _ => False
  end.
Proof.
  destruct (Bplist.bplist_to_conv null_externals mixed_archive) as [conv|e] eqn:E;
    [|vm_compute in E; discriminate E].
  exact (no_background_changes_no_bplist_conversation _ _ _ E).
Defined.

(** * From a container to an attachment *)

(** X18: both adapters turn a container holding a UTF-8 file name and a
    payload into an attachment whose file name and logical name are that
    name, whose data is that payload, and whose type is determined from the
    payload, not from the container: the private wrapper type when the
    payload is itself a container, which is kept as it is, and what the
    sniffer says in every other case. *)
Theorem attachment_of_container
  (ext : externals) (hdr : Z) (fname payload : bytes) (s : pystr) :
  len fname < 2147483640 -> len payload < 2147483640 ->
  decode_utf8 fname = Ok s ->
  decoded_attachment ext
    (PBytes (container_of_files hdr [(Rtfd.utf8_preferred_name, fname);
                                     (Rtfd.dot, payload)])) =
  Ok (mk_attachment (Some s) (Some (PBytes payload)) (Some s)
        (Some (if bytes_eqb (py_slice payload 0 4) Rtfd.magic
               then nsfilewrapper_type else sniff_mime ext payload))
        None).
Proof.
  intros Hf Hp Hs. unfold decoded_attachment.
  rewrite (container_outdict hdr fname payload s Hf Hp Hs).
  cbn [bind Rtfd.read Rtfd.filename Rtfd.data].
  unfold determine_attachment_type. cbn [Rtfd.has_rtfd_magic].
  destruct (bytes_eqb (py_slice payload 0 4) Rtfd.magic); reflexivity.
Qed.

Lemma attachment_of_container_witness :
  decoded_attachment null_externals
    (PBytes (container_of_files 1 [(Rtfd.utf8_preferred_name, b_ "inner.rtfd");
                                   (Rtfd.dot, note_container [])])) =
  Ok (mk_attachment (Some (s_ "inner.rtfd")) (Some (PBytes (note_container [])))
        (Some (s_ "inner.rtfd")) (Some nsfilewrapper_type) None).
Proof.
  apply (attachment_of_container null_externals 1 (b_ "inner.rtfd") (note_container []));
    reflexivity.
Defined.

(** * The plain-text view of a conversation *)

Section PlainTextView.
Variable clock : pyobj -> result pystr.
Hypothesis clock_formats : forall t aw, exists r, clock (PDatetime t aw) = Ok r.

Lemma text_line_ok (m : Message) :
  opt (fun d => is_datetime d = true) (m_dateobj m) ->
  opt (fun f => exists s, f = PStr s) (m_from m) ->
  text_is_str m ->
  exists line, text_line clock m = Ok line.
Proof.
  unfold text_line, text_is_str, opt. intros Hd Hf Ht.
  assert (H1 : exists stamp,
             match m_dateobj m with
             | Some d => (t <- clock d ;; Ok (s_ "(" ++ t ++ s_ ")&nbsp;"))
             | None => Ok []
             end = Ok stamp).
  { destruct (m_dateobj m) as [d|]; [|eauto].
    destruct d as [| | | | | |t aw| | |]; try discriminate.
    destruct (clock_formats t aw) as [r ->]. cbn [bind]. eauto. }
  destruct H1 as [stamp ->]. cbn [bind].
  assert (H2 : exists who,
             match m_from m with
             | Some f => (f <- as_str f ;; Ok (f ++ [58; 9]))
             | None => Ok []
             end = Ok who).
  { destruct (m_from m) as [f|]; [|eauto]. destruct Hf as [r ->]. cbn. eauto. }
  destruct H2 as [who ->]. cbn [bind].
  destruct (m_text m) as [t|]; [|cbn; eauto]. destruct Ht as [r ->]. cbn. eauto.
Qed.

Lemma text_lines_ok (msgs : list Message) :
  Forall (fun m => opt (fun d => is_datetime d = true) (m_dateobj m)) msgs ->
  Forall (fun m => opt (fun f => exists s, f = PStr s) (m_from m)) msgs ->
  Forall (fun m => opt complete (m_attachment m)) msgs ->
  Forall text_is_str msgs ->
  exists lines,
    text_lines clock msgs = Ok lines /\
    len lines = len msgs + len (filter carries msgs).
Proof.
  induction msgs as [|m l IH]; intros Hd Hf Ha Ht; cbn [text_lines filter].
  - exists []. split; reflexivity.
  - apply Forall_cons_iff in Hd, Hf, Ha, Ht.
    destruct Hd as [Hd Hds], Hf as [Hf Hfs], Ha as [Ha Has], Ht as [Ht Hts].
    destruct (text_line_ok m Hd Hf Ht) as [line ->]. cbn [bind].
    destruct (IH Hds Hfs Has Hts) as (more & Hmore & Hlen).
    unfold carries at 1. unfold opt in Ha.
    destruct (m_attachment m) as [a|].
    + destruct Ha as (_ & Hname & _ & Hcid). unfold attachment_line.
      destruct (att_content_id a) as [cid|]; [|contradiction].
      destruct (att_name a) as [name|]; [|contradiction].
      cbn [Rtfd.read bind]. rewrite Hmore. cbn [bind]. eexists. split; [reflexivity|].
      unfold len in *. cbn [List.length app]. lia.
    + cbn [bind]. rewrite Hmore. cbn [bind]. eexists. split; [reflexivity|].
      unfold len in *. cbn [List.length app]. lia.
Qed.

End PlainTextView.

(** X19: the plain-text view of a conversation read by Adapter A is built
    without an exception as soon as the clock formats every [datetime] and
    every message text is a [str]: no key it reads is missing and no sender
    or attachment field has the wrong type.  It has one line for every
    message and one more for every message with an attachment. *)
Theorem plain_text_of_bplist_conversation
  (ext : externals) (clock : pyobj -> result pystr) (base : pyobj) (conv : Conversation) :
  (forall t aw, exists r, clock (PDatetime t aw) = Ok r) ->
  Bplist.bplist_to_conv ext base = Ok conv ->
  Forall text_is_str (messages conv) ->
  exists lines,
    text_lines clock (messages conv) = Ok lines /\
    len lines = len (messages conv) + len (filter carries (messages conv)).
Proof.
  intros Hclock H Htext. apply bplist_to_conv_loop in H.
  destruct H as (root & msg_list & msg_objs & st & _ & _ & _ & Hrun & _ & Hm).
  apply process_messages_ok in Hrun; [|repeat split; constructor].
  destruct Hrun as [(_ & _ & Hok & _) _]. rewrite <- Hm in Hok.
  apply text_lines_ok; try assumption.
  - eapply Forall_impl; [|exact Hok]. intros m (Hd & _). revert Hd.
    unfold opt. destruct (m_dateobj m); [|auto]. intros [t ->]. reflexivity.
  - eapply Forall_impl; [|exact Hok]. intros m (_ & _ & Hf). revert Hf.
    unfold opt. destruct (m_from m); [|auto]. intros (r & -> & _). eauto.
  - eapply Forall_impl; [|exact Hok]. intros m (_ & Ha & _). exact Ha.
Qed.

Lemma plain_text_of_bplist_conversation_witness :
  match Bplist.bplist_to_conv null_externals mixed_archive with
  | Ok conv =>
    exists lines,
      text_lines still_clock (messages conv) = Ok lines /\
      len lines = len (messages conv) + len (filter carries (messages conv))
  | Raise _ => False
  end.
Proof.
  destruct (Bplist.bplist_to_conv null_externals mixed_archive) as [conv|e] eqn:E;
    [|vm_compute in E; discriminate E].
  apply (plain_text_of_bplist_conversation null_externals still_clock mixed_archive conv).
  - intros t aw. eexists. reflexivity.
  - exact E.
  - vm_compute in E. inversion E. unfold text_is_str. cbn.
    repeat constructor; eexists; reflexivity.
Defined.

(** X20: the same for a conversation read by Adapter B, whose senders are
    whatever the archive holds: when they and the texts are [str] values, the
    plain-text view is built without an exception, one line for every message
    and one more for every attachment. *)
Theorem plain_text_of_typedstream_conversation
  (ext : externals) (clock : pyobj -> result pystr) (tschat : pyobj) (conv : Conversation) :
  (forall t aw, exists r, clock (PDatetime t aw) = Ok r) ->
  IChat.parse_typedstream_chat ext tschat = Ok conv ->
  Forall from_is_str (messages conv) ->
  Forall text_is_str (messages conv) ->
  exists lines,
    text_lines clock (messages conv) = Ok lines /\
    len lines = len (messages conv) + len (filter carries (messages conv)).
Proof.
  intros Hclock H Hfrom Htext. unfold IChat.parse_typedstream_chat in H. bind_inv H.
  pose proof (run_loops_chat_ok ext tschat a) as Hok.
  destruct (IChat.run_loops ext tschat a) as [s|s e]; [|discriminate].
  bind_inv H. inversion H; subst; clear H. cbn [messages] in *.
  destruct Hok as (_ & Hms & _).
  apply text_lines_ok; try assumption.
  - eapply Forall_impl; [|exact Hms]. intros m [Hd _]. exact Hd.
  - eapply Forall_impl; [|exact Hms]. intros m [_ Ha]. exact Ha.
Qed.

Lemma plain_text_of_typedstream_conversation_witness :
  match IChat.parse_typedstream_chat null_externals three_message_chat with
  | Ok conv =>
    exists lines,
      text_lines still_clock (messages conv) = Ok lines /\
      len lines = len (messages conv) + len (filter carries (messages conv))
  | Raise _ => False
  end.
Proof.
  destruct (IChat.parse_typedstream_chat null_externals three_message_chat)
    as [conv|e] eqn:E; [|vm_compute in E; discriminate E].
  apply (plain_text_of_typedstream_conversation null_externals still_clock
           three_message_chat conv).
  - intros t aw. eexists. reflexivity.
  - exact E.
  - vm_compute in E. inversion E. unfold from_is_str. cbn.
    repeat constructor; eexists; reflexivity.
  - vm_compute in E. inversion E. unfold text_is_str. cbn.
    repeat constructor; eexists; reflexivity.
Defined.

(** * The [References] header *)

Lemma pystr_leb_total (a : pystr) :
  forall b, pystr_leb a b = true \/ pystr_leb b a = true.
Proof.
  induction a as [|x a IH]; intros [|y b]; cbn [pystr_leb]; auto.
  destruct (Z.ltb_spec x y); [auto|]. destruct (Z.ltb_spec y x); [auto|].
  assert (x = y) by lia. subst. rewrite Z.eqb_refl. cbn. apply IH.
Qed.

Lemma pystr_leb_antisym (a : pystr) :
  forall b, pystr_leb a b = true -> pystr_leb b a = true -> a = b.
Proof.
  induction a as [|x a IH]; intros [|y b]; cbn [pystr_leb]; try discriminate; auto.
  rewrite !orb_true_iff, !andb_true_iff, !Z.ltb_lt, !Z.eqb_eq.
  intros [H1|[H1 H1']] [H2|[H2 H2']]; try lia.
  subst. f_equal. apply IH; assumption.
Qed.

Lemma pystr_leb_trans (a : pystr) :
  forall b c, pystr_leb a b = true -> pystr_leb b c = true -> pystr_leb a c = true.
Proof.
  induction a as [|x a IH]; intros [|y b] [|z c]; cbn [pystr_leb]; try discriminate; auto.
  rewrite !orb_true_iff, !andb_true_iff, !Z.ltb_lt, !Z.eqb_eq.
  intros [H1|[H1 H1']] [H2|[H2 H2']]; try (left; lia).
  right. split; [lia|]. eapply IH; eassumption.
Qed.

Lemma insert_sorted_perm (x : pystr) (l : list pystr) :
  Permutation (x :: l) (insert_sorted x l).
Proof.
  induction l as [|y l IH]; cbn [insert_sorted]; [reflexivity|].
  destruct (pystr_leb x y); [reflexivity|].
  rewrite perm_swap. apply perm_skip. exact IH.
Qed.

Lemma sorted_perm (l : list pystr) : Permutation l (sorted l).
Proof.
  induction l as [|x l IH]; cbn [sorted fold_right]; [reflexivity|].
  rewrite <- insert_sorted_perm. apply perm_skip. exact IH.
Qed.

Lemma insert_sorted_ordered (x : pystr) (l : list pystr) :
  StronglySorted (fun a b => pystr_leb a b = true) l ->
  StronglySorted (fun a b => pystr_leb a b = true) (insert_sorted x l).
Proof.
  induction 1 as [|y l Hl IH Hy]; cbn [insert_sorted].
  - constructor; constructor.
  - destruct (pystr_leb x y) eqn:Hxy.
    + constructor; [constructor; assumption|]. constructor; [assumption|].
      eapply Forall_impl; [|exact Hy]. intros z Hz. eapply pystr_leb_trans; eassumption.
    + constructor; [assumption|].
      apply (Permutation_Forall (insert_sorted_perm x l)). constructor; [|assumption].
      destruct (pystr_leb_total x y) as [H|H]; [congruence|exact H].
Qed.

Lemma sorted_ordered (l : list pystr) :
  StronglySorted (fun a b => pystr_leb a b = true) (sorted l).
Proof.
  induction l as [|x l IH]; cbn [sorted fold_right]; [constructor|].
  apply insert_sorted_ordered. exact IH.
Qed.

Lemma ordered_perm_unique (l : list pystr) :
  forall l',
    StronglySorted (fun a b => pystr_leb a b = true) l ->
    StronglySorted (fun a b => pystr_leb a b = true) l' ->
    Permutation l l' -> l = l'.
Proof.
  induction l as [|x l IH]; intros l' Hl Hl' Hp.
  - apply Permutation_nil in Hp. auto.
  - destruct l' as [|y l']; [apply Permutation_sym, Permutation_nil in Hp; discriminate|].
    inversion Hl as [|? ? Hs Hx]; subst. inversion Hl' as [|? ? Hs' Hy]; subst.
    assert (Hxy : x = y).
    { assert (Hin : In x (y :: l')) by (eapply Permutation_in; [exact Hp|left; reflexivity]).
      assert (Hin' : In y (x :: l)).
      { eapply Permutation_in; [apply Permutation_sym; exact Hp|left; reflexivity]. }
      destruct Hin as [->|Hin]; [reflexivity|].
      destruct Hin' as [->|Hin']; [reflexivity|].
      apply pystr_leb_antisym.
      - rewrite Forall_forall in Hx. apply Hx. exact Hin'.
      - rewrite Forall_forall in Hy. apply Hy. exact Hin. }
    subst. f_equal. apply IH; try assumption.
    eapply Permutation_cons_inv. exact Hp.
Qed.

Lemma sorted_of_perm (l l' : list pystr) :
  Permutation l l' -> sorted l = sorted l'.
Proof.
  intros Hp. apply ordered_perm_unique; try apply sorted_ordered.
  rewrite <- (sorted_perm l), <- (sorted_perm l'). exact Hp.
Qed.

Lemma all_str_of_perm (l l' : list pyobj) :
  Permutation l l' ->
  (all_str l = Raise TypeError /\ all_str l' = Raise TypeError) \/
  (exists ids ids', all_str l = Ok ids /\ all_str l' = Ok ids' /\ Permutation ids ids').
Proof.
  induction 1 as [|x l l' Hp IH|x y l|l l' l'' Hp IH Hp' IH'].
  - right. exists [], []. repeat split. constructor.
  - cbn [all_str]. destruct x; cbn [as_str bind]; auto.
    destruct IH as [[-> ->]|(ids & ids' & -> & -> & Hids)]; cbn [bind]; auto.
    right. eexists _, _. repeat split. apply perm_skip. exact Hids.
  - cbn [all_str]. destruct x, y; cbn [as_str bind]; auto;
      destruct (all_str l) as [ids|e] eqn:E; cbn [bind]; auto.
    + right. eexists _, _. repeat split. apply perm_swap.
    + left. clear - E. revert e E. induction l as [|o l IH]; intros e E; [discriminate|].
      cbn [all_str] in E. destruct o; cbn [as_str bind] in E;
        try (inversion E; subst; auto; fail).
      destruct (all_str l) as [ids|e'] eqn:E'; cbn [bind] in E; [discriminate|].
      inversion E; subst. destruct (IH _ eq_refl). auto.
  - destruct IH as [[-> H1]|(ids & ids' & -> & H1 & Hids)];
      destruct IH' as [[H2 ->]|(ids2 & ids2' & H2 & -> & Hids')]; try congruence; auto.
    right. rewrite H1 in H2. inversion H2; subst.
    eexists _, _. repeat split. eapply perm_trans; eassumption.
Qed.

(** X21: the [References] header does not depend on the order of the
    participants, so two conversations between the same people get the same
    value whoever wrote first. *)
Theorem references_ignore_the_order
  (ext : externals) (lower : pystr -> pystr) (encode : pystr -> result bytes)
  (ps ps' : list pyobj) (fakedomain : pystr) :
  Permutation ps ps' ->
  references ext lower encode ps fakedomain = references ext lower encode ps' fakedomain.
Proof.
  intros Hp. unfold references.
  destruct (all_str_of_perm _ _ Hp) as [[-> ->]|(ids & ids' & -> & -> & Hids)];
    [reflexivity|].
  cbn [bind]. rewrite (sorted_of_perm _ _ Hids). reflexivity.
Qed.

Lemma references_ignore_the_order_witness :
  references null_externals (fun s => s) (fun _ => Ok [])
             [PStr (s_ "bob"); PStr (s_ "alice")] (s_ "AIM.ichat.invalid") =
  references null_externals (fun s => s) (fun _ => Ok [])
             [PStr (s_ "alice"); PStr (s_ "bob")] (s_ "AIM.ichat.invalid").
Proof.
  apply references_ignore_the_order. apply perm_swap.
Defined.

(** * The [From] and [To] headers *)

Lemma address_of_str (r fakedomain : pystr) :
  exists h, address (PStr r) fakedomain = Ok h.
Proof. eexists. reflexivity. Qed.

(** X22: for a conversation read by Adapter A the [From] header is always
    built, and the [To] header is built unless no sender was discovered: then
    every message's ['from'] is absent or empty, the participants are the
    single ['UNKNOWN'], and reading [conv['participants'][1]] raises
    [IndexError]. *)
Theorem to_header_needs_a_sender
  (ext : externals) (base : pyobj) (conv : Conversation) (fakedomain : pystr) :
  Bplist.bplist_to_conv ext base = Ok conv ->
  (exists h, from_header conv fakedomain = Ok h) /\
  ((exists h, to_header conv fakedomain = Ok h) \/
   (participants conv = [PStr (s_ "UNKNOWN")] /\
    Forall (fun m => m_from m = None \/ m_from m = Some (PStr [])) (messages conv) /\
    to_header conv fakedomain = Raise IndexError)).
Proof.
  intros H. apply bplist_to_conv_loop in H.
  destruct H as (root & msg_list & msg_objs & st & _ & _ & _ & Hrun & Hp & Hm).
  apply process_messages_ok in Hrun; [|repeat split; constructor].
  destruct Hrun as [(_ & Hfree & _ & Hknown & _) _].
  unfold from_header, to_header. rewrite Hp, Hm.
  destruct (pad_participants_cases (Bplist.ls_participants st)) as (P0 & P1 & P2).
  destruct (Bplist.ls_participants st) as [|p [|q rest]].
  - rewrite P0 by reflexivity. split; [apply address_of_str|]. right.
    split; [reflexivity|]. split; [|reflexivity].
    eapply Forall_impl; [|exact Hknown]. intros m. unfold sender_known, opt.
    destruct (m_from m) as [who|]; [|auto]. intros [->|Hin]; [auto|discriminate Hin].
  - rewrite P1 by reflexivity. apply Forall_cons_iff in Hfree.
    destruct Hfree as [(r & -> & _) _]. split; [apply address_of_str|].
    left. apply address_of_str.
  - rewrite P2 by (unfold len; cbn [List.length]; lia).
    apply Forall_cons_iff in Hfree. destruct Hfree as [(r & -> & _) Hfree].
    apply Forall_cons_iff in Hfree. destruct Hfree as [(r' & -> & _) _].
    split; [apply address_of_str|]. left. apply address_of_str.
Qed.

Lemma to_header_needs_a_sender_witness :
  match Bplist.bplist_to_conv null_externals (keyed_archive "Jabber" [senderless_message]) with
  | Ok conv =>
    (exists h, from_header conv (s_ "Jabber.ichat.invalid") = Ok h) /\
    to_header conv (s_ "Jabber.ichat.invalid") = Raise IndexError
  | Raise _ => False
  end /\
  match Bplist.bplist_to_conv null_externals mixed_archive with
  | Ok conv => exists h, to_header conv (s_ "Jabber.ichat.invalid") = Ok h
  | Raise _ => False
  end.
Proof.
  split.
  - destruct (Bplist.bplist_to_conv null_externals
                (keyed_archive "Jabber" [senderless_message])) as [conv|e] eqn:E;
      [|vm_compute in E; discriminate E].
    destruct (to_header_needs_a_sender _ _ _ (s_ "Jabber.ichat.invalid") E)
      as [Hfrom [[h Hto]|(_ & _ & Hto)]].
    + vm_compute in E. inversion E; subst. vm_compute in Hto. discriminate Hto.
    + split; assumption.
  - destruct (Bplist.bplist_to_conv null_externals mixed_archive) as [conv|e] eqn:E;
      [|vm_compute in E; discriminate E].
    destruct (to_header_needs_a_sender _ _ _ (s_ "Jabber.ichat.invalid") E)
      as [_ [Hto|(Hps & _ & _)]]; [exact Hto|].
    vm_compute in E. inversion E; subst. vm_compute in Hps. discriminate Hps.
Defined.
